(** * YourTwin ML service: feature pipeline, model registry, inference router

    A shallow embedding of the serving layer of [yourtwin-ml]:
    - [src/data/feature_extractor.py]   -> [Module FeatureExtractor]
    - [src/utils/model_registry.py]     -> [Module ModelRegistry]
    - [src/inference/model_inference.py] -> [Module ModelInference]

    Conventions of the embedding.
    - Python numbers (int and float alike) are exact rationals [Q]; the
      rounding of binary floating point is not represented.  Every division
      of the embedded code has a divisor that the code itself keeps away
      from zero, so [Qdiv] never meets its total-function corner.
    - A Python [dict] whose iteration order is observed is an association
      list in insertion order ([Py.dict]); a dict that is only read by key
      is a [gmap].
    - Code that can raise returns [Py.result]; [try: ... except Exception]
      is [Py.try_except].
    - Database reads and file-system writes are assumed to succeed; the
      documents read have the field types the code expects.
    - One call runs at one instant: every [datetime.now()] inside it reads
      the same [now]. *)

From Stdlib Require Import QArith Qround Qabs Qminmax Lqa ZArith Lia String Ascii
  List Bool PrimFloat SpecFloat FloatOps Sorted Qpower.
From stdpp Require Import base option gmap strings list.

Local Open Scope string_scope.
Local Open Scope list_scope.
Local Open Scope Z_scope.

Set Warnings "-register-all".

(* ===================================================================== *)
(** ** Python values, exceptions and built-ins                            *)
(* ===================================================================== *)

Module Py.

(** The exception classes the embedded code raises or may meet. *)
Inductive exn : Type :=
| ValueError (msg : string)
| FileNotFoundError (msg : string)
| InvalidId (msg : string)
| TypeError (msg : string)
| IndexError (msg : string)
| KeyError (msg : string)
| AttributeError (msg : string)
| RuntimeError (msg : string).

Inductive result (A : Type) : Type :=
| Ok (a : A)
| Raise (e : exn).
Arguments Ok {A} a.
Arguments Raise {A} e.

Definition bind {A B} (m : result A) (k : A -> result B) : result B :=
  match m with
  | Ok a => k a
  | Raise e => Raise e
  end.

(** [try: body  except Exception as e: handler(e)] *)
Definition try_except {A} (body : result A) (handler : exn -> A) : A :=
  match body with
  | Ok a => a
  | Raise e => handler e
  end.


(** *** Numbers *)

Definition ltb (x y : Q) : bool := negb (Qle_bool y x).
Definition leb (x y : Q) : bool := Qle_bool x y.
Definition gtb (x y : Q) : bool := ltb y x.
Definition geb (x y : Q) : bool := leb y x.
Definition eqb (x y : Q) : bool := Qeq_bool x y.

(** [min(a, b)] and [max(a, b)]: the first argument is kept unless the
    second is strictly smaller (resp. greater). *)
Definition min (a b : Q) : Q := if ltb b a then b else a.
Definition max (a b : Q) : Q := if gtb b a then b else a.

(** [x or d] on numbers: a zero is falsy. *)
Definition or_num (x d : Q) : Q := if eqb x 0 then d else x.

(** [int(x)]: truncation toward zero. *)
Definition int (x : Q) : Z := Z.quot (Qnum x) (Z.pos (Qden x)).

(** Rounding to the nearest integer, ties to even, as [round] does. *)
Definition round_half_even (x : Q) : Z :=
  let f := Qfloor x in
  match Qcompare (x - inject_Z f) (1 # 2) with
  | Lt => f
  | Gt => f + 1
  | Eq => if Z.even f then f else f + 1
  end.

(** [round(x, ndigits)] *)
Definition round (x : Q) (ndigits : nat) : Q :=
  let scale := inject_Z (10 ^ Z.of_nat ndigits) in
  (inject_Z (round_half_even (x * scale)) / scale)%Q.

(** *** Binary64

    Where rounding decides what the code does, a [float] operation is the
    exact operation followed by [f64], the rounding of IEEE-754 binary64
    (round to nearest, ties to even) written out on the rationals; the
    Python floats are the values [f64] leaves unchanged.  The exponent
    range is unbounded above: no operation of the embedded code
    overflows on numbers a document can hold. *)

Definition pow2 (k : Z) : Q := Qpower 2 k.

(** The exponent of a positive rational: [2^e <= q < 2^(e+1)]. *)
Definition floor_log2 (q : Q) : Z :=
  let e0 := (Z.log2 (Qnum q) - Z.log2 (Z.pos (Qden q)))%Z in
  if Qle_bool (pow2 e0) q then e0 else (e0 - 1)%Z.

(** The exponent of the unit in the last place of the binary64 numbers
    around [q]: 53 significant bits, subnormal below [2^-1022]. *)
Definition ulp_exp (q : Q) : Z :=
  (Z.max (floor_log2 (Qabs q)) (-1022) - 52)%Z.

(** The binary64 number nearest to [q], ties to the even significand. *)
Definition f64 (q : Q) : Q :=
  (inject_Z (round_half_even (q / pow2 (ulp_exp q))) * pow2 (ulp_exp q))%Q.

(** [a + b], [a - b], [a * b] and [a / b] on floats; an operand that is an
    integer or a literal is converted first, and one that is a float
    already is left as it is. *)
Definition fadd (a b : Q) : Q := f64 (f64 a + f64 b)%Q.
Definition fsub (a b : Q) : Q := f64 (f64 a - f64 b)%Q.
Definition fmul (a b : Q) : Q := f64 (f64 a * f64 b)%Q.
Definition fdiv (a b : Q) : Q := f64 (f64 a / f64 b)%Q.

(** *** Ordered dictionaries *)

Abbreviation dict V := (list (string * V)).

Section Dict.
Context {V : Type}.

(** [d.get(k)] *)
Fixpoint dlookup (d : dict V) (k : string) : option V :=
  match d with
  | [] => None
  | (k', v) :: r => if String.eqb k k' then Some v else dlookup r k
  end.

(** [d.get(k, dflt)] *)
Definition get (d : dict V) (k : string) (dflt : V) : V :=
  match dlookup d k with Some v => v | None => dflt end.

(** [k in d] *)
Definition contains (d : dict V) (k : string) : bool :=
  match dlookup d k with Some _ => true | None => false end.

(** [d[k] = v]: an existing key keeps its position, a new one goes last. *)
Fixpoint set (d : dict V) (k : string) (v : V) : dict V :=
  match d with
  | [] => [(k, v)]
  | (k', v') :: r =>
      if String.eqb k k' then (k', v) :: r else (k', v') :: set r k v
  end.

(** [del d[k]] *)
Fixpoint del (d : dict V) (k : string) : dict V :=
  match d with
  | [] => []
  | (k', v') :: r => if String.eqb k k' then r else (k', v') :: del r k
  end.

Definition keys (d : dict V) : list string := map fst d.
Definition values (d : dict V) : list V := map snd d.
Definition len (d : dict V) : Z := Z.of_nat (length d).
End Dict.

(** *** Values stored in response dictionaries *)

Inductive value : Type :=
| VNone
| VBool (b : bool)
| VNum (q : Q)
| VStr (s : string)
| VList (l : list value)
| VDict (d : list (string * value)).

(** *** Printing integers, for [str(int)] and the [f"{x:.0f}"] family *)

Definition digit_char (d : Z) : ascii := ascii_of_nat (48 + Z.to_nat d).

Fixpoint digits_fuel (fuel : nat) (n : Z) (acc : string) : string :=
  match fuel with
  | O => acc
  | S fuel' =>
      let acc' := String (digit_char (n mod 10)) acc in
      if n / 10 =? 0 then acc' else digits_fuel fuel' (n / 10) acc'
  end.

(** [str(n)] for an integer [n]. *)
Definition str_int (n : Z) : string :=
  let a := Z.abs n in
  let body := digits_fuel (S (Z.to_nat (Z.log2 a))) a "" in
  if n <? 0 then "-" +:+ body else body.

(** [f"{x:.0f}"] and [f"{x:.0%}"] *)
Definition format_0f (x : Q) : string :=
  let n := round_half_even x in
  if ((n =? 0) && ltb x 0)%bool then "-0" else str_int n.

Definition format_0pct (x : Q) : string := format_0f (x * 100) +:+ "%".

(** [l[:n]] and [[x] * n] *)
Definition slice_to {A} (l : list A) (n : Z) : list A :=
  if n <? 0 then firstn (Z.to_nat (Z.of_nat (length l) + n)) l
  else firstn (Z.to_nat n) l.

Definition repeat_list {A} (x : A) (n : Z) : list A :=
  List.repeat x (Z.to_nat n).

(** [l[i]] for a numeric index: an integer, negative ones counting from
    the end. *)
Definition index_list {A} (l : list A) (i : Q) : result A :=
  let r := Qred i in
  if negb (Pos.eqb (Qden r) 1) then
    Raise (TypeError "list indices must be integers or slices")
  else
    let n := Qnum r in
    let n := if n <? 0 then n + Z.of_nat (length l) else n in
    if n <? 0 then Raise (IndexError "list index out of range")
    else match nth_error l (Z.to_nat n) with
         | Some x => Ok x
         | None => Raise (IndexError "list index out of range")
         end.

(** *** Strings *)

(** [s[1:]] *)
Definition tail (s : string) : string :=
  match s with EmptyString => EmptyString | String _ r => r end.

(** [s.split(sep)] for a one-character separator: never empty. *)
Fixpoint split (sep : ascii) (s : string) : list string :=
  match s with
  | EmptyString => [EmptyString]
  | String c r =>
      if Ascii.eqb c sep then EmptyString :: split sep r
      else match split sep r with
           | [] => [String c EmptyString]
           | w :: ws => String c w :: ws
           end
  end.

(** [sep.join(l)] *)
Fixpoint join (sep : string) (l : list string) : string :=
  match l with
  | [] => EmptyString
  | [w] => w
  | w :: ws => w +:+ sep +:+ join sep ws
  end.

Definition is_space (c : ascii) : bool :=
  let n := nat_of_ascii c in
  ((n =? 32) || (9 <=? n) && (n <=? 13) || (28 <=? n) && (n <=? 31))%nat.

Fixpoint lstrip (s : list ascii) : list ascii :=
  match s with
  | c :: r => if is_space c then lstrip r else s
  | [] => []
  end.

Definition strip (s : list ascii) : list ascii :=
  rev (lstrip (rev (lstrip s))).

Definition digit_of (c : ascii) : option Z :=
  let n := nat_of_ascii c in
  if ((48 <=? n) && (n <=? 57))%nat then Some (Z.of_nat n - 48) else None.

(** Decimal digits with single underscores between digits.
    [prev_digit] tells whether the previous character was a digit. *)
Fixpoint parse_digits (acc : Z) (prev_digit : bool) (s : list ascii)
    : option Z :=
  match s with
  | [] => if prev_digit then Some acc else None
  | c :: r =>
      match digit_of c with
      | Some d => parse_digits (acc * 10 + d) true r
      | None =>
          if (Ascii.eqb c "_" && prev_digit)%bool
          then parse_digits acc false r
          else None
      end
  end.

(** [int(s)] for an ASCII string, base ten. *)
Definition int_of_str (s : string) : result Z :=
  let bad := Raise (ValueError
    ("invalid literal for int() with base 10: " +:+ s)) in
  match strip (list_ascii_of_string s) with
  | [] => bad
  | c :: r =>
      let '(sign, body) :=
        if Ascii.eqb c "-" then (-1, r)
        else if Ascii.eqb c "+" then (1, r)
        else (1, c :: r) in
      match parse_digits 0 false body with
      | Some n => Ok (sign * n)
      | None => bad
      end
  end.

(** [[f(x) for x in l]] when [f] can raise. *)
Fixpoint mapM {A B} (f : A -> result B) (l : list A) : result (list B) :=
  match l with
  | [] => Ok []
  | x :: r =>
      match f x with
      | Raise e => Raise e
      | Ok y => match mapM f r with
                | Raise e => Raise e
                | Ok ys => Ok (y :: ys)
                end
      end
  end.

(** Lexicographic [<] on lists of integers. *)
Fixpoint list_ltb (a b : list Z) : bool :=
  match a, b with
  | [], [] => false
  | [], _ :: _ => true
  | _ :: _, [] => false
  | x :: a', y :: b' =>
      if x <? y then true else if y <? x then false else list_ltb a' b'
  end.

(** [sorted(l, key=...)] on elements already paired with their keys:
    a stable insertion sort. *)
Fixpoint insert_sorted {A} (x : list Z * A) (l : list (list Z * A))
    : list (list Z * A) :=
  match l with
  | [] => [x]
  | y :: r =>
      if list_ltb (fst x) (fst y) then x :: y :: r
      else y :: insert_sorted x r
  end.

Definition sorted_by_key {A} (l : list (list Z * A)) : list A :=
  map snd (fold_left (fun acc x => insert_sorted x acc) l []).

(** [sorted(..., reverse=True)] by an integer key, as [list.sort] does it:
    equal keys keep their order. *)
Fixpoint insert_desc {A} (key : A -> Z) (x : A) (l : list A) : list A :=
  match l with
  | [] => [x]
  | y :: r =>
      if key y <? key x then x :: y :: r else y :: insert_desc key x r
  end.

Definition sort_desc {A} (key : A -> Z) (l : list A) : list A :=
  fold_left (fun acc x => insert_desc key x acc) l [].

(** No character of [w] is the separator. *)
Definition no_sep (sep : ascii) (w : string) : Prop :=
  List.Forall (fun c => Ascii.eqb c sep = false) (list_ascii_of_string w).

End Py.

(** The error monad uses stdpp's [x ← m; k] notation. *)
#[export] Instance result_ret : MRet Py.result := @Py.Ok.
#[export] Instance result_bind : MBind Py.result :=
  fun A B k m => Py.bind m k.

(* ===================================================================== *)
(** ** feature_extractor.py                                               *)
(* ===================================================================== *)

Module FeatureExtractor.
Import Py.

Record FeatureDefinition : Type := mkDef {
  fd_min : Q;
  fd_max : Q;
  fd_default : Q
}.

Local Open Scope Q_scope.

(** [FeatureExtractor.FEATURE_DEFINITIONS] *)
Definition FEATURE_DEFINITIONS : dict (dict FeatureDefinition) :=
  [ ("behavioral",
      [ ("avg_typing_speed", mkDef 0 300 80);
        ("avg_thinking_pause", mkDef 0 60 5);
        ("paste_frequency", mkDef 0 1 0.1);
        ("active_time_percentage", mkDef 0 100 80);
        ("tab_switch_rate", mkDef 0 50 5);
        ("idle_time_percentage", mkDef 0 100 10);
        ("error_frequency", mkDef 0 1 0.3) ]);
    ("performance",
      [ ("success_rate", mkDef 0 100 50);
        ("avg_score", mkDef 0 100 50);
        ("difficulty_level", mkDef 0 3 1);
        ("time_per_problem", mkDef 0 120 30);
        ("attempt_count", mkDef 1 20 2);
        ("completion_rate", mkDef 0 100 50) ]);
    ("ai_interaction",
      [ ("hint_request_rate", mkDef 0 1 0.3);
        ("avg_hint_level", mkDef 1 5 2);
        ("ai_dependency_score", mkDef 0 1 0.3);
        ("hints_before_success", mkDef 0 10 1);
        ("comprehension_pass_rate", mkDef 0 100 80) ]);
    ("temporal",
      [ ("session_duration", mkDef 0 180 60);
        ("days_since_last_session", mkDef 0 30 1);
        ("learning_velocity", mkDef 0 100 50);
        ("weekly_sessions", mkDef 0 7 2) ]) ].

(** [FeatureExtractor._normalize] *)
Definition _normalize (value min_val max_val : Q) : Q :=
  if Py.eqb max_val min_val then 0.5
  else Py.max 0.0 (Py.min 1.0 ((value - min_val) / (max_val - min_val))).

(** *** The record source

    Timestamps ([datetime]) are microseconds on the integer line;
    [timedelta(days=n)] is [days n] and [delta.days] is [to_days delta]. *)

Definition datetime : Type := Z.
Definition days (n : Z) : Z := (n * 86400000000)%Z.
Definition to_days (delta : Z) : Z := (delta / 86400000000)%Z.

(** A monitoring record: its numeric fields are read with [r.get(k, 0)]. *)
Record MonitoringDoc : Type := mkMonitoring {
  mon_student : string;
  mon_createdAt : datetime;
  mon_fields : dict Q
}.

Record SubmissionDoc : Type := mkSubmission {
  sub_studentId : string;
  sub_createdAt : datetime;
  sub_status : option string;
  sub_score : option Q;
  sub_activityId : option string
}.

(** [comprehensionCheck] is a sub-document that may be absent and whose
    [passed] field may be absent. *)
Record HintDoc : Type := mkHint {
  hint_studentId : string;
  hint_createdAt : datetime;
  hintLevel : option Q;
  ledToSuccess : option bool;
  comprehensionCheck : option (option bool)
}.

(** The twin summary; [{}] (no twin) has every field absent. *)
Record TwinDoc : Type := mkTwin {
  behavioralData : option (dict Q);
  difficultyStats : option (dict (dict Q));
  aiDependencyPattern : option (dict Q);
  learningVelocity : option Q
}.

Definition empty_twin : TwinDoc := mkTwin None None None None.

Record Database : Type := mkDb {
  student_twins : list (string * TwinDoc);
  activity_monitoring : list MonitoringDoc;
  submissions : list SubmissionDoc;
  hint_requests : list HintDoc
}.

(** [ObjectId(student_id)]: a 24-character hexadecimal string, else
    [InvalidId]. *)
Definition is_hex (c : ascii) : bool :=
  let n := nat_of_ascii c in
  ((48 <=? n) && (n <=? 57) || (65 <=? n) && (n <=? 70)
   || (97 <=? n) && (n <=? 102))%nat.

Definition lower (c : ascii) : ascii :=
  let n := nat_of_ascii c in
  if ((65 <=? n) && (n <=? 70))%nat then ascii_of_nat (n + 32) else c.

Definition ObjectId (student_id : string) : result string :=
  let cs := list_ascii_of_string student_id in
  if ((length cs =? 24)%nat && forallb is_hex cs)%bool
  then Ok (string_of_list_ascii (map lower cs))
  else Raise (InvalidId student_id).

(** [sum(...)] over numbers. *)
Definition sum (l : list Q) : Q := fold_left Qplus l 0.

(** [sum(1 for x in l if p(x))] *)
Definition count {A} (p : A -> bool) (l : list A) : Q :=
  sum (map (fun _ => 1) (List.filter p l)).

Definition qlen {A} (l : list A) : Q := inject_Z (Z.of_nat (length l)).

Definition is_empty {A} (l : list A) : bool :=
  match l with [] => true | _ => false end.

Definition or_else {A} (o : option A) (dflt : A) : A :=
  match o with Some a => a | None => dflt end.

(** [FeatureExtractor._calculate_paste_frequency] *)
Definition _calculate_paste_frequency (records : list MonitoringDoc) : Q :=
  if is_empty records then 0.1
  else sum (map (fun r => get (mon_fields r) "pasteCount" 0) records)
       / qlen records.

(** The query for one student's records created at or after the cutoff,
    on each of the three collections. *)
Definition student_monitoring
    (db : Database) (student_id : string) (cutoff_date : datetime)
    : list MonitoringDoc :=
  List.filter (fun r => String.eqb (mon_student r) student_id
                        && (cutoff_date <=? mon_createdAt r)%Z)
              (activity_monitoring db).

Definition student_submissions
    (db : Database) (student_id : string) (cutoff_date : datetime)
    : list SubmissionDoc :=
  List.filter (fun s => String.eqb (sub_studentId s) student_id
                        && (cutoff_date <=? sub_createdAt s)%Z)
              (submissions db).

Definition student_hints
    (db : Database) (student_id : string) (cutoff_date : datetime)
    : list HintDoc :=
  List.filter (fun h => String.eqb (hint_studentId h) student_id
                        && (cutoff_date <=? hint_createdAt h)%Z)
              (hint_requests db).

(** [FeatureExtractor._extract_behavioral_features] *)
Definition _extract_behavioral_features
    (db : Database) (student_id : string) (cutoff_date : datetime)
    (twin : TwinDoc) : dict Q :=
  let monitoring_records := student_monitoring db student_id cutoff_date in
  let behavioral_data := or_else (behavioralData twin) [] in
  if is_empty monitoring_records then
    [ ("avg_typing_speed", get behavioral_data "avgTypingSpeed" 80);
      ("avg_thinking_pause", get behavioral_data "avgThinkingPause" 5);
      ("paste_frequency", _calculate_paste_frequency []);
      ("active_time_percentage", 80);
      ("tab_switch_rate", 5);
      ("idle_time_percentage", 10);
      ("error_frequency", get behavioral_data "errorFrequency" 0.3) ]
  else
    let field k := sum (map (fun r => get (mon_fields r) k 0)
                            monitoring_records) in
    let total_pastes := field "pasteCount" in
    let total_time := field "totalActiveTime" in
    let total_tab_switches := field "tabSwitchCount" in
    let total_idle := field "totalIdleTime" in
    let session_count := or_num (qlen monitoring_records) 1 in
    [ ("avg_typing_speed", get behavioral_data "avgTypingSpeed" 80);
      ("avg_thinking_pause", get behavioral_data "avgThinkingPause" 5);
      ("paste_frequency",
        if gtb session_count 0 then total_pastes / session_count else 0);
      ("active_time_percentage",
        100 - (total_idle / or_num total_time 1) * 100);
      ("tab_switch_rate",
        if gtb session_count 0 then total_tab_switches / session_count
        else 0);
      ("idle_time_percentage", (total_idle / or_num total_time 1) * 100);
      ("error_frequency", get behavioral_data "errorFrequency" 0.3) ].

(** The [activity_attempts] counting loop. *)
Definition count_attempts (subs : list SubmissionDoc) : dict Q :=
  fold_left
    (fun activity_attempts s =>
       let activity_id := or_else (sub_activityId s) "None" in
       let activity_attempts :=
         if contains activity_attempts activity_id then activity_attempts
         else set activity_attempts activity_id 0 in
       set activity_attempts activity_id
           (get activity_attempts activity_id 0 + 1))
    subs [].

(** [FeatureExtractor._extract_performance_features] *)
Definition _extract_performance_features
    (db : Database) (student_id : string) (cutoff_date : datetime)
    (twin : TwinDoc) : dict Q :=
  let subs := student_submissions db student_id cutoff_date in
  let difficulty_stats := or_else (difficultyStats twin) [] in
  if is_empty subs then
    [ ("success_rate", 50);
      ("avg_score", 50);
      ("difficulty_level", 1);
      ("time_per_problem", 30);
      ("attempt_count", 1);
      ("completion_rate", 50) ]
  else
    let passed :=
      count (fun s => match sub_status s with
                      | Some st => String.eqb st "passed"
                      | None => false
                      end) subs in
    let success_rate :=
      if is_empty subs then 0 else (passed / qlen subs) * 100 in
    let avg_score :=
      sum (map (fun s => or_else (sub_score s) 0) subs) / qlen subs in
    let activity_attempts := count_attempts subs in
    let avg_attempts :=
      if is_empty activity_attempts then 1
      else sum (values activity_attempts) / qlen activity_attempts in
    let completed k := get (get difficulty_stats k []) "completed" 0 in
    let difficulty_level :=
      if gtb (completed "hard") 0 then 2
      else if gtb (completed "medium") 0 then 1
      else 0 in
    [ ("success_rate", success_rate);
      ("avg_score", avg_score);
      ("difficulty_level", difficulty_level);
      ("time_per_problem", 30);
      ("attempt_count", avg_attempts);
      ("completion_rate", success_rate) ].

(** [FeatureExtractor._extract_ai_features] *)
Definition _extract_ai_features
    (db : Database) (student_id : string) (cutoff_date : datetime)
    (twin : TwinDoc) : dict Q :=
  let hints := student_hints db student_id cutoff_date in
  let ai_pattern := or_else (aiDependencyPattern twin) [] in
  let behavioral := or_else (behavioralData twin) [] in
  if is_empty hints then
    [ ("hint_request_rate", get ai_pattern "hintRequestRate" 0.3);
      ("avg_hint_level", get ai_pattern "avgHintLevel" 2);
      ("ai_dependency_score", get behavioral "aiDependencyScore" 0.3);
      ("hints_before_success", 1);
      ("comprehension_pass_rate", 80) ]
  else
    let total_hints := qlen hints in
    let avg_level :=
      sum (map (fun h => or_else (hintLevel h) 1) hints) / total_hints in
    let successful_hints :=
      count (fun h => or_else (ledToSuccess h) false) hints in
    let comprehension_passed :=
      count (fun h => or_else
                        (or_else (comprehensionCheck h) None) true)
            hints in
    [ ("hint_request_rate",
        get ai_pattern "hintRequestRate" (total_hints / 10));
      ("avg_hint_level", avg_level);
      ("ai_dependency_score", get behavioral "aiDependencyScore" 0.3);
      ("hints_before_success", total_hints / or_num successful_hints 1);
      ("comprehension_pass_rate",
        if gtb total_hints 0 then (comprehension_passed / total_hints) * 100
        else 80) ].

(** The most recent timestamp, i.e. the head of the query sorted by
    [createdAt] descending. *)
Definition latest (first : datetime) (rest : list datetime) : datetime :=
  fold_left Z.max rest first.

(** [FeatureExtractor._extract_temporal_features] *)
Definition _extract_temporal_features
    (db : Database) (now : datetime) (student_id : string)
    (cutoff_date : datetime) (twin : TwinDoc) : dict Q :=
  match map sub_createdAt (student_submissions db student_id cutoff_date)
  with
  | [] =>
      [ ("session_duration", 60);
        ("days_since_last_session", 7);
        ("learning_velocity", or_else (learningVelocity twin) 50);
        ("weekly_sessions", 2) ]
  | t :: ts =>
      let last_submission := latest t ts in
      let days_since := to_days (now - last_submission) in
      let week_ago := (now - days 7)%Z in
      let weekly_submissions :=
        count (fun c => (week_ago <=? c)%Z) (t :: ts) in
      [ ("session_duration", 60);
        ("days_since_last_session", inject_Z days_since);
        ("learning_velocity", or_else (learningVelocity twin) 50);
        ("weekly_sessions", Py.min weekly_submissions 7) ]
  end.

(** [FeatureExtractor._create_feature_vector] *)
Definition _create_feature_vector
    (behavioral performance ai_interaction temporal : dict Q) : list Q :=
  flat_map
    (fun '(category, features) =>
       map (fun '(name, value) =>
              let defs := get FEATURE_DEFINITIONS category [] in
              match dlookup defs name with
              | Some definition =>
                  _normalize value (fd_min definition) (fd_max definition)
              | None => if Py.eqb value 0 then 0.0 else value
              end)
           features)
    [ ("behavioral", behavioral);
      ("performance", performance);
      ("ai_interaction", ai_interaction);
      ("temporal", temporal) ].

(** The dictionary [extract_student_features] returns.  Its consumers
    read every key with [features.get(key, default)], so each key may be
    absent; [{}] is [no_features]. *)
Record Features : Type := mkFeatures {
  student_id : option string;
  extracted_at : option datetime;
  lookback_days : option Z;
  behavioral : option (dict Q);
  performance : option (dict Q);
  ai_interaction : option (dict Q);
  temporal : option (dict Q);
  feature_vector : option (list Q)
}.

Definition no_features : Features :=
  mkFeatures None None None None None None None None.

(** [not features]: the dictionary has no key. *)
Definition is_falsy (f : Features) : bool :=
  match student_id f, extracted_at f, lookback_days f, behavioral f,
        performance f, ai_interaction f, temporal f, feature_vector f with
  | None, None, None, None, None, None, None, None => true
  | _, _, _, _, _, _, _, _ => false
  end.

(** [self.student_twins.find_one({'studentId': oid})] *)
Definition find_one {A} (key : string) (coll : list (string * A))
    : option A :=
  snd <$> List.find (fun d => String.eqb (fst d) key) coll.

(** [FeatureExtractor.extract_student_features] at time [now]. *)
Definition extract_student_features
    (db : Database) (now : datetime)
    (student_id : string) (lookback_days : Z) : result Features :=
  student_oid ← ObjectId student_id;
  let cutoff_date := (now - days lookback_days)%Z in
  let twin := or_else (find_one student_oid (student_twins db))
                          empty_twin in
  let behavioral :=
    _extract_behavioral_features db student_oid cutoff_date twin in
  let performance :=
    _extract_performance_features db student_oid cutoff_date twin in
  let ai_interaction :=
    _extract_ai_features db student_oid cutoff_date twin in
  let temporal :=
    _extract_temporal_features db now student_oid cutoff_date twin in
  Ok (mkFeatures
        (Some student_id) (Some now) (Some lookback_days)
        (Some behavioral) (Some performance) (Some ai_interaction)
        (Some temporal)
        (Some (_create_feature_vector behavioral performance
                                      ai_interaction temporal))).

(** *** Observations, for the statements below *)

(** What the four group extractors return for a student with no twin and
    no record in the window: their literal fallbacks. *)
Definition fallback_behavioral : dict Q :=
  [ ("avg_typing_speed", 80); ("avg_thinking_pause", 5);
    ("paste_frequency", 0.1); ("active_time_percentage", 80);
    ("tab_switch_rate", 5); ("idle_time_percentage", 10);
    ("error_frequency", 0.3) ].
Definition fallback_performance : dict Q :=
  [ ("success_rate", 50); ("avg_score", 50); ("difficulty_level", 1);
    ("time_per_problem", 30); ("attempt_count", 1);
    ("completion_rate", 50) ].
Definition fallback_ai_interaction : dict Q :=
  [ ("hint_request_rate", 0.3); ("avg_hint_level", 2);
    ("ai_dependency_score", 0.3); ("hints_before_success", 1);
    ("comprehension_pass_rate", 80) ].
Definition fallback_temporal : dict Q :=
  [ ("session_duration", 60); ("days_since_last_session", 7);
    ("learning_velocity", 50); ("weekly_sessions", 2) ].

(** The default-when-missing the table declares for a feature. *)
Definition table_default (category name : string) : option Q :=
  d ← dlookup (get FEATURE_DEFINITIONS category []) name;
  Some (fd_default d).

(** The features of a group whose value differs from the declared
    default, with the value and the default. *)
Definition off_default (category : string) (features : dict Q)
    : list (string * Q * Q) :=
  flat_map (fun '(name, v) =>
              match table_default category name with
              | Some d => if Py.eqb v d then [] else [(name, v, d)]
              | None => []
              end)
           features.

Definition fallback_mismatches (f : Features) : list (string * Q * Q) :=
  off_default "behavioral" (or_else (behavioral f) [])
  ++ off_default "performance" (or_else (performance f) [])
  ++ off_default "ai_interaction" (or_else (ai_interaction f) [])
  ++ off_default "temporal" (or_else (temporal f) []).

(** *** Training data *)






End FeatureExtractor.

(* ===================================================================== *)
(** ** model_registry.py                                                  *)
(* ===================================================================== *)

Module ModelRegistry.
Import Py.

(** [class ModelVersion]; an index entry is its [to_dict()] image, which
    [from_dict] maps back, so both are this record. *)
Record ModelVersion : Type := mkVersion {
  version : string;
  model_type : string;
  created_at : Z;
  metrics : dict Q;
  config : dict value;
  tags : list string;
  description : string;
  is_production : bool
}.

(** [ModelVersion.__init__]: [metrics or {}], [config or {}], [tags or []]. *)
Definition ModelVersion_init
    (version model_type : string) (created_at : Z)
    (metrics : option (dict Q)) (config : option (dict value))
    (tags : option (list string)) (description : string)
    (is_production : bool) : ModelVersion :=
  mkVersion version model_type created_at
            (FeatureExtractor.or_else metrics [])
            (FeatureExtractor.or_else config [])
            (FeatureExtractor.or_else tags [])
            description is_production.

(** [v['is_production'] = b] *)
Definition set_is_production (b : bool) (v : ModelVersion) : ModelVersion :=
  mkVersion (version v) (model_type v) (created_at v) (metrics v)
            (config v) (tags v) (description v) b.

(** [metadata.json] *)
Record Metadata : Type := mkMetadata {
  md_version : ModelVersion;
  md_checksum : string;
  md_checkpoint_path : string
}.

(** One version directory: [model.ckpt] and [metadata.json], each of
    which may be missing. *)
Record VersionDir : Type := mkDir {
  model_ckpt : option string;
  metadata_json : option Metadata
}.

(** The registry: the index document and the directory tree, one
    directory per (model type, version). *)
Record Registry : Type := mkRegistry {
  registry_path : string;
  index : gmap string (dict ModelVersion);
  files : gmap (string * string) VersionDir
}.

Definition MODEL_TYPES : list string :=
  ["behavior"; "anomaly"; "learning_path"; "knowledge_graph"].

(** [ModelRegistry.__init__] over a fresh directory: [_load_index] finds
    no index file. *)
Definition init (registry_path : string) : Registry :=
  mkRegistry registry_path
             (list_to_map (map (fun t => (t, [])) MODEL_TYPES))
             ∅.

Definition version_dir (r : Registry) (model_type version : string)
    : string :=
  registry_path r +:+ "/" +:+ model_type +:+ "/" +:+ version.

(** [[int(i) for i in x[1:].split('.')]] *)
Definition version_key (x : string) : result (list Z) :=
  mapM int_of_str (split "." (tail x)).

(** [ModelRegistry._generate_version] *)
Definition _generate_version (r : Registry) (model_type : string)
    : result string :=
  let versions := keys (default [] (index r !! model_type)) in
  match versions with
  | [] => Ok "v1.0.0"
  | _ =>
      keyed ← mapM (fun x => k ← version_key x; Ok (k, x)) versions;
      match last (sorted_by_key keyed) with
      | None => Raise (IndexError "list index out of range")
      | Some latest =>
          parts ← version_key latest;
          match rev parts with
          | [] => Raise (IndexError "list index out of range")
          | p :: ps =>
              let parts := rev ((p + 1) :: ps) in
              Ok ("v" +:+ join "." (map str_int parts))
          end
      end
  end.

Section Storage.
(** A network to be stored, [ms.save_checkpoint] and the MD5 digest. *)
Context {Network : Type}.
Variable save_checkpoint : Network -> string.
Variable md5 : string -> string.

(** [ModelRegistry.register_model] at time [now]. *)
Definition register_model
    (r : Registry) (now : Z) (model : Network) (model_type : string)
    (metrics : option (dict Q)) (config : option (dict value))
    (tags : option (list string)) (description : string)
    (version : option string) : result (ModelVersion * Registry) :=
  if negb (existsb (String.eqb model_type) MODEL_TYPES) then
    Raise (ValueError ("Unknown model type: " +:+ model_type))
  else
    version ← match version with
              | None => _generate_version r model_type
              | Some v => Ok v
              end;
    let checkpoint_path :=
      version_dir r model_type version +:+ "/model.ckpt" in
    let checkpoint := save_checkpoint model in
    let checksum := md5 checkpoint in
    let model_version :=
      ModelVersion_init version model_type now metrics config tags
                        description false in
    let metadata := mkMetadata model_version checksum checkpoint_path in
    let files' :=
      <[(model_type, version) :=
          mkDir (Some checkpoint) (Some metadata)]> (files r) in
    let entries := default [] (index r !! model_type) in
    let index' :=
      <[model_type := set entries version model_version]> (index r) in
    Ok (model_version, mkRegistry (registry_path r) index' files').
End Storage.
Arguments register_model {Network} save_checkpoint md5.

(** [ModelRegistry.get_production_version] *)
Definition get_production_version (r : Registry) (model_type : string)
    : option string :=
  match index r !! model_type with
  | None => None
  | Some entries =>
      fst <$> List.find (fun e => is_production (snd e)) entries
  end.

(** A model class as [get_model] uses it: the constructor applied to the
    stored configuration, and [ms.load_checkpoint(path, model)]; both
    may raise. *)
Record ModelClass (M : Type) : Type := mkClass {
  construct : dict value -> result M;
  load_checkpoint : string -> M -> result M
}.
Arguments construct {M}.
Arguments load_checkpoint {M}.

(** [get_model] returns the loaded model, or the checkpoint path when no
    class is given. *)
Inductive loaded (M : Type) : Type :=
| LModel (m : M)
| LPath (path : string).
Arguments LModel {M} m.
Arguments LPath {M} path.

(** [ModelRegistry.get_model] *)
Definition get_model {M : Type}
    (r : Registry) (model_type : string) (version : option string)
    (model_class : option (ModelClass M)) : result (loaded M) :=
  version ← match version with
            | Some v => Ok v
            | None =>
                match get_production_version r model_type with
                | Some v => Ok v
                | None => Raise (ValueError
                    ("No production version for " +:+ model_type))
                end
            end;
  let dir := default (mkDir None None) (files r !! (model_type, version)) in
  match model_ckpt dir with
  | None => Raise (FileNotFoundError
      ("Model not found: " +:+ model_type +:+ "/" +:+ version))
  | Some checkpoint =>
      match metadata_json dir with
      | None => Raise (FileNotFoundError
          (version_dir r model_type version +:+ "/metadata.json"))
      | Some metadata =>
          match model_class with
          | Some cls =>
              let config := config (md_version metadata) in
              model ← construct cls config;
              model ← load_checkpoint cls checkpoint model;
              Ok (LModel model)
          | None =>
              Ok (LPath (version_dir r model_type version +:+ "/model.ckpt"))
          end
      end
  end.

Definition version_not_found {A} (model_type version : string) : result A :=
  Raise (ValueError
    ("Version not found: " +:+ model_type +:+ "/" +:+ version)).

(** [ModelRegistry.get_version_info] *)
Definition get_version_info (r : Registry) (model_type version : string)
    : result ModelVersion :=
  match index r !! model_type with
  | None => version_not_found model_type version
  | Some entries =>
      match dlookup entries version with
      | None => version_not_found model_type version
      | Some data => Ok data
      end
  end.

(** [ModelRegistry.set_production] *)
Definition set_production (r : Registry) (model_type version : string)
    : result Registry :=
  match index r !! model_type with
  | None => version_not_found model_type version
  | Some entries =>
      if negb (contains entries version) then
        version_not_found model_type version
      else
        (* for v in self.index[model_type].values(): v['is_production'] = False *)
        let cleared :=
          map (fun e => (fst e, set_is_production false (snd e))) entries in
        (* self.index[model_type][version]['is_production'] = True *)
        let entries' :=
          match dlookup cleared version with
          | Some data => set cleared version (set_is_production true data)
          | None => cleared
          end in
        Ok (mkRegistry (registry_path r)
                       (<[model_type := entries']> (index r))
                       (files r))
  end.

(** [ModelRegistry.delete_version] *)
Definition delete_version
    (r : Registry) (model_type version : string) (force : bool)
    : result Registry :=
  match index r !! model_type with
  | None => version_not_found model_type version
  | Some entries =>
      match dlookup entries version with
      | None => version_not_found model_type version
      | Some version_data =>
          if (is_production version_data && negb force)%bool then
            Raise (ValueError
              "Cannot delete production version without force=True")
          else
            Ok (mkRegistry (registry_path r)
                           (<[model_type := del entries version]> (index r))
                           (delete (model_type, version) (files r)))
      end
  end.

(** *** Observations and histories, for the statements below *)

(** [model_type in self.index and version in self.index[model_type]] *)
Definition has_version (r : Registry) (model_type version : string) : bool :=
  match index r !! model_type with
  | Some entries => contains entries version
  | None => false
  end.

(** The versions of a model type whose production flag is set. *)
Definition production_versions (r : Registry) (model_type : string)
    : list string :=
  keys (List.filter (fun e => is_production (snd e))
                    (default [] (index r !! model_type))).

(** At most one version per model type is flagged as production. *)
Definition at_most_one_production (r : Registry) : Prop :=
  forall model_type,
    (length (production_versions r model_type) <= 1)%nat.

Section History.
Context {Network : Type}.
Variable save_checkpoint : Network -> string.
Variable md5 : string -> string.

(** A mutating call on the registry. *)
Inductive op : Type :=
| Register (now : Z) (model : Network) (model_type : string)
           (metrics : option (dict Q)) (config : option (dict value))
           (tags : option (list string)) (description : string)
           (version : option string)
| Promote (model_type version : string)
| Delete (model_type version : string) (force : bool).

Definition apply_op (r : Registry) (o : op) : result Registry :=
  match o with
  | Register now model model_type metrics config tags description v =>
      res ← register_model save_checkpoint md5 r now model model_type
              metrics config tags description v;
      Ok (snd res)
  | Promote model_type v => set_production r model_type v
  | Delete model_type v force => delete_version r model_type v force
  end.

(** Every method raises before it writes, so a call that raises leaves
    the registry as it was. *)
Definition step (r : Registry) (o : op) : Registry :=
  try_except (apply_op r o) (fun _ => r).

Definition run (ops : list op) (r : Registry) : Registry :=
  fold_left step ops r.
End History.

(** *** Queries *)

(** [any(tag in version.tags for tag in tags)], or no filter at all. *)
Definition tag_match (wanted : option (list string)) (v : ModelVersion)
    : bool :=
  match wanted with
  | None => true
  | Some ts => existsb (fun tag => existsb (String.eqb tag) (tags v)) ts
  end.

(** [ModelRegistry.list_versions] *)
Definition list_versions
    (r : Registry) (model_type : string) (tags : option (list string))
    : list ModelVersion :=
  match index r !! model_type with
  | None => []
  | Some entries =>
      let versions := List.filter (tag_match tags) (values entries) in
      sort_desc created_at versions
  end.

(** One entry of [metrics_diff]: the dictionary
    [{version1: val1, version2: val2, 'diff': ...}], keys written in that
    order, a repeated key keeping its place and taking the later value. *)
Definition metric_entry (version1 version2 : string) (val1 val2 : option Q)
    : dict (option Q) :=
  let diff := match val1, val2 with
              | Some a, Some b => Some (b - a)%Q
              | _, _ => None
              end in
  set (set (set [] version1 val1) version2 val2) "diff" diff.

(** [ModelRegistry.compare_versions]: the [versions] list and the
    [metrics_diff] dictionary, whose key order (that of a set) is not
    observable. *)
Definition compare_versions
    (r : Registry) (model_type version1 version2 : string)
    : result (list string * gmap string (dict (option Q))) :=
  v1 ← get_version_info r model_type version1;
  v2 ← get_version_info r model_type version2;
  let all_metrics := keys (metrics v1) ++ keys (metrics v2) in
  let metrics_diff :=
    fold_left
      (fun acc metric =>
         let val1 := dlookup (metrics v1) metric in
         let val2 := dlookup (metrics v2) metric in
         <[metric := metric_entry version1 version2 val1 val2]> acc)
      all_metrics ∅ in
  Ok ([version1; version2], metrics_diff).

(** *** Observations *)




(** The entries that [set_production] writes for a present version. *)
Definition promoted (entries : dict ModelVersion) (v : string)
    : dict ModelVersion :=
  let cleared :=
    map (fun e => (fst e, set_is_production false (snd e))) entries in
  match dlookup cleared v with
  | Some data => set cleared v (set_is_production true data)
  | None => cleared
  end.


End ModelRegistry.

(* ===================================================================== *)
(** ** model_inference.py                                                 *)
(* ===================================================================== *)

Module ModelInference.
Import Py.
Import FeatureExtractor.

(** *** The predictors, as the router uses them

    The networks themselves are outside the embedding: each is a record
    of the attributes and calls the router makes, and every call may
    raise. *)

(** [StudentBehaviorModel]: [model(x)] on a (1, 10, width) sequence gives
    the probability and the attention weights of the first batch row. *)
Record StudentBehaviorModel : Type := mkBehaviorModel {
  sbm_input_dim : Z;
  sbm_call : list (list Q) -> result (Q * list Q);
  sbm_set_train : bool -> result unit
}.

Record BehaviorVAE : Type := mkVAE {
  vae_input_dim : Z
}.

(** The first row of what [AnomalyDetector.detect] returns. *)
Record Detection : Type := mkDetection {
  det_is_anomalous : option bool;
  det_anomaly_score : Q;
  det_reconstruction_error : Q
}.

Record AnomalyDetector : Type := mkDetector {
  det_model : BehaviorVAE;
  det_threshold : Q;
  detect : list Q -> result Detection;
  classify_anomaly_type : list Q -> list string -> result (list string)
}.

Record LearningPathAgent : Type := mkAgent {
  state_dim : Z;
  select_top_k_actions : list Q -> Z -> result (list value);
  agent_load : string -> result unit
}.

(** What [self.models[name]] may hold. *)
Inductive predictor : Type :=
| PNone
| PBehavior (m : StudentBehaviorModel)
| PDetector (d : AnomalyDetector)
| PAgent (a : LearningPathAgent).

(** [self.models], [self.model_versions], [self.use_heuristics] and
    [self.feedback_log]. *)
Record State : Type := mkState {
  models : gmap string predictor;
  model_versions : gmap string string;
  use_heuristics : gmap string bool;
  feedback_log : list (dict value)
}.

(** The binding of one capability: its entries in the three tables. *)
Definition binding (st : State) (name : string)
    : option predictor * option string * option bool :=
  (models st !! name, model_versions st !! name, use_heuristics st !! name).

Definition heuristic_binding
    : option predictor * option string * option bool :=
  (Some PNone, Some "heuristic-v1", Some true).

Definition set_binding (st : State) (name : string) (p : predictor)
    (ver : string) (heuristic : bool) : State :=
  mkState (<[name := p]> (models st))
          (<[name := ver]> (model_versions st))
          (<[name := heuristic]> (use_heuristics st))
          (feedback_log st).

(** Truthiness of a configuration value. *)
Definition truthy (v : value) : bool :=
  match v with
  | VNone => false
  | VBool b => b
  | VNum q => negb (Py.eqb q 0)
  | VStr s => negb (String.eqb s "")
  | VList l => negb (is_empty l)
  | VDict d => negb (is_empty d)
  end.

(** [os.path.dirname]: the path up to and including its last slash,
    with trailing slashes removed unless it consists of slashes only. *)
Definition is_slash (c : ascii) : bool := Ascii.eqb c "/".

Fixpoint drop_to_slash (s : list ascii) : list ascii :=
  match s with
  | [] => []
  | c :: r => if is_slash c then s else drop_to_slash r
  end.

Fixpoint drop_slashes (s : list ascii) : list ascii :=
  match s with
  | [] => []
  | c :: r => if is_slash c then drop_slashes r else s
  end.

Definition dirname (path : string) : string :=
  let rhead := drop_to_slash (rev (list_ascii_of_string path)) in
  if forallb is_slash rhead then string_of_list_ascii (rev rhead)
  else string_of_list_ascii (rev (drop_slashes rhead)).

Section Router.
(** The environment of one [ModelInference] object. *)
Variable MINDSPORE_AVAILABLE : bool.
(** [self.config.get('models', {})] *)
Variable model_config : dict (dict value).
(** The model classes handed to the registry. *)
Variable StudentBehaviorModel_class :
  ModelRegistry.ModelClass StudentBehaviorModel.
Variable BehaviorVAE_class : ModelRegistry.ModelClass BehaviorVAE.
(** [AnomalyDetector(model, threshold=0.7)] *)
Variable AnomalyDetector_init : BehaviorVAE -> Q -> result AnomalyDetector.
(** The [LearningPathAgent] constructor on its keyword arguments. *)
Variable LearningPathAgent_init : dict value -> result LearningPathAgent.
(** [self.feature_extractor.extract_student_features] *)
Variable extract_student_features : string -> result Features.

Definition enabled (name : string) : bool :=
  truthy (get (get model_config name []) "enabled" (VBool true)).

Definition bind_heuristic (st : State) (name : string) : State :=
  set_binding st name PNone "heuristic-v1" true.

(** The [try] block of [_load_behavior_model]: [Some] state when it
    reaches its [return], [None] when it falls through. *)
Definition try_load_behavior_model
    (registry : ModelRegistry.Registry) (st : State)
    : result (option State) :=
  let model_type := "behavior" in
  if MINDSPORE_AVAILABLE then
    match ModelRegistry.get_production_version registry model_type with
    | Some prod_version =>
        if String.eqb prod_version "" then Ok None
        else
          got ← ModelRegistry.get_model registry model_type
                  (Some prod_version) (Some StudentBehaviorModel_class);
          match got with
          | ModelRegistry.LModel model =>
              _ ← sbm_set_train model false;
              Ok (Some (set_binding st "behavior_prediction"
                                    (PBehavior model) prod_version false))
          | ModelRegistry.LPath _ =>
              Raise (AttributeError "set_train")
          end
    | None => Ok None
    end
  else Ok None.

(** [ModelInference._load_behavior_model] *)
Definition _load_behavior_model
    (registry : ModelRegistry.Registry) (st : State) : State :=
  match try_except (try_load_behavior_model registry st)
                   (fun _ => None) with
  | Some st' => st'
  | None => bind_heuristic st "behavior_prediction"
  end.

(** The [try] block of [_load_anomaly_model]. *)
Definition try_load_anomaly_model
    (registry : ModelRegistry.Registry) (st : State)
    : result (option State) :=
  let model_type := "anomaly" in
  if MINDSPORE_AVAILABLE then
    match ModelRegistry.get_production_version registry model_type with
    | Some prod_version =>
        if String.eqb prod_version "" then Ok None
        else
          got ← ModelRegistry.get_model registry model_type
                  (Some prod_version) (Some BehaviorVAE_class);
          match got with
          | ModelRegistry.LModel model =>
              detector ← AnomalyDetector_init model 0.7%Q;
              Ok (Some (set_binding st "anomaly_detection"
                                    (PDetector detector) prod_version
                                    false))
          | ModelRegistry.LPath _ =>
              Raise (AttributeError "set_train")
          end
    | None => Ok None
    end
  else Ok None.

(** [ModelInference._load_anomaly_model] *)
Definition _load_anomaly_model
    (registry : ModelRegistry.Registry) (st : State) : State :=
  match try_except (try_load_anomaly_model registry st)
                   (fun _ => None) with
  | Some st' => st'
  | None => bind_heuristic st "anomaly_detection"
  end.

(** The [try] block of [_load_learning_path_model]. *)
Definition try_load_learning_path_model
    (registry : ModelRegistry.Registry) (st : State)
    : result (option State) :=
  let model_type := "learning_path" in
  if MINDSPORE_AVAILABLE then
    match ModelRegistry.get_production_version registry model_type with
    | Some prod_version =>
        if String.eqb prod_version "" then Ok None
        else
          version_info ← ModelRegistry.get_version_info
                           registry model_type prod_version;
          let agent_config :=
            if is_empty (ModelRegistry.config version_info)
            then [ ("state_dim", VNum 53); ("action_dim", VNum 100) ]
            else ModelRegistry.config version_info in
          agent ← LearningPathAgent_init agent_config;
          got ← ModelRegistry.get_model (M := unit) registry model_type
                  (Some prod_version) None;
          match got with
          | ModelRegistry.LPath checkpoint_path =>
              _ ← agent_load agent (dirname checkpoint_path);
              Ok (Some (set_binding st "learning_path" (PAgent agent)
                                    prod_version false))
          | ModelRegistry.LModel _ =>
              Raise (TypeError "expected str, bytes or os.PathLike")
          end
    | None => Ok None
    end
  else Ok None.

(** [ModelInference._load_learning_path_model] *)
Definition _load_learning_path_model
    (registry : ModelRegistry.Registry) (st : State) : State :=
  match try_except (try_load_learning_path_model registry st)
                   (fun _ => None) with
  | Some st' => st'
  | None => bind_heuristic st "learning_path"
  end.

(** [ModelInference._load_models] *)
Definition _load_models
    (registry : ModelRegistry.Registry) (st : State) : State :=
  let st := if enabled "behavior_prediction"
            then _load_behavior_model registry st else st in
  let st := if enabled "anomaly_detection"
            then _load_anomaly_model registry st else st in
  let st := if enabled "learning_path"
            then _load_learning_path_model registry st else st in
  st.

(** The three capabilities that have a loader, with the key of their
    binding and the model type they read from the registry. *)
Inductive capability : Type :=
| BehaviorPrediction
| AnomalyDetection
| LearningPath.

Definition cap_name (c : capability) : string :=
  match c with
  | BehaviorPrediction => "behavior_prediction"
  | AnomalyDetection => "anomaly_detection"
  | LearningPath => "learning_path"
  end.

Definition cap_model_type (c : capability) : string :=
  match c with
  | BehaviorPrediction => "behavior"
  | AnomalyDetection => "anomaly"
  | LearningPath => "learning_path"
  end.

Definition try_load (c : capability)
    : ModelRegistry.Registry -> State -> result (option State) :=
  match c with
  | BehaviorPrediction => try_load_behavior_model
  | AnomalyDetection => try_load_anomaly_model
  | LearningPath => try_load_learning_path_model
  end.

Definition load (c : capability)
    : ModelRegistry.Registry -> State -> State :=
  match c with
  | BehaviorPrediction => _load_behavior_model
  | AnomalyDetection => _load_anomaly_model
  | LearningPath => _load_learning_path_model
  end.

(** The three ways a load fails: the runtime is unavailable, the registry
    has no production version of the model type, or the [try] block
    raises. *)
Definition load_fails (c : capability)
    (registry : ModelRegistry.Registry) (st : State) : Prop :=
  MINDSPORE_AVAILABLE = false
  \/ ModelRegistry.get_production_version registry (cap_model_type c) = None
  \/ exists e, try_load c registry st = Raise e.

(** [ModelInference.__init__]: empty tables, then [_load_models]. *)
Definition init (registry : ModelRegistry.Registry) : State :=
  _load_models registry (mkState ∅ ∅ ∅ []).

(** [ModelInference.reload_models] *)
Definition reload_models
    (registry : ModelRegistry.Registry) (st : State) : State :=
  _load_models registry st.

(** [ModelInference.get_models_status] *)
Definition get_models_status (st : State) : dict (dict value) :=
  map (fun name =>
         let version := default "not-loaded" (model_versions st !! name) in
         let is_heuristic := default true (use_heuristics st !! name) in
         (name,
          [ ("loaded", VBool (bool_decide (is_Some (models st !! name))));
            ("version", VStr version);
            ("type", VStr (if is_heuristic then "heuristic"
                           else "trained"));
            ("mindspore_available", VBool MINDSPORE_AVAILABLE) ]))
      ["behavior_prediction"; "anomaly_detection"; "learning_path"].

(** *** Default responses *)

Definition response : Type := gmap string value.
Definition mkdict (l : list (string * value)) : response := list_to_map l.

(** [ModelInference._default_prediction] *)
Definition _default_prediction : response :=
  mkdict [ ("probability", VNum 0.5);
           ("confidence", VNum 0.0);
           ("factors", VList []);
           ("risk_level", VStr "unknown");
           ("model_version", VStr "default") ].

(** [ModelInference._default_learning_path] *)
Definition _default_learning_path : response :=
  mkdict [ ("activities", VList []);
           ("outcomes", VList []);
           ("reasoning",
            VStr "Insufficient data for personalized recommendations");
           ("estimated_time", VNone) ].

(** [ModelInference._default_anomaly_result] *)
Definition _default_anomaly_result : response :=
  mkdict [ ("is_anomalous", VBool false);
           ("score", VNum 0.0);
           ("types", VList []);
           ("recommendations", VList []) ].

(** [ModelInference._default_hint_suggestion] *)
Definition _default_hint_suggestion : response :=
  mkdict [ ("suggested_level", VNum 2);
           ("adjusted_prompt", VNone);
           ("reasoning", VStr "Using default hint level");
           ("encourage_independence", VBool false) ].

(** *** Helper methods *)

(** [features.get(name, {})] for a feature group. *)
Definition group (g : option (dict Q)) : dict Q := or_else g [].

Local Open Scope Q_scope.

(** [ModelInference._calculate_confidence] *)
Definition _calculate_confidence (features : Features) : Q :=
  let behavioral := group (behavioral features) in
  let performance := group (performance features) in
  let data_points := qlen behavioral + qlen performance in
  Py.min (data_points / 20) 1.0.

(** [ModelInference._identify_factors] *)
Definition _identify_factors (features : Features) (probability : Q)
    : list value :=
  let performance := group (performance features) in
  let success_rate := get performance "success_rate" 50 in
  let factors :=
    if geb success_rate 70 then
      [ VDict [ ("name", VStr "High Success Rate");
                ("impact", VStr "positive");
                ("value", VStr (format_0f success_rate +:+ "%")) ] ]
    else if ltb success_rate 40 then
      [ VDict [ ("name", VStr "Low Success Rate");
                ("impact", VStr "negative");
                ("value", VStr (format_0f success_rate +:+ "%")) ] ]
    else [] in
  let ai_interaction := group (ai_interaction features) in
  let ai_dep := get ai_interaction "ai_dependency_score" 0.3 in
  let factors :=
    if gtb ai_dep 0.6 then
      factors ++ [ VDict [ ("name", VStr "High AI Dependency");
                           ("impact", VStr "negative");
                           ("value", VStr (format_0pct ai_dep)) ] ]
    else if ltb ai_dep 0.2 then
      factors ++ [ VDict [ ("name", VStr "Independent Learner");
                           ("impact", VStr "positive");
                           ("value", VStr (format_0pct ai_dep)) ] ]
    else factors in
  factors.

(** [ModelInference._get_risk_level] *)
Definition _get_risk_level (probability : Q) : string :=
  if geb probability 0.8 then "low"
  else if geb probability 0.5 then "medium"
  else "high".

(** [ModelInference._generate_recommendations] *)
Definition _generate_recommendations (anomalies : list (dict value))
    : list string :=
  flat_map
    (fun anomaly =>
       match dlookup anomaly "type" with
       | Some (VStr anomaly_type) =>
           if String.eqb anomaly_type "high_paste_frequency" then
             ["Try solving problems without copying code from external sources"]
           else if String.eqb anomaly_type "excessive_tab_switches" then
             ["Stay focused on the current problem before switching contexts"]
           else if String.eqb anomaly_type "high_ai_dependency" then
             ["Challenge yourself by attempting problems before requesting hints"]
           else if String.eqb anomaly_type "low_performance" then
             ["Consider reviewing fundamentals or trying easier problems first"]
           else if String.eqb anomaly_type "extended_inactivity" then
             ["Regular practice helps maintain skills - try to code more frequently"]
           else []
       | _ => []
       end)
    anomalies.

(** *** Success prediction *)

(** The weighted combination of [_predict_with_heuristics], before
    clamping, in binary64: every division, product, difference and sum
    is rounded, the sum from left to right. *)
Definition weighted_probability (features : Features) : Q :=
  let performance := group (performance features) in
  let ai_interaction := group (ai_interaction features) in
  let temporal := group (temporal features) in
  let success_rate := fdiv (get performance "success_rate" 50) 100 in
  let avg_score := fdiv (get performance "avg_score" 50) 100 in
  let ai_dependency := get ai_interaction "ai_dependency_score" 0.3 in
  let learning_velocity := fdiv (get temporal "learning_velocity" 50) 100 in
  let days_since :=
    Py.min (fdiv (get temporal "days_since_last_session" 7) 7) 1 in
  fadd (fadd (fadd (fadd (fmul 0.30 success_rate)
                         (fmul 0.25 avg_score))
                   (fmul 0.15 (fsub 1 ai_dependency)))
             (fmul 0.20 learning_velocity))
       (fmul 0.10 (fsub 1 days_since)).

(** The [probability] of [_predict_with_heuristics] after its clamp. *)
Definition heuristic_probability (features : Features) : Q :=
  let probability := weighted_probability features in
  Py.max 0.0 (Py.min 1.0 probability).

(** [ModelInference._predict_with_heuristics] *)
Definition _predict_with_heuristics (st : State) (features : Features)
    : response :=
  let probability := heuristic_probability features in
  let confidence := _calculate_confidence features in
  let factors := _identify_factors features probability in
  mkdict [ ("probability", VNum (round probability 3));
           ("confidence", VNum (round confidence 3));
           ("factors", VList factors);
           ("risk_level", VStr (_get_risk_level probability));
           ("model_version",
            VStr (default "heuristic-v1"
                    (model_versions st !! "behavior_prediction"))) ].

(** The input sequence [_predict_with_model] prepares: the feature
    vector, padded when shorter than the model's width, repeated over
    ten time steps. *)
Definition behavior_sequence
    (features : Features) (model : StudentBehaviorModel)
    : list (list Q) :=
  let feature_vector := or_else (feature_vector features) [] in
  let input_dim := sbm_input_dim model in
  let feature_vector :=
    if (is_empty feature_vector
        || (Z.of_nat (length feature_vector) <? input_dim)%Z)%bool
    then
      let fv := if is_empty feature_vector
                then repeat_list 0.0 input_dim
                else slice_to feature_vector input_dim in
      fv ++ repeat_list 0.0 (input_dim - Z.of_nat (length fv))
    else feature_vector in
  repeat_list feature_vector 10.

(** [ModelInference._predict_with_model] *)
Definition _predict_with_model (st : State) (features : Features)
    : result response :=
  match default PNone (models st !! "behavior_prediction") with
  | PNone => Ok (_predict_with_heuristics st features)
  | PBehavior model =>
      let sequence := behavior_sequence features model in
      '(prob_value, attention) ← sbm_call model sequence;
      let confidence := Qabs (prob_value - 0.5) * 2 in
      let factors := _identify_factors features prob_value in
      Ok (mkdict
            [ ("probability", VNum (round prob_value 3));
              ("confidence", VNum (round confidence 3));
              ("factors", VList factors);
              ("risk_level", VStr (_get_risk_level prob_value));
              ("attention_weights",
               VList (map VNum (slice_to attention 5)));
              ("model_version",
               VStr (default "unknown"
                       (model_versions st !! "behavior_prediction"))) ])
  | _ => Raise (AttributeError "input_dim")
  end.

(** [ModelInference.predict_success] *)
Definition predict_success
    (st : State) (student_id : string) (activity_id : option string)
    : response :=
  try_except
    (features ← extract_student_features student_id;
     if is_falsy features then Ok _default_prediction
     else if negb (default true
                     (use_heuristics st !! "behavior_prediction"))
     then _predict_with_model st features
     else Ok (_predict_with_heuristics st features))
    (fun e => _default_prediction).

(** *** Learning path *)

(** [ModelInference._get_path_with_heuristics] *)
Definition _get_path_with_heuristics
    (features : Features) (target_competency : option string)
    (num_activities : Z) : result response :=
  let performance := group (performance features) in
  let difficulty_level := get performance "difficulty_level" 1 in
  let success_rate := get performance "success_rate" 50 in
  let '(recommended_difficulty, reasoning) :=
    if geb success_rate 80 then
      (Py.min (difficulty_level + 1) 2,
       "Strong performance - ready for harder challenges")
    else if geb success_rate 50 then
      (difficulty_level,
       "Steady progress - continue at current level")
    else
      (Py.max (difficulty_level - 1) 0,
       "Building foundations - focus on basics first") in
  let difficulty_names := ["easy"; "medium"; "hard"] in
  name ← index_list difficulty_names recommended_difficulty;
  Ok (mkdict
        [ ("activities", VList []);
          ("outcomes",
           VList [ VDict [ ("metric", VStr "expected_success_rate");
                           ("value",
                            VNum (Py.min (success_rate + 10) 100)) ] ]);
          ("reasoning", VStr reasoning);
          ("recommended_difficulty", VStr name);
          ("target_competency",
           match target_competency with
           | Some c => VStr c
           | None => VNone
           end);
          ("estimated_time", VNum (inject_Z (num_activities * 30)));
          ("model_version", VStr "heuristic-v1") ]).

(** The state vector [_get_path_with_model] prepares: truncated to the
    agent's width, then zero-padded. *)
Definition agent_state (features : Features) (agent : LearningPathAgent)
    : list Q :=
  let feature_vector := or_else (feature_vector features) [] in
  let state := slice_to feature_vector (state_dim agent) in
  if (Z.of_nat (length state) <? state_dim agent)%Z
  then state ++ repeat_list 0 (state_dim agent - Z.of_nat (length state))
  else state.

(** [ModelInference._get_path_with_model] *)
Definition _get_path_with_model
    (st : State) (features : Features) (num_activities : Z)
    : result response :=
  match default PNone (models st !! "learning_path") with
  | PNone => _get_path_with_heuristics features None num_activities
  | PAgent agent =>
      let state := agent_state features agent in
      recommended_actions ←
        select_top_k_actions agent state num_activities;
      Ok (mkdict
            [ ("activities", VList recommended_actions);
              ("outcomes",
               VList [ VDict [ ("metric",
                                VStr "expected_competency_gain");
                               ("value",
                                VNum (0.1 * inject_Z num_activities)) ] ]);
              ("reasoning", VStr "AI-optimized learning sequence");
              ("model_version",
               VStr (default "unknown"
                       (model_versions st !! "learning_path"))) ])
  | _ => Raise (AttributeError "state_dim")
  end.

(** [ModelInference.get_optimal_path] *)
Definition get_optimal_path
    (st : State) (student_id : string)
    (target_competency : option string) (num_activities : Z)
    : response :=
  try_except
    (features ← extract_student_features student_id;
     if is_falsy features then Ok _default_learning_path
     else if negb (default true (use_heuristics st !! "learning_path"))
     then _get_path_with_model st features num_activities
     else _get_path_with_heuristics features target_competency
                                    num_activities)
    (fun e => _default_learning_path).

(** *** Anomaly detection *)

(** One threshold rule of [_detect_with_heuristics]: when [fires], the
    anomaly is appended and its weight added to the running total. *)
Definition rule (fires : bool) (type severity : string) (val weight : Q)
    (acc : list (dict value) * Q) : list (dict value) * Q :=
  if fires then
    (fst acc ++ [ [ ("type", VStr type);
                    ("severity", VStr severity);
                    ("value", VNum val) ] ],
     snd acc + weight)
  else acc.

(** The [anomalies] list and [total_score] of [_detect_with_heuristics]. *)
Definition heuristic_anomalies (features : Features)
    : list (dict value) * Q :=
  let behavioral := group (behavioral features) in
  let performance := group (performance features) in
  let ai_interaction := group (ai_interaction features) in
  let temporal := group (temporal features) in
  let acc := ([], 0) in
  let paste_freq := get behavioral "paste_frequency" 0 in
  let acc := rule (gtb paste_freq 5)
                  "high_paste_frequency" "medium" paste_freq 0.3 acc in
  let tab_switches := get behavioral "tab_switch_rate" 0 in
  let acc := rule (gtb tab_switches 20)
                  "excessive_tab_switches" "medium" tab_switches 0.3 acc in
  let ai_dep := get ai_interaction "ai_dependency_score" 0 in
  let acc := rule (gtb ai_dep 0.7)
                  "high_ai_dependency" "low" ai_dep 0.2 acc in
  let success_rate := get performance "success_rate" 50 in
  let acc := rule (ltb success_rate 30)
                  "low_performance" "high" success_rate 0.4 acc in
  let days_since := get temporal "days_since_last_session" 0 in
  let acc := rule (gtb days_since 14)
                  "extended_inactivity" "medium" days_since 0.3 acc in
  acc.

(** [ModelInference._detect_with_heuristics] *)
Definition _detect_with_heuristics (features : Features) : response :=
  let '(anomalies, total_score) := heuristic_anomalies features in
  let is_anomalous := geb total_score 0.5 in
  let recommendations := _generate_recommendations anomalies in
  mkdict [ ("is_anomalous", VBool is_anomalous);
           ("score", VNum (round (Py.min total_score 1.0) 3));
           ("types", VList (map VDict anomalies));
           ("recommendations", VList (map VStr recommendations));
           ("model_version", VStr "heuristic-v1") ].

Definition feature_names : list string :=
  [ "typing_speed"; "thinking_pause"; "paste_freq"; "active_time";
    "tab_switches"; "success_rate"; "avg_score"; "difficulty";
    "attempts"; "hint_rate"; "hint_level"; "dependency_score";
    "session_duration"; "days_since_last"; "velocity" ].

(** The vector [_detect_with_model] prepares: zero-padded, then
    truncated to the detector's width. *)
Definition detector_input
    (features : Features) (detector : AnomalyDetector) : list Q :=
  let input_dim := vae_input_dim (det_model detector) in
  let feature_vector := or_else (feature_vector features) [] in
  let feature_vector :=
    if (Z.of_nat (length feature_vector) <? input_dim)%Z
    then feature_vector
         ++ repeat_list 0.0 (input_dim - Z.of_nat (length feature_vector))
    else feature_vector in
  slice_to feature_vector input_dim.

(** [ModelInference._detect_with_model] *)
Definition _detect_with_model (st : State) (features : Features)
    : result response :=
  match default PNone (models st !! "anomaly_detection") with
  | PNone => Ok (_detect_with_heuristics features)
  | PDetector detector =>
      let feature_vector := detector_input features detector in
      result ← detect detector feature_vector;
      let is_anomalous := or_else (det_is_anomalous result) false in
      let anomaly_score := det_anomaly_score result in
      anomaly_types ←
        (if is_anomalous then
           types ← classify_anomaly_type detector feature_vector
                     feature_names;
           Ok (map (fun t => [ ("type", VStr t);
                               ("severity", VStr "medium") ]) types)
         else Ok []);
      let recommendations := _generate_recommendations anomaly_types in
      Ok (mkdict
            [ ("is_anomalous", VBool is_anomalous);
              ("score", VNum (round anomaly_score 3));
              ("reconstruction_error",
               VNum (det_reconstruction_error result));
              ("types", VList (map VDict anomaly_types));
              ("recommendations", VList (map VStr recommendations));
              ("model_version",
               VStr (default "unknown"
                       (model_versions st !! "anomaly_detection"))) ])
  | _ => Raise (AttributeError "model")
  end.

(** [ModelInference.detect_anomalies] *)
Definition detect_anomalies (st : State) (student_id : string)
    : response :=
  try_except
    (features ← extract_student_features student_id;
     if is_falsy features then Ok _default_anomaly_result
     else if negb (default true
                     (use_heuristics st !! "anomaly_detection"))
     then _detect_with_model st features
     else Ok (_detect_with_heuristics features))
    (fun e => _default_anomaly_result).

(** *** Hint personalization *)

(** The [suggested_level] computed by [get_personalized_hint], with the
    [encourage_independence] flag and the [reasoning] text. *)
Definition suggest_level
    (ai_dependency success_rate avg_hint_level : Q)
    (attempt_number time_spent : Z) : Z * bool * string :=
  let '(suggested_level, encourage_independence, reasoning) :=
    if gtb ai_dependency 0.6 then
      (Z.max 1 (int avg_hint_level - 1), true,
       "Encouraging independent problem-solving")
    else if (ltb ai_dependency 0.3 && gtb success_rate 70)%bool then
      (Z.min 5 (int avg_hint_level + 1), false,
       "Strong independent work - full assistance available")
    else
      (int avg_hint_level, false, "Standard assistance level") in
  let '(suggested_level, reasoning) :=
    if (600 <? time_spent)%Z then
      (Z.min (suggested_level + 1) 5,
       "Extended struggle - offering more help")
    else (suggested_level, reasoning) in
  let '(suggested_level, reasoning) :=
    if (3 <=? attempt_number)%Z then
      (Z.min (suggested_level + 1) 5,
       "Multiple attempts - providing additional guidance")
    else (suggested_level, reasoning) in
  (suggested_level, encourage_independence, reasoning).

(** [ModelInference.get_personalized_hint] *)
Definition get_personalized_hint
    (st : State) (student_id activity_id code_context : string)
    (error_context : option string) (attempt_number time_spent : Z)
    : response :=
  try_except
    (features ← extract_student_features student_id;
     if is_falsy features then Ok _default_hint_suggestion
     else
       let ai_interaction := group (ai_interaction features) in
       let performance := group (performance features) in
       let ai_dependency :=
         get ai_interaction "ai_dependency_score" 0.3 in
       let success_rate := get performance "success_rate" 50 in
       let avg_hint_level := get ai_interaction "avg_hint_level" 2 in
       let '(suggested_level, encourage_independence, reasoning) :=
         suggest_level ai_dependency success_rate avg_hint_level
                       attempt_number time_spent in
       Ok (mkdict
             [ ("suggested_level", VNum (inject_Z suggested_level));
               ("adjusted_prompt", VNone);
               ("reasoning", VStr reasoning);
               ("encourage_independence", VBool encourage_independence);
               ("student_profile",
                VDict [ ("ai_dependency", VNum (round ai_dependency 2));
                        ("avg_hint_level",
                         VNum (round avg_hint_level 1));
                        ("success_rate",
                         VNum (round success_rate 1)) ]) ]))
    (fun e => _default_hint_suggestion).

(** *** Feedback *)

(** [ModelInference._save_feedback_log] *)
Definition _save_feedback_log (st : State) : State :=
  mkState (models st) (model_versions st) (use_heuristics st) [].

(** [ModelInference.record_feedback]; [recorded_at] is the ISO text of
    the current time. *)
Definition record_feedback
    (st : State) (feedback : dict value) (recorded_at : string) : State :=
  let feedback := set feedback "recorded_at" (VStr recorded_at) in
  let st := mkState (models st) (model_versions st) (use_heuristics st)
                    (feedback_log st ++ [feedback]) in
  if (100 <=? Z.of_nat (length (feedback_log st)))%Z
  then _save_feedback_log st else st.

End Router.

(** *** Observations on responses, for the statements below *)

(** The [type] of every entry of a response's [types] list. *)
Definition type_of_anomaly (anomaly : dict value) : list string :=
  match dlookup anomaly "type" with
  | Some (VStr t) => [t]
  | _ => []
  end.

(** The weight a rule contributes and the name it reports. *)
Definition weight_if (fires : bool) (w : Q) : Q := if fires then w else 0%Q.
Definition name_if (fires : bool) (name : string) : list string :=
  if fires then [name] else [].

Definition anomaly_type_names (r : response) : list string :=
  match r !! "types" with
  | Some (VList l) =>
      flat_map (fun v => match v with
                         | VDict d => type_of_anomaly d
                         | _ => []
                         end) l
  | _ => []
  end.

End ModelInference.

(* ===================================================================== *)
(** ** The anomaly total in binary64                                      *)
(* ===================================================================== *)

(** The running [total_score] of [_detect_with_heuristics] as Python
    computes it, in IEEE binary64: it starts at 0 and each rule that fires
    adds its weight, in rule order. Used to check that the rational
    embedding decides [total_score >= 0.5] as the floating-point code does. *)
Module Binary64.
#[local] Set Warnings "-inexact-float".

Definition rule (fires : bool) (weight acc : float) : float :=
  if fires then (acc + weight)%float else acc.

Definition total_score (b1 b2 b3 b4 b5 : bool) : float :=
  rule b5 0.3%float
    (rule b4 0.4%float
       (rule b3 0.2%float (rule b2 0.3%float (rule b1 0.3%float 0%float)))).

Definition is_anomalous (b1 b2 b3 b4 b5 : bool) : bool :=
  (0.5 <=? total_score b1 b2 b3 b4 b5)%float.

(** The weighted combination of [_predict_with_heuristics] on the
    kernel's binary64 numbers, as Python evaluates it. *)
Definition weighted_probability
    (success_rate avg_score ai_dependency learning_velocity days : float)
    : float :=
  let success_rate := (success_rate / 100)%float in
  let avg_score := (avg_score / 100)%float in
  let learning_velocity := (learning_velocity / 100)%float in
  let days_since :=
    if (1 <? days / 7)%float then 1%float else (days / 7)%float in
  (0.30 * success_rate +
   0.25 * avg_score +
   0.15 * (1 - ai_dependency) +
   0.20 * learning_velocity +
   0.10 * (1 - days_since))%float.

(** The rational a finite binary64 number denotes. *)
Definition to_Q (x : float) : Q :=
  match Prim2SF x with
  | S754_finite s m e =>
      ((if s then -1 else 1) * inject_Z (Z.pos m) * Py.pow2 e)%Q
  | _ => 0%Q
  end.

(** Feature values on which the two computations are compared: the
    success rate, the average score, the AI dependency, the learning
    velocity and the days since the last session, each as the rational of
    the embedding and as the float of the code. *)
Definition checked_inputs : list ((Q * Q * Q * Q * Q)
                                  * (float * float * float * float * float)) :=
  [ ((80, 70, 0.2, 60, 2)%Q, (80, 70, 0.2, 60, 2)%float);
    ((70, 50, 0.3, 30, 7)%Q, (70, 50, 0.3, 30, 7)%float);
    ((60, 80, 0.2, 100, 0)%Q, (60, 80, 0.2, 100, 0)%float);
    ((50, 50, 0.3, 50, 7)%Q, (50, 50, 0.3, 50, 7)%float);
    ((30, 40, 0.7, 20, 10)%Q, (30, 40, 0.7, 20, 10)%float);
    ((100, 100, 0, 100, 0)%Q, (100, 100, 0, 100, 0)%float);
    ((0, 0, 1, 0, 30)%Q, (0, 0, 1, 0, 30)%float);
    ((33.3, 66.6, 0.45, 12.5, 3)%Q, (33.3, 66.6, 0.45, 12.5, 3)%float);
    ((1 # 3, 1 # 7, 0.05, 99.9, 6)%Q,
     (0.33333333333333331, 0.14285714285714285, 0.05, 99.9, 6)%float);
    ((250, -40, 1.5, 1000, -3)%Q, (250, -40, 1.5, 1000, -3)%float) ].
End Binary64.

(* ===================================================================== *)
(** ** Sample data                                                        *)
(* ===================================================================== *)

Module Samples.
Import Py.

(** A registry history: two versions of the behavior model, the first
    promoted, then the second. *)
Definition save_checkpoint (_ : unit) : string := "weights".
Definition md5 (payload : string) : string := "md5:" +:+ payload.

Definition register_first : ModelRegistry.op :=
  ModelRegistry.Register 10 tt "behavior" None None None "first" None.
Definition register_second : ModelRegistry.op :=
  ModelRegistry.Register 20 tt "behavior" None None None "second" None.

Definition history (ops : list ModelRegistry.op) : ModelRegistry.Registry :=
  ModelRegistry.run save_checkpoint md5 ops (ModelRegistry.init "reg").

Definition registry0 := history [].
Definition registry1 := history [register_first].
Definition registry2 :=
  history [register_first; ModelRegistry.Promote "behavior" "v1.0.0"].
Definition registry3 :=
  history [register_first; ModelRegistry.Promote "behavior" "v1.0.0";
           register_second].
Definition registry4 :=
  history [register_first; ModelRegistry.Promote "behavior" "v1.0.0";
           register_second; ModelRegistry.Promote "behavior" "v1.0.1"].

(** The same history, followed by an autoencoder version that is
    registered and promoted. *)
Definition registry5 :=
  history [register_first; ModelRegistry.Promote "behavior" "v1.0.0";
           register_second; ModelRegistry.Promote "behavior" "v1.0.1";
           ModelRegistry.Register 30 tt "anomaly" None
             (Some [ ("latent", VNum 8) ]) None "autoencoder" None;
           ModelRegistry.Promote "anomaly" "v1.0.0"].

Definition first_version : ModelRegistry.ModelVersion :=
  ModelRegistry.ModelVersion_init "v1.0.0" "behavior" 10 None None None
                                  "first" false.

Local Open Scope Q_scope.

Definition features_of
    (behavioral performance ai_interaction temporal : dict Q)
    : FeatureExtractor.Features :=
  FeatureExtractor.mkFeatures
    (Some "65f0c0ffee0123456789abcd") (Some 0%Z) (Some 90%Z)
    (Some behavioral) (Some performance) (Some ai_interaction)
    (Some temporal)
    (Some (FeatureExtractor._create_feature_vector
             behavioral performance ai_interaction temporal)).

(** success_rate 80, avg_score 70, ai_dependency 0.2, learning_velocity
    60, two days since the last session. *)
Definition steady_student : FeatureExtractor.Features :=
  features_of []
              [ ("success_rate", 80); ("avg_score", 70) ]
              [ ("ai_dependency_score", 0.2) ]
              [ ("days_since_last_session", 2);
                ("learning_velocity", 60) ].

(** paste_frequency 6, tab_switch_rate 25, ai_dependency 0.1,
    success_rate 50, one day since the last session. *)
Definition pasting_student : FeatureExtractor.Features :=
  features_of [ ("paste_frequency", 6); ("tab_switch_rate", 25) ]
              [ ("success_rate", 50) ]
              [ ("ai_dependency_score", 0.1) ]
              [ ("days_since_last_session", 1) ].



(** The feature set that holds five given values. *)
Definition student_with (values : Q * Q * Q * Q * Q)
    : FeatureExtractor.Features :=
  let '(success_rate, avg_score, ai_dependency, learning_velocity, days) :=
    values in
  features_of []
              [ ("success_rate", success_rate); ("avg_score", avg_score) ]
              [ ("ai_dependency_score", ai_dependency) ]
              [ ("days_since_last_session", days);
                ("learning_velocity", learning_velocity) ].

Definition empty_state : ModelInference.State :=
  ModelInference.mkState ∅ ∅ ∅ [].

(** An empty database read at some instant, and two student ids: a
    well-formed one and one that [ObjectId] rejects. *)
Definition empty_db : FeatureExtractor.Database :=
  FeatureExtractor.mkDb [] [] [] [].
Definition now : FeatureExtractor.datetime := 1700000000000000%Z.
Definition extractor (student_id : string)
    : result FeatureExtractor.Features :=
  FeatureExtractor.extract_student_features empty_db now student_id 90.
Definition new_student : string := "65f0c0ffee0123456789abcd".
Definition bad_student : string := "not-an-object-id".

(** A database whose only document is the twin of [new_student], with a
    long-run average hint level of [avg]. *)
Definition twin_db (avg : Q) : FeatureExtractor.Database :=
  FeatureExtractor.mkDb
    [ (new_student,
       FeatureExtractor.mkTwin None None (Some [ ("avgHintLevel", avg) ])
                               None) ]
    [] [] [].
Definition twin_extractor (avg : Q) (student_id : string)
    : result FeatureExtractor.Features :=
  FeatureExtractor.extract_student_features (twin_db avg) now student_id 90.

(** Predictors whose calls raise, bound as trained models. *)
Definition broken_model : ModelInference.StudentBehaviorModel :=
  ModelInference.mkBehaviorModel
    22 (fun _ => Raise (RuntimeError "shape mismatch")) (fun _ => Ok tt).
Definition broken_detector : ModelInference.AnomalyDetector :=
  ModelInference.mkDetector
    (ModelInference.mkVAE 15) 0.7
    (fun _ => Raise (RuntimeError "shape mismatch"))
    (fun _ _ => Raise (RuntimeError "shape mismatch")).
Definition broken_agent : ModelInference.LearningPathAgent :=
  ModelInference.mkAgent
    53 (fun _ _ => Raise (RuntimeError "shape mismatch")) (fun _ => Ok tt).

(** Model classes for the loaders: the behavior class instantiates, the
    autoencoder class rejects its configuration. *)
Definition working_model : ModelInference.StudentBehaviorModel :=
  ModelInference.mkBehaviorModel
    22 (fun _ => Ok (0.5, [])) (fun _ => Ok tt).
Definition behavior_class
    : ModelRegistry.ModelClass ModelInference.StudentBehaviorModel :=
  ModelRegistry.mkClass _ (fun _ => Ok working_model) (fun _ m => Ok m).
Definition vae_class : ModelRegistry.ModelClass ModelInference.BehaviorVAE :=
  ModelRegistry.mkClass
    _ (fun _ => Raise (TypeError "unexpected keyword argument"))
    (fun _ m => Ok m).
Definition detector_init (model : ModelInference.BehaviorVAE) (threshold : Q)
    : result ModelInference.AnomalyDetector :=
  Ok (ModelInference.mkDetector
        model threshold
        (fun _ => Ok (ModelInference.mkDetection None 0 0))
        (fun _ _ => Ok [])).
Definition agent_init (_ : dict value)
    : result ModelInference.LearningPathAgent :=
  Ok broken_agent.

(** The router's [_load_models] in this environment, runtime available and
    every capability enabled. *)
Definition load_models
    : ModelRegistry.Registry -> ModelInference.State -> ModelInference.State :=
  ModelInference._load_models true [] behavior_class vae_class
                              detector_init agent_init.

Definition trained_state : ModelInference.State :=
  ModelInference.set_binding
    (ModelInference.set_binding
       (ModelInference.set_binding empty_state "behavior_prediction"
          (ModelInference.PBehavior broken_model) "v1.0.0" false)
       "anomaly_detection" (ModelInference.PDetector broken_detector)
       "v1.0.0" false)
    "learning_path" (ModelInference.PAgent broken_agent) "v1.0.0" false.
End Samples.

(** More sample data: a student with records, and further registries. *)
Module Records.
Import Py.
Local Open Scope Q_scope.

(** A student with records in the window: two monitoring sessions, two
    submissions (one passed), two hint requests of levels 2 and 4, and a
    twin that has completed hard problems. *)
Definition day (n : Z) : FeatureExtractor.datetime :=
  (Samples.now - FeatureExtractor.days n)%Z.

Definition busy_db : FeatureExtractor.Database :=
  FeatureExtractor.mkDb
    [ (Samples.new_student,
       FeatureExtractor.mkTwin
         None (Some [ ("hard", [ ("completed", 2) ]) ]) None None) ]
    [ FeatureExtractor.mkMonitoring
        Samples.new_student (day 3)
        [ ("pasteCount", 2); ("totalActiveTime", 600);
          ("totalIdleTime", 60); ("tabSwitchCount", 4) ];
      FeatureExtractor.mkMonitoring
        Samples.new_student (day 1)
        [ ("pasteCount", 4); ("totalActiveTime", 400);
          ("totalIdleTime", 40) ] ]
    [ FeatureExtractor.mkSubmission
        Samples.new_student (day 2) (Some "passed") (Some 90) (Some "a1");
      FeatureExtractor.mkSubmission
        Samples.new_student (day 1) (Some "failed") (Some 40) (Some "a2") ]
    [ FeatureExtractor.mkHint
        Samples.new_student (day 2) (Some 2) (Some true) (Some (Some true));
      FeatureExtractor.mkHint
        Samples.new_student (day 1) (Some 4) None None ].

Definition busy_extractor (student_id : string)
    : result FeatureExtractor.Features :=
  FeatureExtractor.extract_student_features busy_db Samples.now student_id 90.

Definition busy_features : FeatureExtractor.Features :=
  match busy_extractor Samples.new_student with
  | Ok features => features
  | Raise _ => FeatureExtractor.no_features
  end.

(** success_rate 30, avg_score 40, ai_dependency 0.7, learning_velocity
    20, ten days since the last session. *)
Definition struggling_student : FeatureExtractor.Features :=
  Samples.features_of []
                      [ ("success_rate", 30); ("avg_score", 40) ]
                      [ ("ai_dependency_score", 0.7) ]
                      [ ("days_since_last_session", 10);
                        ("learning_velocity", 20) ].

(** Registries: two scored versions; one version under a name that is not
    a dotted number; and the history of [Samples.registry4] followed by
    the deletion of the version that is no longer production. *)
Definition second_version : ModelRegistry.ModelVersion :=
  ModelRegistry.ModelVersion_init "v1.0.1" "behavior" 20 None None None
                                  "second" false.

Definition scored_registry : ModelRegistry.Registry :=
  Samples.history
    [ ModelRegistry.Register 10 tt "behavior"
        (Some [ ("accuracy", 0.8) ]) None (Some ["baseline"]) "first" None;
      ModelRegistry.Register 20 tt "behavior"
        (Some [ ("accuracy", 0.9); ("loss", 0.2) ]) None None "second"
        None ].

Definition named_registry : ModelRegistry.Registry :=
  Samples.history
    [ ModelRegistry.Register 10 tt "behavior" None None None "named"
        (Some "latest") ].


(** Three feedback entries with their timestamps. *)
Definition feedbacks : list (dict value * string) :=
  [ ([ ("prediction", VNum 0.7); ("actual", VBool true) ],
     "2024-03-01T10:00:00");
    ([ ("prediction", VNum 0.4); ("actual", VBool true) ],
     "2024-03-01T10:05:00");
    ([ ("prediction", VNum 0.9); ("actual", VBool false) ],
     "2024-03-01T10:10:00") ].
End Records.

(* ===================================================================== *)
(** ** Properties                                                         *)
(* ===================================================================== *)

Section PyFacts.
Local Open Scope Q_scope.

Lemma ltb_true (x y : Q) : Py.ltb x y = true <-> x < y.
Proof.
  unfold Py.ltb. rewrite negb_true_iff. split.
  - intros H. apply Qnot_le_lt. intros Hle.
    apply Qle_bool_iff in Hle. congruence.
  - intros H. destruct (Qle_bool y x) eqn:E; [|reflexivity].
    apply Qle_bool_iff in E. lra.
Qed.

Lemma ltb_false (x y : Q) : Py.ltb x y = false <-> y <= x.
Proof.
  unfold Py.ltb. rewrite negb_false_iff. apply Qle_bool_iff.
Qed.



Lemma eqb_true (x y : Q) : Py.eqb x y = true <-> x == y.
Proof. apply Qeq_bool_iff. Qed.

Lemma eqb_false (x y : Q) : Py.eqb x y = false <-> ~ x == y.
Proof.
  unfold Py.eqb. split.
  - intros H Heq. apply Qeq_bool_iff in Heq. congruence.
  - intros H. destruct (Qeq_bool x y) eqn:E; [|reflexivity].
    apply Qeq_bool_iff in E. contradiction.
Qed.

(** [max(0.0, min(1.0, x))] is a clamp to the unit interval. *)
Lemma clamp01_range (x : Q) : 0 <= Py.max 0.0 (Py.min 1.0 x) <= 1.
Proof.
  unfold Py.max, Py.min, Py.gtb.
  destruct (Py.ltb x 1.0) eqn:E1.
  - destruct (Py.ltb 0.0 x) eqn:E2.
    + apply ltb_true in E1, E2. lra.
    + lra.
  - destruct (Py.ltb 0.0 1.0) eqn:E2; lra.
Qed.

Lemma clamp01_low (x : Q) : x <= 0 -> Py.max 0.0 (Py.min 1.0 x) = 0.0.
Proof.
  intros H. unfold Py.max, Py.min, Py.gtb.
  assert (E1 : Py.ltb x 1.0 = true) by (apply ltb_true; lra).
  rewrite E1.
  assert (E2 : Py.ltb 0.0 x = false) by (apply ltb_false; lra).
  now rewrite E2.
Qed.

Lemma clamp01_high (x : Q) : 1 <= x -> Py.max 0.0 (Py.min 1.0 x) = 1.0.
Proof.
  intros H. unfold Py.max, Py.min, Py.gtb.
  assert (E1 : Py.ltb x 1.0 = false) by (apply ltb_false; lra).
  rewrite E1. reflexivity.
Qed.

Lemma clamp01_mid (x : Q) : 0 <= x <= 1 -> Py.max 0.0 (Py.min 1.0 x) == x.
Proof.
  intros H. unfold Py.max, Py.min, Py.gtb.
  destruct (Py.ltb x 1.0) eqn:E1.
  - destruct (Py.ltb 0.0 x) eqn:E2; [reflexivity|].
    apply ltb_false in E2. lra.
  - apply ltb_false in E1.
    change (Py.ltb 0.0 1.0) with true. cbv iota. lra.
Qed.
End PyFacts.

Section Normalize.
Import FeatureExtractor.
Local Open Scope Q_scope.

Lemma normalize_range (value min_val max_val : Q) :
  0 <= _normalize value min_val max_val <= 1.
Proof.
  unfold _normalize. destruct (Py.eqb max_val min_val).
  - lra.
  - apply clamp01_range.
Qed.

Lemma normalize_at_or_below_min (value min_val max_val : Q) :
  min_val < max_val -> value <= min_val ->
  _normalize value min_val max_val = 0.0.
Proof.
  intros Hlt Hle. unfold _normalize.
  assert (E : Py.eqb max_val min_val = false) by (apply eqb_false; lra).
  rewrite E. apply clamp01_low.
  assert (Hd : 0 < max_val - min_val) by lra.
  apply Qle_shift_div_r; lra.
Qed.

Lemma normalize_at_or_above_max (value min_val max_val : Q) :
  min_val < max_val -> max_val <= value ->
  _normalize value min_val max_val = 1.0.
Proof.
  intros Hlt Hle. unfold _normalize.
  assert (E : Py.eqb max_val min_val = false) by (apply eqb_false; lra).
  rewrite E. apply clamp01_high.
  assert (Hd : 0 < max_val - min_val) by lra.
  apply Qle_shift_div_l; lra.
Qed.

Lemma normalize_degenerate (value min_val max_val : Q) :
  min_val == max_val -> _normalize value min_val max_val = 0.5.
Proof.
  intros Heq. unfold _normalize.
  assert (E : Py.eqb max_val min_val = true) by (apply eqb_true; lra).
  now rewrite E.
Qed.
End Normalize.

(* ===================================================================== *)
(** ** Feature normalization (C4)                                          *)
(* ===================================================================== *)

Section NormalizeSpec.
Import FeatureExtractor.
Local Open Scope Q_scope.

(** Every entry of the definition table has a proper range. *)
Lemma FEATURE_DEFINITIONS_proper :
  Forall (fun cat => Forall (fun d => fd_min (snd d) < fd_max (snd d))
                            (snd cat))
         FEATURE_DEFINITIONS.
Proof. repeat constructor. Qed.

(** C4. For every value and every definition range: the normalized value
    lies in [0,1]; over a proper range (min < max) a value at or below
    min normalizes to exactly 0 and a value at or above max to exactly 1;
    over a degenerate range (min == max) the result is exactly 0.5. *)
Theorem C4_normalize_unit_interval (value min_val max_val : Q) :
  0 <= _normalize value min_val max_val <= 1
  /\ (min_val < max_val -> value <= min_val ->
      _normalize value min_val max_val == 0)
  /\ (min_val < max_val -> max_val <= value ->
      _normalize value min_val max_val == 1)
  /\ (min_val == max_val -> _normalize value min_val max_val == 0.5).
Proof.
  split; [apply normalize_range|].
  split; [|split].
  - intros Hlt Hle.
    now rewrite (normalize_at_or_below_min _ _ _ Hlt Hle).
  - intros Hlt Hle.
    now rewrite (normalize_at_or_above_max _ _ _ Hlt Hle).
  - intros Heq. now rewrite (normalize_degenerate _ _ _ Heq).
Qed.

Lemma C4_normalize_witness :
  _normalize 0 1 5 == 0 /\ _normalize 7 1 5 == 1
  /\ _normalize 3 2 2 == 0.5 /\ 0 <= _normalize 3 1 5 <= 1.
Proof.
  split; [|split; [|split]].
  - apply (C4_normalize_unit_interval 0 1 5); lra.
  - apply (C4_normalize_unit_interval 7 1 5); lra.
  - apply (C4_normalize_unit_interval 3 2 2); lra.
  - apply (C4_normalize_unit_interval 3 1 5).
Defined.
End NormalizeSpec.

(* ===================================================================== *)
(** ** The registry's production flag (C2)                                 *)
(* ===================================================================== *)

Section DictFacts.
Context {V : Type}.
Implicit Types (d : Py.dict V) (k : string) (p : string * V -> bool).

Lemma find_head_filter {A} (q : A -> bool) (l : list A) :
  List.find q l = head (List.filter q l).
Proof.
  induction l as [|x l IH]; simpl; [reflexivity|].
  destruct (q x); [reflexivity|exact IH].
Qed.

(** Storing a value that fails [p] never adds an entry satisfying [p]. *)
Lemma filter_set_false d k v p :
  (forall k', p (k', v) = false) ->
  (length (List.filter p (Py.set d k v)) <= length (List.filter p d))%nat.
Proof.
  intros Hp. induction d as [|[k' v'] d IH]; simpl.
  - rewrite Hp. simpl. lia.
  - destruct (String.eqb k k'); simpl.
    + rewrite Hp. destruct (p (k', v')); simpl; lia.
    + destruct (p (k', v')); simpl; lia.
Qed.

Lemma filter_del d k p :
  (length (List.filter p (Py.del d k)) <= length (List.filter p d))%nat.
Proof.
  induction d as [|[k' v'] d IH]; simpl; [lia|].
  destruct (String.eqb k k'); simpl.
  - destruct (p (k', v')); simpl; lia.
  - destruct (p (k', v')); simpl; lia.
Qed.

(** Over entries none of which satisfies [p], overwriting a present key
    with a value that satisfies [p] leaves exactly that entry. *)
Lemma filter_set_only d k v v0 p :
  (forall e, In e d -> p e = false) ->
  (forall k', p (k', v) = true) ->
  Py.dlookup d k = Some v0 ->
  List.filter p (Py.set d k v) = [(k, v)].
Proof.
  intros Hall Hp. induction d as [|[k' v'] d IH]; simpl; [discriminate|].
  destruct (String.eqb k k') eqn:E; intros Hl.
  - apply String.eqb_eq in E. subst k'. simpl. rewrite Hp.
    f_equal. clear IH Hl.
    assert (Hd : forall e, In e d -> p e = false)
      by (intros e He; apply Hall; now right).
    clear Hall. induction d as [|e d IH]; simpl; [reflexivity|].
    rewrite (Hd e) by now left.
    apply IH. intros e' He'. apply Hd. now right.
  - simpl. rewrite (Hall (k', v')) by now left.
    apply IH; [|exact Hl]. intros e He. apply Hall. now right.
Qed.

Lemma dlookup_set_eq d k v : Py.dlookup (Py.set d k v) k = Some v.
Proof.
  induction d as [|[k' v'] d IH]; simpl.
  - now rewrite String.eqb_refl.
  - destruct (String.eqb k k') eqn:E; simpl; rewrite E; auto.
Qed.

Lemma dlookup_set_ne d k k' v :
  k <> k' -> Py.dlookup (Py.set d k v) k' = Py.dlookup d k'.
Proof.
  intros Hne. induction d as [|[k0 v0] d IH]; simpl.
  - destruct (String.eqb k' k) eqn:E; [|reflexivity].
    apply String.eqb_eq in E. congruence.
  - destruct (String.eqb k k0) eqn:E; simpl.
    + apply String.eqb_eq in E. subst k0.
      destruct (String.eqb k' k) eqn:E'; [|reflexivity].
      apply String.eqb_eq in E'. congruence.
    + now rewrite IH.
Qed.

Lemma dlookup_map_snd {W} (f : V -> W) d k :
  Py.dlookup (map (fun e => (fst e, f (snd e))) d) k
  = f <$> Py.dlookup d k.
Proof.
  induction d as [|[k' v'] d IH]; simpl; [reflexivity|].
  destruct (String.eqb k k'); [reflexivity|exact IH].
Qed.
End DictFacts.

Section RegistryFacts.
Import ModelRegistry.
Context {Network : Type}.
Variable save_checkpoint : Network -> string.
Variable md5 : string -> string.

Lemma get_production_version_head (r : Registry) (mt : string) :
  get_production_version r mt = head (production_versions r mt).
Proof.
  unfold get_production_version, production_versions, Py.keys.
  destruct (index r !! mt) as [entries|]; simpl; [|reflexivity].
  rewrite find_head_filter.
  now destruct (List.filter _ entries).
Qed.

Lemma no_production_iff (r : Registry) (mt : string) :
  get_production_version r mt = None <-> production_versions r mt = [].
Proof.
  rewrite get_production_version_head.
  destruct (production_versions r mt); simpl; split; congruence.
Qed.

(** What a successful [register_model] returns and stores. *)
Lemma register_model_ok r now model mt metrics config tags descr ver mv r' :
  register_model save_checkpoint md5 r now model mt metrics config tags
                 descr ver = Py.Ok (mv, r') ->
  exists v,
    mv = ModelVersion_init v mt now metrics config tags descr false
    /\ index r' = <[mt := Py.set (default [] (index r !! mt)) v mv]> (index r)
    /\ files r' = <[(mt, v) :=
                     mkDir (Some (save_checkpoint model))
                           (Some (mkMetadata mv (md5 (save_checkpoint model))
                                    (version_dir r mt v +:+ "/model.ckpt")))]>
                  (files r)
    /\ match ver with
       | Some explicit => v = explicit
       | None => _generate_version r mt = Py.Ok v
       end.
Proof.
  unfold register_model.
  destruct (negb (existsb (String.eqb mt) MODEL_TYPES)); [discriminate|].
  destruct (match ver with
            | Some v => Py.Ok v
            | None => _generate_version r mt
            end) as [v|e] eqn:Ev; simpl; [|discriminate].
  unfold mbind, result_bind. simpl. intros H. injection H as <- <-.
  exists v. simpl. repeat split.
  destruct ver as [explicit|]; [congruence|exact Ev].
Qed.

Lemma production_versions_register
      r now model mt metrics config tags descr ver mv r' mt' :
  register_model save_checkpoint md5 r now model mt metrics config tags
                 descr ver = Py.Ok (mv, r') ->
  (length (production_versions r' mt')
   <= length (production_versions r mt'))%nat.
Proof.
  intros H. apply register_model_ok in H as (v & Hmv & Hidx & _).
  unfold production_versions, Py.keys. rewrite !length_map, Hidx.
  destruct (decide (mt = mt')) as [<-|Hne].
  - rewrite lookup_insert_eq. simpl.
    apply filter_set_false. intros k'. now rewrite Hmv.
  - rewrite lookup_insert_ne by exact Hne. lia.
Qed.

Lemma set_production_ok r mt v r' :
  set_production r mt v = Py.Ok r' ->
  production_versions r' mt = [v]
  /\ (forall mt', mt' <> mt ->
        production_versions r' mt' = production_versions r mt')
  /\ files r' = files r.
Proof.
  unfold set_production.
  destruct (index r !! mt) as [entries|] eqn:Ei; [|discriminate].
  unfold Py.contains.
  destruct (Py.dlookup entries v) as [data|] eqn:El; simpl; [|discriminate].
  rewrite dlookup_map_snd, El. simpl.
  intros H. injection H as <-. split; [|split]; [| |reflexivity].
  - unfold production_versions. simpl. rewrite lookup_insert_eq. simpl.
    erewrite (filter_set_only _ v _ (set_is_production false data)).
    + reflexivity.
    + intros e He. apply in_map_iff in He as (e0 & <- & _). reflexivity.
    + reflexivity.
    + now rewrite dlookup_map_snd, El.
  - intros mt' Hne. unfold production_versions. simpl.
    now rewrite lookup_insert_ne by congruence.
Qed.

Lemma set_production_missing r mt v :
  has_version r mt v = false ->
  set_production r mt v
  = Py.Raise (Py.ValueError ("Version not found: " +:+ mt +:+ "/" +:+ v)).
Proof.
  unfold has_version, set_production.
  destruct (index r !! mt) as [entries|]; [|reflexivity].
  now intros ->.
Qed.

Lemma production_versions_delete r mt v force r' mt' :
  delete_version r mt v force = Py.Ok r' ->
  (length (production_versions r' mt')
   <= length (production_versions r mt'))%nat.
Proof.
  unfold delete_version.
  destruct (index r !! mt) as [entries|] eqn:Ei; [|discriminate].
  destruct (Py.dlookup entries v) as [data|]; [|discriminate].
  destruct (is_production data && negb force); [discriminate|].
  intros H. injection H as <-.
  unfold production_versions, Py.keys. rewrite !length_map. simpl.
  destruct (decide (mt = mt')) as [<-|Hne].
  - rewrite lookup_insert_eq, Ei. simpl. apply filter_del.
  - rewrite lookup_insert_ne by exact Hne. lia.
Qed.

Lemma init_no_production path mt : production_versions (init path) mt = [].
Proof.
  unfold production_versions, init. cbn [index].
  destruct (_ !! mt) as [entries|] eqn:E; [|reflexivity].
  apply elem_of_list_to_map_2 in E. cbn [map MODEL_TYPES] in E.
  repeat (apply elem_of_cons in E as [E|E];
          [injection E as _ ->; reflexivity|]).
  now apply elem_of_nil in E.
Qed.

Lemma step_at_most_one r o :
  at_most_one_production r ->
  at_most_one_production (step save_checkpoint md5 r o).
Proof.
  intros Hr mt'. unfold step.
  destruct (apply_op save_checkpoint md5 r o) as [r'|e] eqn:E; simpl;
    [|apply Hr].
  destruct o as [now model mt metrics config tags descr ver|mt v|mt v force];
    simpl in E.
  - destruct (register_model _ _ _ _ _ _ _ _ _ _ _) as [[mv r1]|] eqn:Er;
      [|discriminate].
    injection E as <-. simpl.
    pose proof (production_versions_register _ _ _ _ _ _ _ _ _ _ _ mt' Er).
    specialize (Hr mt'). lia.
  - apply set_production_ok in E as (Hmt & Hother & _).
    destruct (decide (mt' = mt)) as [->|Hne].
    + rewrite Hmt. simpl. lia.
    + rewrite Hother by exact Hne. apply Hr.
  - pose proof (production_versions_delete _ _ _ _ _ mt' E).
    specialize (Hr mt'). lia.
Qed.

Lemma run_at_most_one ops r :
  at_most_one_production r ->
  at_most_one_production (run save_checkpoint md5 ops r).
Proof.
  revert r. induction ops as [|o ops IH]; intros r Hr; simpl; [exact Hr|].
  apply IH, step_at_most_one, Hr.
Qed.
End RegistryFacts.

Section RegistrySpec.
Import ModelRegistry.

(** C2. For every model type: a version just registered has
    production=false, so if no production version resolved before the
    registration none resolves after it and [get_model] without a version
    raises "No production version"; after a successful [set_production]
    of [v] the production version resolves to [v] and [v] is the only
    flagged version of its type, other types being untouched; every
    registry reached from a fresh one, and every registry reached by
    promotions from one with at most one flagged version per type, has at
    most one flagged version per type; [set_production] of a version that
    is not in the index raises "Version not found". *)
Theorem C2_production_flag
    {Network : Type} (save_checkpoint : Network -> string)
    (md5 : string -> string) :
  (forall r now model mt metrics config tags descr ver mv r',
      register_model save_checkpoint md5 r now model mt metrics config tags
                     descr ver = Py.Ok (mv, r') ->
      is_production mv = false
      /\ get_version_info r' mt (version mv) = Py.Ok mv
      /\ (get_production_version r mt = None ->
          get_production_version r' mt = None
          /\ forall (M : Type) (cls : option (ModelClass M)),
               get_model r' mt None cls
               = Py.Raise (Py.ValueError
                             ("No production version for " +:+ mt))))
  /\ (forall r mt v r',
        set_production r mt v = Py.Ok r' ->
        get_production_version r' mt = Some v
        /\ production_versions r' mt = [v]
        /\ forall mt', mt' <> mt ->
             production_versions r' mt' = production_versions r mt')
  /\ (forall path ops,
        at_most_one_production (run save_checkpoint md5 ops (init path)))
  /\ (forall r (promotes : list (string * string)),
        at_most_one_production r ->
        at_most_one_production
          (run save_checkpoint md5
               (map (fun p => Promote (fst p) (snd p)) promotes) r))
  /\ (forall r mt v,
        has_version r mt v = false ->
        set_production r mt v
        = Py.Raise (Py.ValueError
                      ("Version not found: " +:+ mt +:+ "/" +:+ v))).
Proof.
  split; [|split; [|split; [|split]]].
  - intros r now model mt metrics config tags descr ver mv r' H.
    pose proof (production_versions_register _ _ _ _ _ _ _ _ _ _ _ _ _ mt H)
      as Hlen.
    apply register_model_ok in H as (v & Hmv & Hidx & _).
    split; [now rewrite Hmv|]. split.
    + unfold get_version_info. rewrite Hidx, lookup_insert_eq.
      replace (version mv) with v by now rewrite Hmv.
      now rewrite dlookup_set_eq.
    + intros Hnone.
      assert (Hnone' : get_production_version r' mt = None).
      { apply no_production_iff. apply no_production_iff in Hnone.
        rewrite Hnone in Hlen. simpl in Hlen.
        destruct (production_versions r' mt); [reflexivity|simpl in Hlen; lia]. }
      split; [exact Hnone'|].
      intros M cls. unfold get_model. now rewrite Hnone'.
  - intros r mt v r' H. apply set_production_ok in H as (Hmt & Hother & _).
    split; [|split; assumption].
    now rewrite get_production_version_head, Hmt.
  - intros path ops. apply run_at_most_one.
    intros mt. rewrite init_no_production. simpl. lia.
  - intros r promotes Hr. now apply run_at_most_one.
  - apply set_production_missing.
Qed.
End RegistrySpec.

Section RegistryWitness.
Import ModelRegistry.

Lemma C2_production_flag_witness :
  get_production_version Samples.registry1 "behavior" = None
  /\ get_production_version Samples.registry2 "behavior" = Some "v1.0.0"
  /\ production_versions Samples.registry4 "behavior" = ["v1.0.1"]
  /\ at_most_one_production Samples.registry4
  /\ set_production Samples.registry4 "behavior" "v7.0.0"
     = Py.Raise (Py.ValueError "Version not found: behavior/v7.0.0").
Proof.
  destruct (C2_production_flag Samples.save_checkpoint Samples.md5)
    as (Hregister & Hpromote & Hfresh & Hpromotes & Hmissing).
  split; [|split; [|split; [|split]]].
  - apply (Hregister Samples.registry0 10 tt "behavior" None None None
                     "first" None Samples.first_version Samples.registry1);
      reflexivity.
  - apply (Hpromote Samples.registry1 "behavior" "v1.0.0"). reflexivity.
  - apply (Hpromote Samples.registry3 "behavior" "v1.0.1"). reflexivity.
  - apply (Hpromotes Samples.registry3 [("behavior", "v1.0.1")]).
    apply Hfresh.
  - apply (Hmissing Samples.registry4 "behavior" "v7.0.0"). reflexivity.
Defined.
End RegistryWitness.

(* ===================================================================== *)
(** ** Heuristic success prediction (C1)                                   *)
(* ===================================================================== *)

Section MinMaxFacts.
Local Open Scope Q_scope.

Lemma py_min_Qmin (a b : Q) : Py.min a b == Qmin a b.
Proof.
  unfold Py.min. destruct (Py.ltb b a) eqn:E.
  - apply ltb_true in E. symmetry. apply Q.min_r. lra.
  - apply ltb_false in E. symmetry. apply Q.min_l. exact E.
Qed.

Lemma py_max_Qmax (a b : Q) : Py.max a b == Qmax a b.
Proof.
  unfold Py.max, Py.gtb. destruct (Py.ltb a b) eqn:E.
  - apply ltb_true in E. symmetry. apply Q.max_r. lra.
  - apply ltb_false in E. symmetry. apply Q.max_l. exact E.
Qed.

(** The literals [0.0] and [1.0] are the rationals 0 and 1. *)
Lemma clamp_literals (x : Q) : Qmax 0.0 (Qmin 1.0 x) == Qmax 0 (Qmin 1 x).
Proof.
  destruct (Q.min_spec 1.0 x) as [[? Ha]|[? Ha]];
    destruct (Q.min_spec 1 x) as [[? Hb]|[? Hb]];
    revert Ha Hb;
    generalize (Qmin 1.0 x) as a; generalize (Qmin 1 x) as b; intros b a Ha Hb;
    destruct (Q.max_spec 0.0 a) as [[? Hc]|[? Hc]];
    destruct (Q.max_spec 0 b) as [[? Hd]|[? Hd]];
    rewrite Hc, Hd; lra.
Qed.



Lemma gtb_true (x y : Q) : Py.gtb x y = true <-> y < x.
Proof. apply ltb_true. Qed.

Lemma gtb_false (x y : Q) : Py.gtb x y = false <-> x <= y.
Proof. apply ltb_false. Qed.
End MinMaxFacts.

Section RiskLevel.
Import ModelInference.
Local Open Scope Q_scope.



End RiskLevel.

(* ===================================================================== *)
(** ** Binary64 rounding                                                  *)
(* ===================================================================== *)

Section Binary64Facts.
Import Py.
Local Open Scope Q_scope.

Lemma two_nonzero : ~ 2 == 0.
Proof. discriminate. Qed.

Lemma pow2_pos (k : Z) : 0 < pow2 k.
Proof. apply Qpower_0_lt. reflexivity. Qed.

Lemma pow2_plus (a b : Z) : pow2 (a + b) == pow2 a * pow2 b.
Proof. apply Qpower_plus, two_nonzero. Qed.

Lemma pow2_le (a b : Z) : (a <= b)%Z -> pow2 a <= pow2 b.
Proof. intros H. apply Qpower_le_compat_l; [exact H|discriminate]. Qed.

Lemma pow2_lt (a b : Z) : (a < b)%Z -> pow2 a < pow2 b.
Proof. intros H. apply Qpower_lt_compat_l; [exact H|reflexivity]. Qed.

Lemma pow2_lt_inv (a b : Z) : pow2 a < pow2 b -> (a < b)%Z.
Proof.
  intros H. destruct (Z_lt_le_dec a b) as [Hlt|Hle]; [exact Hlt|].
  apply pow2_le in Hle. lra.
Qed.

Lemma pow2_Z (k : Z) : (0 <= k)%Z -> pow2 k == inject_Z (2 ^ k).
Proof. intros H. unfold pow2. now rewrite Zpower_Qpower. Qed.

Lemma pow2_minus (a b : Z) : pow2 (a - b) == pow2 a / pow2 b.
Proof.
  unfold Z.sub. rewrite pow2_plus. unfold pow2 at 2.
  now rewrite Qpower_opp.
Qed.

(** A quotient of integers against a quotient of powers of two. *)
Lemma frac_lt_pow2 (n : Z) (d : positive) (a b : Z) :
  (0 <= a)%Z -> (0 <= b)%Z ->
  (n * 2 ^ b < 2 ^ a * Z.pos d)%Z -> n # d < pow2 (a - b).
Proof.
  intros Ha Hb H. rewrite pow2_minus, !pow2_Z by assumption.
  assert (Hpb : (0 < 2 ^ b)%Z) by (apply Z.pow_pos_nonneg; lia).
  apply Qlt_shift_div_l; [unfold Qlt; cbn; lia|].
  unfold Qlt. cbn. lia.
Qed.

Lemma pow2_le_frac (n : Z) (d : positive) (a b : Z) :
  (0 <= a)%Z -> (0 <= b)%Z ->
  (2 ^ a * Z.pos d <= n * 2 ^ b)%Z -> pow2 (a - b) <= n # d.
Proof.
  intros Ha Hb H. rewrite pow2_minus, !pow2_Z by assumption.
  assert (Hpb : (0 < 2 ^ b)%Z) by (apply Z.pow_pos_nonneg; lia).
  apply Qle_shift_div_r; [unfold Qlt; cbn; lia|].
  unfold Qle. cbn. lia.
Qed.

Lemma floor_log2_spec (q : Q) :
  0 < q -> pow2 (floor_log2 q) <= q < pow2 (floor_log2 q + 1).
Proof.
  destruct q as [n d]. intros Hq.
  assert (Hn : (0 < n)%Z) by (unfold Qlt in Hq; cbn in Hq; lia).
  unfold floor_log2. cbn [Qnum Qden].
  set (a := Z.log2 n). set (b := Z.log2 (Z.pos d)).
  assert (Ha : (0 <= a)%Z) by apply Z.log2_nonneg.
  assert (Hb : (0 <= b)%Z) by apply Z.log2_nonneg.
  destruct (Z.log2_spec n Hn) as [Ha1 Ha2]. fold a in Ha1, Ha2.
  destruct (Z.log2_spec (Z.pos d) ltac:(lia)) as [Hb1 Hb2].
  fold b in Hb1, Hb2.
  assert (Hpa : (0 < 2 ^ a)%Z) by (apply Z.pow_pos_nonneg; lia).
  assert (Hpb : (0 < 2 ^ b)%Z) by (apply Z.pow_pos_nonneg; lia).
  rewrite Z.pow_succ_r in Ha2, Hb2 by assumption.
  assert (Hlow : pow2 (a - b - 1) <= n # d).
  { replace (a - b - 1)%Z with (a - (b + 1))%Z by lia.
    apply pow2_le_frac; [lia|lia|].
    rewrite Z.pow_add_r by lia. change (2 ^ 1)%Z with 2%Z. nia. }
  assert (Hhigh : n # d < pow2 (a - b + 1)).
  { replace (a - b + 1)%Z with (a + 1 - b)%Z by lia.
    apply frac_lt_pow2; [lia|lia|].
    rewrite Z.pow_add_r by lia. change (2 ^ 1)%Z with 2%Z. nia. }
  destruct (Qle_bool (pow2 (a - b)) (n # d)) eqn:E.
  - apply Qle_bool_iff in E. split; [exact E|exact Hhigh].
  - assert (Hlt : n # d < pow2 (a - b)).
    { apply Qnot_le_lt. intros H. apply Qle_bool_iff in H. congruence. }
    split; [exact Hlow|]. now replace (a - b - 1 + 1)%Z with (a - b)%Z by lia.
Qed.

Lemma floor_log2_le (q1 q2 : Q) :
  0 < q1 -> q1 <= q2 -> (floor_log2 q1 <= floor_log2 q2)%Z.
Proof.
  intros H1 H12.
  destruct (floor_log2_spec q1 H1) as [L1 _].
  destruct (floor_log2_spec q2 ltac:(lra)) as [_ U2].
  assert (H : pow2 (floor_log2 q1) < pow2 (floor_log2 q2 + 1)) by lra.
  apply pow2_lt_inv in H. lia.
Qed.

(** *** Rounding to the nearest integer *)

Lemma round_half_even_cases (x : Q) :
  let f := Qfloor x in
  (x - inject_Z f < 1 # 2 /\ round_half_even x = f)
  \/ (1 # 2 < x - inject_Z f /\ round_half_even x = (f + 1)%Z)
  \/ (x - inject_Z f == 1 # 2
      /\ round_half_even x = if Z.even f then f else (f + 1)%Z).
Proof.
  cbv zeta. unfold round_half_even.
  destruct (Qcompare_spec (x - inject_Z (Qfloor x)) (1 # 2)) as [H|H|H].
  - right. right. split; [exact H|reflexivity].
  - left. split; [exact H|reflexivity].
  - right. left. split; [exact H|reflexivity].
Qed.

Lemma round_half_even_bounds (x : Q) :
  inject_Z (round_half_even x) - (1 # 2) <= x
  /\ x <= inject_Z (round_half_even x) + (1 # 2).
Proof.
  pose proof (Qfloor_le x) as Hlo. pose proof (Qlt_floor x) as Hhi.
  rewrite inject_Z_plus in Hhi. change (inject_Z 1) with 1 in Hhi.
  destruct (round_half_even_cases x) as [[H ->]|[[H ->]|[H ->]]].
  - lra.
  - rewrite inject_Z_plus. change (inject_Z 1) with 1. lra.
  - destruct (Z.even (Qfloor x)).
    + lra.
    + rewrite inject_Z_plus. change (inject_Z 1) with 1. lra.
Qed.

#[export] Instance round_half_even_comp : Proper (Qeq ==> eq) round_half_even.
Proof.
  intros x y H. unfold round_half_even.
  rewrite (Qfloor_comp _ _ H).
  assert (Hc : (x - inject_Z (Qfloor y) ?= 1 # 2)
               = (y - inject_Z (Qfloor y) ?= 1 # 2))
    by (now rewrite H).
  now rewrite Hc.
Qed.

Lemma round_half_even_Z (n : Z) : round_half_even (inject_Z n) = n.
Proof.
  destruct (round_half_even_cases (inject_Z n)) as [[H ->]|[[H E]|[H E]]];
    rewrite Qfloor_Z in *; [reflexivity|lra|lra].
Qed.

Lemma inject_Z_lt_succ (a b : Z) :
  inject_Z a < inject_Z b -> inject_Z a + 1 <= inject_Z b.
Proof.
  intros H. rewrite <- Zlt_Qlt in H.
  change 1 with (inject_Z 1). rewrite <- inject_Z_plus, <- Zle_Qle. lia.
Qed.

Lemma round_half_even_le (x y : Q) :
  x <= y -> (round_half_even x <= round_half_even y)%Z.
Proof.
  intros Hxy.
  destruct (Z_le_gt_dec (round_half_even x) (round_half_even y))
    as [Hle|Hgt]; [exact Hle|exfalso].
  destruct (round_half_even_bounds x) as [Hx _].
  destruct (round_half_even_bounds y) as [_ Hy].
  assert (Hs : inject_Z (round_half_even y) + 1
               <= inject_Z (round_half_even x))
    by (apply inject_Z_lt_succ; rewrite <- Zlt_Qlt; lia).
  assert (Heq : x == y) by lra.
  rewrite (round_half_even_comp _ _ Heq) in Hgt. lia.
Qed.

Lemma Qfloor_opp_frac (x : Q) :
  ~ x == inject_Z (Qfloor x) -> Qfloor (- x) = (- Qfloor x - 1)%Z.
Proof.
  intros Hne.
  pose proof (Qfloor_le x) as Hlo. pose proof (Qlt_floor x) as Hhi.
  rewrite inject_Z_plus in Hhi. change (inject_Z 1) with 1 in Hhi.
  pose proof (Qfloor_le (- x)) as Hlo'. pose proof (Qlt_floor (- x)) as Hhi'.
  rewrite inject_Z_plus in Hhi'. change (inject_Z 1) with 1 in Hhi'.
  assert (Hlt : inject_Z (Qfloor x) < x).
  { apply Qnot_le_lt. intros H. apply Hne. lra. }
  assert (H1 : inject_Z (Qfloor (- x)) < inject_Z (- Qfloor x)).
  { rewrite inject_Z_opp. lra. }
  assert (H2 : inject_Z (- Qfloor x - 2) < inject_Z (Qfloor (- x))).
  { unfold Z.sub. rewrite inject_Z_plus, inject_Z_opp.
    change (inject_Z (- (2))) with (- (2)). lra. }
  rewrite <- Zlt_Qlt in H1, H2. lia.
Qed.

Lemma round_half_even_opp (x : Q) :
  round_half_even (- x) = (- round_half_even x)%Z.
Proof.
  destruct (Qeq_dec x (inject_Z (Qfloor x))) as [Hint|Hfrac].
  - rewrite (round_half_even_comp _ _ Hint).
    assert (Ho : - x == inject_Z (- Qfloor x))
      by (rewrite inject_Z_opp; now rewrite <- Hint).
    rewrite (round_half_even_comp _ _ Ho).
    now rewrite !round_half_even_Z.
  - pose proof (Qfloor_opp_frac x Hfrac) as Hf.
    assert (Hd : - x - inject_Z (- Qfloor x - 1)
                 == 1 - (x - inject_Z (Qfloor x))).
    { unfold Z.sub. rewrite inject_Z_plus, !inject_Z_opp.
      change (inject_Z 1) with 1. ring. }
    destruct (round_half_even_cases x) as [[H ->]|[[H ->]|[H ->]]];
      destruct (round_half_even_cases (- x)) as [[H' ->]|[[H' ->]|[H' ->]]];
      rewrite Hf in *; rewrite Hd in H';
      first [lia | exfalso; lra | idtac].
    rewrite Z.even_sub, Z.even_opp. cbn [Z.even].
    destruct (Z.even (Qfloor x)); cbn; lia.
Qed.

(** *** The nearest binary64 number *)

Lemma ulp_exp_opp (q : Q) : ulp_exp (- q) = ulp_exp q.
Proof.
  destruct q as [n d]. unfold ulp_exp, Qabs, Qopp. cbn [Qnum Qden].
  now rewrite Z.abs_opp.
Qed.

Lemma f64_opp (q : Q) : f64 (- q) == - f64 q.
Proof.
  unfold f64. rewrite ulp_exp_opp.
  assert (H : - q / pow2 (ulp_exp q) == - (q / pow2 (ulp_exp q)))
    by (unfold Qdiv; ring).
  rewrite (round_half_even_comp _ _ H), round_half_even_opp, inject_Z_opp.
  ring.
Qed.

Lemma f64_nonneg (q : Q) : 0 <= q -> 0 <= f64 q.
Proof.
  intros H. unfold f64. pose proof (pow2_pos (ulp_exp q)) as Hp.
  assert (H0 : 0 <= q / pow2 (ulp_exp q))
    by (apply Qle_shift_div_l; lra).
  apply round_half_even_le in H0.
  change 0 with (inject_Z 0) in H0 at 1. rewrite round_half_even_Z in H0.
  apply Qmult_le_0_compat; [|lra].
  change 0 with (inject_Z 0). now rewrite <- Zle_Qle.
Qed.

(** The distance to the rounded value is at most half a unit in the last
    place. *)
Lemma f64_nearest (q : Q) :
  Qabs (q - f64 q) <= pow2 (ulp_exp q) / 2.
Proof.
  unfold f64. set (u := pow2 (ulp_exp q)).
  pose proof (pow2_pos (ulp_exp q)) as Hu. fold u in Hu.
  destruct (round_half_even_bounds (q / u)) as [H1 H2].
  set (n := inject_Z (round_half_even (q / u))) in *.
  assert (Hq : q == q / u * u) by (field; lra).
  assert (Hhi : q / u * u <= (n + (1 # 2)) * u)
    by (apply Qmult_le_compat_r; lra).
  assert (Hlo : (n - (1 # 2)) * u <= q / u * u)
    by (apply Qmult_le_compat_r; lra).
  assert (Hd : u / 2 == (1 # 2) * u) by field.
  apply Qabs_Qle_condition. rewrite Hd. split; lra.
Qed.

Section Positive.
Variable q : Q.
Hypothesis q_pos : 0 < q.

Let E := Z.max (floor_log2 (Qabs q)) (-1022).

Lemma ulp_exp_E : ulp_exp q = (E - 52)%Z.
Proof. reflexivity. Qed.

Lemma below_next_binade : q < pow2 (E + 1).
Proof.
  assert (Ha : Qabs q == q) by (apply Qabs_pos; lra).
  destruct (floor_log2_spec (Qabs q) ltac:(lra)) as [_ U].
  assert (pow2 (floor_log2 (Qabs q) + 1) <= pow2 (E + 1))
    by (apply pow2_le; unfold E; lia).
  lra.
Qed.

Lemma above_binade : (-1022 < E)%Z -> pow2 E <= q.
Proof.
  intros HE.
  assert (Ha : Qabs q == q) by (apply Qabs_pos; lra).
  destruct (floor_log2_spec (Qabs q) ltac:(lra)) as [L _].
  replace E with (floor_log2 (Qabs q)) by (unfold E in *; lia). lra.
Qed.

Lemma f64_below_next_binade : f64 q <= pow2 (E + 1).
Proof.
  unfold f64. rewrite ulp_exp_E.
  pose proof (pow2_pos (E - 52)) as Hp.
  pose proof below_next_binade as Hq.
  assert (Hsplit : pow2 (E + 1) == pow2 53 * pow2 (E - 52))
    by (rewrite <- pow2_plus; now replace (53 + (E - 52))%Z with (E + 1)%Z
          by lia).
  assert (Hle : q / pow2 (E - 52) <= pow2 53).
  { apply Qle_shift_div_r; [exact Hp|]. lra. }
  apply round_half_even_le in Hle.
  rewrite (round_half_even_comp _ _ (pow2_Z 53 ltac:(lia))) in Hle.
  rewrite round_half_even_Z in Hle.
  rewrite Hsplit, (pow2_Z 53) by lia.
  apply Qmult_le_compat_r; [|lra]. now rewrite <- Zle_Qle.
Qed.

Lemma f64_above_binade : (-1022 < E)%Z -> pow2 E <= f64 q.
Proof.
  intros HE. unfold f64. rewrite ulp_exp_E.
  pose proof (pow2_pos (E - 52)) as Hp.
  pose proof (above_binade HE) as Hq.
  assert (Hsplit : pow2 E == pow2 52 * pow2 (E - 52))
    by (rewrite <- pow2_plus; now replace (52 + (E - 52))%Z with E by lia).
  assert (Hle : pow2 52 <= q / pow2 (E - 52)).
  { apply Qle_shift_div_l; [exact Hp|]. lra. }
  apply round_half_even_le in Hle.
  rewrite (round_half_even_comp _ _ (pow2_Z 52 ltac:(lia))) in Hle.
  rewrite round_half_even_Z in Hle.
  rewrite Hsplit, (pow2_Z 52) by lia.
  apply Qmult_le_compat_r; [|lra]. now rewrite <- Zle_Qle.
Qed.
End Positive.

Lemma f64_le_pos (q1 q2 : Q) : 0 < q1 -> q1 <= q2 -> f64 q1 <= f64 q2.
Proof.
  intros H1 H12. assert (H2 : 0 < q2) by lra.
  set (E1 := Z.max (floor_log2 (Qabs q1)) (-1022)).
  set (E2 := Z.max (floor_log2 (Qabs q2)) (-1022)).
  assert (HE : (E1 <= E2)%Z).
  { assert (Hl : (floor_log2 (Qabs q1) <= floor_log2 (Qabs q2))%Z).
    { apply floor_log2_le.
      - rewrite Qabs_pos; lra.
      - rewrite !Qabs_pos; lra. }
    unfold E1, E2. lia. }
  destruct (Z.eq_dec E1 E2) as [Heq|Hne].
  - unfold f64. rewrite (ulp_exp_E q1), (ulp_exp_E q2).
    fold E1 E2. rewrite Heq.
    pose proof (pow2_pos (E2 - 52)) as Hp.
    apply Qmult_le_compat_r; [|lra]. rewrite <- Zle_Qle.
    apply round_half_even_le.
    unfold Qdiv. apply Qmult_le_compat_r; [exact H12|].
    apply Qlt_le_weak, Qinv_lt_0_compat, Hp.
  - pose proof (f64_below_next_binade q1 H1) as Hu.
    pose proof (f64_above_binade q2 H2) as Hl.
    fold E1 in Hu. fold E2 in Hl.
    assert (pow2 (E1 + 1) <= pow2 E2) by (apply pow2_le; lia).
    specialize (Hl ltac:(unfold E1 in *; lia)). lra.
Qed.

Lemma f64_0 (q : Q) : q == 0 -> f64 q == 0.
Proof.
  intros H. unfold f64.
  assert (Hz : forall u, q / u == inject_Z 0)
    by (intros u; rewrite H; change (inject_Z 0) with 0; unfold Qdiv; ring).
  rewrite (round_half_even_comp _ _ (Hz _)), round_half_even_Z.
  change (inject_Z 0) with 0. ring.
Qed.

(** Rounding to binary64 preserves order. *)
Lemma f64_le (q1 q2 : Q) : q1 <= q2 -> f64 q1 <= f64 q2.
Proof.
  intros H.
  destruct (Qlt_le_dec 0 q1) as [H1|H1].
  - now apply f64_le_pos.
  - destruct (Qlt_le_dec q2 0) as [H2|H2].
    + assert (Hn : f64 (- q2) <= f64 (- q1)) by (apply f64_le_pos; lra).
      rewrite !f64_opp in Hn. lra.
    + assert (f64 q1 <= 0).
      { assert (Hn : 0 <= f64 (- q1)) by (apply f64_nonneg; lra).
        rewrite f64_opp in Hn. lra. }
      pose proof (f64_nonneg q2 H2). lra.
Qed.

#[export] Instance f64_comp : Proper (Qeq ==> Qeq) f64.
Proof.
  intros x y H. apply Qle_antisym; apply f64_le; lra.
Qed.

(** *** The float operations preserve order *)

#[export] Instance fadd_comp : Proper (Qeq ==> Qeq ==> Qeq) fadd.
Proof. intros a a' Ha b b' Hb. unfold fadd. now rewrite Ha, Hb. Qed.

#[export] Instance fsub_comp : Proper (Qeq ==> Qeq ==> Qeq) fsub.
Proof. intros a a' Ha b b' Hb. unfold fsub. now rewrite Ha, Hb. Qed.

#[export] Instance fmul_comp : Proper (Qeq ==> Qeq ==> Qeq) fmul.
Proof. intros a a' Ha b b' Hb. unfold fmul. now rewrite Ha, Hb. Qed.

#[export] Instance fdiv_comp : Proper (Qeq ==> Qeq ==> Qeq) fdiv.
Proof. intros a a' Ha b b' Hb. unfold fdiv. now rewrite Ha, Hb. Qed.

Lemma fadd_le (a a' b b' : Q) :
  a <= a' -> b <= b' -> fadd a b <= fadd a' b'.
Proof.
  intros Ha Hb. unfold fadd. apply f64_le.
  apply f64_le in Ha, Hb. lra.
Qed.

Lemma fsub_le (a a' b b' : Q) :
  a <= a' -> b' <= b -> fsub a b <= fsub a' b'.
Proof.
  intros Ha Hb. unfold fsub. apply f64_le.
  apply f64_le in Ha, Hb. lra.
Qed.

Lemma fmul_le (c a a' : Q) : 0 <= c -> a <= a' -> fmul c a <= fmul c a'.
Proof.
  intros Hc Ha. unfold fmul. apply f64_le.
  apply f64_nonneg in Hc. apply f64_le in Ha.
  rewrite !(Qmult_comm (f64 c)). now apply Qmult_le_compat_r.
Qed.

Lemma fdiv_le (a a' d : Q) : 0 < f64 d -> a <= a' -> fdiv a d <= fdiv a' d.
Proof.
  intros Hd Ha. unfold fdiv. apply f64_le. apply f64_le in Ha.
  unfold Qdiv. apply Qmult_le_compat_r; [exact Ha|].
  now apply Qlt_le_weak, Qinv_lt_0_compat.
Qed.
End Binary64Facts.

Section SuccessPrediction.
Import Py FeatureExtractor ModelInference.
Local Open Scope Q_scope.


(** On the inputs of [Binary64.checked_inputs] the rounding written out
    on the rationals gives the number the kernel's binary64 arithmetic
    gives; among them are the two students at the tier thresholds. *)
Lemma weighted_probability_agrees_with_binary64 :
  forallb (fun '(values, (success_rate, avg_score, ai_dependency,
                          learning_velocity, days)) =>
             Qeq_bool (weighted_probability (Samples.student_with values))
                      (Binary64.to_Q
                         (Binary64.weighted_probability
                            success_rate avg_score ai_dependency
                            learning_velocity days)))
          Binary64.checked_inputs = true.
Proof. vm_compute. reflexivity. Qed.


End SuccessPrediction.

(* ===================================================================== *)
(** ** Heuristic anomaly detection (C5)                                    *)
(* ===================================================================== *)

Section AnomalyHeuristic.
Import Py FeatureExtractor ModelInference.
Local Open Scope Q_scope.

Lemma gtb_dec (x y : Q) :
  Py.gtb x y = if Qlt_le_dec y x then true else false.
Proof.
  destruct (Qlt_le_dec y x) as [H|H].
  - now apply gtb_true.
  - now apply gtb_false.
Qed.

Lemma ltb_dec (x y : Q) :
  Py.ltb x y = if Qlt_le_dec x y then true else false.
Proof.
  destruct (Qlt_le_dec x y) as [H|H].
  - now apply ltb_true.
  - now apply ltb_false.
Qed.

(** The fields of the heuristic response in terms of the accumulated
    anomalies and total. *)
Lemma detect_with_heuristics_fields (features : Features) :
  let acc := heuristic_anomalies features in
  let result := _detect_with_heuristics features in
  result !! "is_anomalous" = Some (VBool (geb (snd acc) 0.5))
  /\ result !! "score" = Some (VNum (round (Py.min (snd acc) 1.0) 3))
  /\ result !! "types" = Some (VList (map VDict (fst acc)))
  /\ result !! "model_version" = Some (VStr "heuristic-v1").
Proof.
  unfold _detect_with_heuristics.
  destruct (heuristic_anomalies features) as [anomalies total].
  repeat split; reflexivity.
Qed.

Lemma anomaly_type_names_types (r : response) (anomalies : list (dict value)) :
  r !! "types" = Some (VList (map VDict anomalies)) ->
  anomaly_type_names r = flat_map type_of_anomaly anomalies.
Proof.
  intros H. unfold anomaly_type_names. rewrite H. clear H.
  induction anomalies as [|a l IH]; simpl; [reflexivity|].
  now rewrite IH.
Qed.

(** A closed equivalence between a boolean test and a rational bound:
    either both sides hold or both fail, by evaluation. *)
Ltac closed_threshold :=
  first
    [ split; [intros _; vm_compute; discriminate | intros _; reflexivity]
    | split; [discriminate | intros H; vm_compute in H; now elim H] ].

(** The five rules, run in order on any firing pattern. *)
Lemma rule_chain (b1 b2 b3 b4 b5 : bool) (v1 v2 v3 v4 v5 : Q) :
  let acc :=
    rule b5 "extended_inactivity" "medium" v5 0.3
      (rule b4 "low_performance" "high" v4 0.4
         (rule b3 "high_ai_dependency" "low" v3 0.2
            (rule b2 "excessive_tab_switches" "medium" v2 0.3
               (rule b1 "high_paste_frequency" "medium" v1 0.3 ([], 0))))) in
  let total := weight_if b1 0.3 + weight_if b2 0.3 + weight_if b3 0.2
               + weight_if b4 0.4 + weight_if b5 0.3 in
  snd acc == total
  /\ (geb (snd acc) 0.5 = true <-> 0.5 <= total)
  /\ round (Py.min (snd acc) 1.0) 3 == Qmin total 1
  /\ flat_map type_of_anomaly (fst acc)
     = name_if b1 "high_paste_frequency"
       ++ name_if b2 "excessive_tab_switches"
       ++ name_if b3 "high_ai_dependency"
       ++ name_if b4 "low_performance"
       ++ name_if b5 "extended_inactivity".
Proof.
  destruct b1, b2, b3, b4, b5; cbv zeta;
    (split; [reflexivity|]);
    (split; [closed_threshold|]);
    (split; [reflexivity|reflexivity]).
Qed.

(** In binary64 the flag is the same as over the rationals, for every
    firing pattern: floating-point rounding of the sums never crosses the
    0.5 threshold. *)
Lemma binary64_flag_agrees (b1 b2 b3 b4 b5 : bool) :
  Binary64.is_anomalous b1 b2 b3 b4 b5
  = geb (weight_if b1 0.3 + weight_if b2 0.3 + weight_if b3 0.2
         + weight_if b4 0.4 + weight_if b5 0.3) 0.5.
Proof. destruct b1, b2, b3, b4, b5; vm_compute; reflexivity. Qed.
End AnomalyHeuristic.

Section AnomalySpec.
Import Py FeatureExtractor ModelInference.
Local Open Scope Q_scope.

(** C5. For every feature set the heuristic detector adds 0.3 when
    paste_frequency > 5, 0.3 when tab_switch_rate > 20, 0.2 when
    ai_dependency > 0.7, 0.4 when success_rate < 30 and 0.3 when
    days_since_last_session > 14; is_anomalous holds exactly when the total
    is >= 0.5; the reported score equals min(total, 1); the reported types
    are the rules that fired, in rule order.  With paste_frequency 6,
    tab_switch_rate 25, ai_dependency 0.1, success_rate 50 and days_since 1
    the score is 0.6, is_anomalous is true and the types are
    high_paste_frequency and excessive_tab_switches. *)
Theorem C5_heuristic_anomaly_score (features : Features) :
  let paste_frequency :=
    get (group (behavioral features)) "paste_frequency" 0 in
  let tab_switch_rate :=
    get (group (behavioral features)) "tab_switch_rate" 0 in
  let ai_dependency :=
    get (group (ai_interaction features)) "ai_dependency_score" 0 in
  let success_rate :=
    get (group (performance features)) "success_rate" 50 in
  let days_since :=
    get (group (temporal features)) "days_since_last_session" 0 in
  let total :=
    (if Qlt_le_dec 5 paste_frequency then 0.3 else 0)
    + (if Qlt_le_dec 20 tab_switch_rate then 0.3 else 0)
    + (if Qlt_le_dec 0.7 ai_dependency then 0.2 else 0)
    + (if Qlt_le_dec success_rate 30 then 0.4 else 0)
    + (if Qlt_le_dec 14 days_since then 0.3 else 0) in
  let result := _detect_with_heuristics features in
  (exists (flag : bool) (score : Q),
      result !! "is_anomalous" = Some (VBool flag)
      /\ (flag = true <-> 0.5 <= total)
      /\ result !! "score" = Some (VNum score)
      /\ score == Qmin total 1)
  /\ anomaly_type_names result
     = (if Qlt_le_dec 5 paste_frequency then ["high_paste_frequency"] else [])
       ++ (if Qlt_le_dec 20 tab_switch_rate
           then ["excessive_tab_switches"] else [])
       ++ (if Qlt_le_dec 0.7 ai_dependency then ["high_ai_dependency"] else [])
       ++ (if Qlt_le_dec success_rate 30 then ["low_performance"] else [])
       ++ (if Qlt_le_dec 14 days_since then ["extended_inactivity"] else [])
  /\ (paste_frequency == 6 -> tab_switch_rate == 25 ->
      ai_dependency == 0.1 -> success_rate == 50 -> days_since == 1 ->
      exists score : Q,
        result !! "score" = Some (VNum score)
        /\ score == 0.6
        /\ result !! "is_anomalous" = Some (VBool true)
        /\ anomaly_type_names result
           = ["high_paste_frequency"; "excessive_tab_switches"]).
Proof.
  intros paste_frequency tab_switch_rate ai_dependency success_rate
         days_since total result.
  destruct (detect_with_heuristics_fields features)
    as (Hflag & Hscore & Htypes & _).
  fold result in Hflag, Hscore, Htypes.
  apply anomaly_type_names_types in Htypes.
  pose proof (rule_chain (gtb paste_frequency 5) (gtb tab_switch_rate 20)
                         (gtb ai_dependency 0.7) (ltb success_rate 30)
                         (gtb days_since 14)
                         paste_frequency tab_switch_rate ai_dependency
                         success_rate days_since) as Hchain.
  cbv zeta in Hchain.
  change (rule _ _ _ _ _ _) with (heuristic_anomalies features) in Hchain.
  rewrite !gtb_dec, ltb_dec in Hchain.
  destruct Hchain as (_ & Hiff & Hround & Hnames).
  rewrite Hnames in Htypes. clear Hnames.
  unfold total.
  destruct (Qlt_le_dec 5 paste_frequency) as [H1|H1],
           (Qlt_le_dec 20 tab_switch_rate) as [H2|H2],
           (Qlt_le_dec 0.7 ai_dependency) as [H3|H3],
           (Qlt_le_dec success_rate 30) as [H4|H4],
           (Qlt_le_dec 14 days_since) as [H5|H5];
    cbn [weight_if name_if] in Hiff, Hround, Htypes;
    (split; [exists (geb (snd (heuristic_anomalies features)) 0.5),
                    (round (Py.min (snd (heuristic_anomalies features)) 1.0) 3);
             repeat split; solve [assumption | apply Hiff] |]);
    (split; [exact Htypes|]);
    intros E1 E2 E3 E4 E5;
    try (exfalso; lra);
    exists (round (Py.min (snd (heuristic_anomalies features)) 1.0) 3);
    (split; [exact Hscore|]);
    (split; [rewrite Hround; reflexivity|]);
    (split; [|exact Htypes]);
    rewrite Hflag; do 2 f_equal; apply Hiff; discriminate.
Qed.

Lemma C5_heuristic_anomaly_score_witness :
  exists score : Q,
    _detect_with_heuristics Samples.pasting_student !! "score"
    = Some (VNum score)
    /\ score == 0.6
    /\ _detect_with_heuristics Samples.pasting_student !! "is_anomalous"
       = Some (VBool true)
    /\ anomaly_type_names (_detect_with_heuristics Samples.pasting_student)
       = ["high_paste_frequency"; "excessive_tab_switches"].
Proof.
  apply (C5_heuristic_anomaly_score Samples.pasting_student); reflexivity.
Defined.
End AnomalySpec.

(* ===================================================================== *)
(** ** Capability methods degrade to their defaults (C3)                   *)
(* ===================================================================== *)

Section DefaultResponses.
Import Py FeatureExtractor ModelInference.
Variable extract : string -> result Features.
Variables (st : State) (student_id : string).

Lemma extraction_error_defaults (e : exn) :
  extract student_id = Raise e ->
  (forall activity_id,
      predict_success extract st student_id activity_id
      = _default_prediction)
  /\ detect_anomalies extract st student_id = _default_anomaly_result
  /\ (forall target_competency num_activities,
        get_optimal_path extract st student_id target_competency
                         num_activities = _default_learning_path)
  /\ (forall activity_id code_context error_context attempt_number time_spent,
        get_personalized_hint extract st student_id activity_id code_context
                              error_context attempt_number time_spent
        = _default_hint_suggestion).
Proof.
  intros H.
  unfold predict_success, detect_anomalies, get_optimal_path,
    get_personalized_hint.
  rewrite H. repeat split.
Qed.

Variable features : Features.
Hypothesis extracted : extract student_id = Ok features.
Hypothesis non_empty : is_falsy features = false.

Lemma behavior_call_error_default (model : StudentBehaviorModel) (e : exn) :
  use_heuristics st !! "behavior_prediction" = Some false ->
  models st !! "behavior_prediction" = Some (PBehavior model) ->
  sbm_call model (behavior_sequence features model) = Raise e ->
  forall activity_id,
    predict_success extract st student_id activity_id = _default_prediction.
Proof.
  intros Hh Hm Hcall activity_id.
  unfold predict_success. rewrite extracted. cbn [mbind result_bind bind].
  rewrite non_empty, Hh. cbn [default from_option negb id].
  unfold _predict_with_model. rewrite Hm. cbn [default from_option id].
  now rewrite Hcall.
Qed.

Lemma detector_call_error_default (detector : AnomalyDetector) (e : exn) :
  use_heuristics st !! "anomaly_detection" = Some false ->
  models st !! "anomaly_detection" = Some (PDetector detector) ->
  detect detector (detector_input features detector) = Raise e
  \/ (exists d, detect detector (detector_input features detector) = Ok d
               /\ det_is_anomalous d = Some true
               /\ classify_anomaly_type detector
                    (detector_input features detector) feature_names
                  = Raise e) ->
  detect_anomalies extract st student_id = _default_anomaly_result.
Proof.
  intros Hh Hm Hcall.
  unfold detect_anomalies. rewrite extracted. cbn [mbind result_bind bind].
  rewrite non_empty, Hh. cbn [default from_option negb id].
  unfold _detect_with_model. rewrite Hm. cbn [default from_option id].
  destruct Hcall as [Hcall|(d & Hd & Hflag & Hcall)].
  - now rewrite Hcall.
  - rewrite Hd. cbn [mbind result_bind bind]. rewrite Hflag.
    cbn [or_else]. now rewrite Hcall.
Qed.

Lemma agent_call_error_default (agent : LearningPathAgent) (e : exn) :
  use_heuristics st !! "learning_path" = Some false ->
  models st !! "learning_path" = Some (PAgent agent) ->
  forall target_competency num_activities,
    select_top_k_actions agent (agent_state features agent) num_activities
    = Raise e ->
    get_optimal_path extract st student_id target_competency num_activities
    = _default_learning_path.
Proof.
  intros Hh Hm target_competency num_activities Hcall.
  unfold get_optimal_path. rewrite extracted. cbn [mbind result_bind bind].
  rewrite non_empty, Hh. cbn [default from_option negb id].
  unfold _get_path_with_model. rewrite Hm. cbn [default from_option id].
  now rewrite Hcall.
Qed.
End DefaultResponses.

Section DefaultSpec.
Import Py FeatureExtractor ModelInference.

(** C3. For every student id: when feature extraction raises, each of
    [predict_success], [detect_anomalies], [get_optimal_path] and
    [get_personalized_hint] returns its default response; when extraction
    succeeds and the bound predictor's call raises, the capability returns
    its default response as well; the default prediction has probability
    0.5, confidence 0.0, no factors and risk level "unknown".  The methods
    have no exceptional outcome at all: their type is a response. *)
Theorem C3_capabilities_degrade_to_defaults
    (extract : string -> result Features) (st : State) (student_id : string) :
  (forall e : exn,
      extract student_id = Raise e ->
      (forall activity_id,
          predict_success extract st student_id activity_id
          = _default_prediction)
      /\ detect_anomalies extract st student_id = _default_anomaly_result
      /\ (forall target_competency num_activities,
            get_optimal_path extract st student_id target_competency
                             num_activities = _default_learning_path)
      /\ (forall activity_id code_context error_context attempt_number
                 time_spent,
            get_personalized_hint extract st student_id activity_id
                                  code_context error_context attempt_number
                                  time_spent
            = _default_hint_suggestion))
  /\ (forall features : Features,
        extract student_id = Ok features ->
        is_falsy features = false ->
        (forall (model : StudentBehaviorModel) (e : exn),
            use_heuristics st !! "behavior_prediction" = Some false ->
            models st !! "behavior_prediction" = Some (PBehavior model) ->
            sbm_call model (behavior_sequence features model) = Raise e ->
            forall activity_id,
              predict_success extract st student_id activity_id
              = _default_prediction)
        /\ (forall (detector : AnomalyDetector) (e : exn),
              use_heuristics st !! "anomaly_detection" = Some false ->
              models st !! "anomaly_detection" = Some (PDetector detector) ->
              detect detector (detector_input features detector) = Raise e ->
              detect_anomalies extract st student_id
              = _default_anomaly_result)
        /\ (forall (agent : LearningPathAgent) (e : exn),
              use_heuristics st !! "learning_path" = Some false ->
              models st !! "learning_path" = Some (PAgent agent) ->
              forall target_competency num_activities,
                select_top_k_actions agent (agent_state features agent)
                                     num_activities = Raise e ->
                get_optimal_path extract st student_id target_competency
                                 num_activities = _default_learning_path))
  /\ (_default_prediction !! "probability" = Some (VNum 0.5)
      /\ _default_prediction !! "confidence" = Some (VNum 0.0)
      /\ _default_prediction !! "factors" = Some (VList [])
      /\ _default_prediction !! "risk_level" = Some (VStr "unknown")).
Proof.
  split; [|split].
  - intros e He. now apply extraction_error_defaults with (e := e).
  - intros features Hok Hne. split; [|split].
    + intros model e. now apply behavior_call_error_default.
    + intros detector e Hh Hm Hcall.
      apply (detector_call_error_default extract st student_id features
               Hok Hne detector e Hh Hm).
      now left.
    + intros agent e. now apply agent_call_error_default.
  - repeat split.
Qed.

Lemma C3_capabilities_degrade_to_defaults_witness :
  predict_success Samples.extractor Samples.empty_state Samples.bad_student
                  None = _default_prediction
  /\ predict_success Samples.extractor Samples.trained_state
                     Samples.new_student None = _default_prediction
  /\ detect_anomalies Samples.extractor Samples.trained_state
                      Samples.new_student = _default_anomaly_result
  /\ get_optimal_path Samples.extractor Samples.trained_state
                      Samples.new_student None 5 = _default_learning_path.
Proof.
  split; [|split; [|split]].
  - apply (C3_capabilities_degrade_to_defaults
             Samples.extractor Samples.empty_state Samples.bad_student)
      with (e := InvalidId Samples.bad_student).
    reflexivity.
  - destruct (C3_capabilities_degrade_to_defaults
                Samples.extractor Samples.trained_state Samples.new_student)
      as (_ & Hcall & _).
    destruct (Samples.extractor Samples.new_student) as [features|] eqn:E;
      [|discriminate E].
    destruct (Hcall features eq_refl) as (Hbehavior & _).
    + now injection E as <-.
    + apply (Hbehavior Samples.broken_model (RuntimeError "shape mismatch"));
        reflexivity.
  - destruct (C3_capabilities_degrade_to_defaults
                Samples.extractor Samples.trained_state Samples.new_student)
      as (_ & Hcall & _).
    destruct (Samples.extractor Samples.new_student) as [features|] eqn:E;
      [|discriminate E].
    destruct (Hcall features eq_refl) as (_ & Hdetector & _).
    + now injection E as <-.
    + apply (Hdetector Samples.broken_detector
                       (RuntimeError "shape mismatch")); reflexivity.
  - destruct (C3_capabilities_degrade_to_defaults
                Samples.extractor Samples.trained_state Samples.new_student)
      as (_ & Hcall & _).
    destruct (Samples.extractor Samples.new_student) as [features|] eqn:E;
      [|discriminate E].
    destruct (Hcall features eq_refl) as (_ & _ & Hagent).
    + now injection E as <-.
    + apply (Hagent Samples.broken_agent (RuntimeError "shape mismatch"));
        reflexivity.
Defined.
End DefaultSpec.

(* ===================================================================== *)
(** ** Predictor bindings at load and reload (C8)                          *)
(* ===================================================================== *)

Section BindingFacts.
Import Py FeatureExtractor ModelInference.

Lemma binding_set_eq st name p ver h :
  binding (set_binding st name p ver h) name = (Some p, Some ver, Some h).
Proof.
  unfold binding, set_binding. cbn [models model_versions use_heuristics].
  now rewrite !lookup_insert_eq.
Qed.

Lemma binding_set_ne st name p ver h other :
  other <> name ->
  binding (set_binding st name p ver h) other = binding st other.
Proof.
  intros Hne. unfold binding, set_binding.
  cbn [models model_versions use_heuristics].
  now rewrite !lookup_insert_ne by congruence.
Qed.

Lemma cap_name_inj c c' : cap_name c = cap_name c' -> c = c'.
Proof. destruct c, c'; simpl; intros H; congruence. Qed.

Variable MINDSPORE_AVAILABLE : bool.
Variable model_config : dict (dict value).
Variable StudentBehaviorModel_class :
  ModelRegistry.ModelClass StudentBehaviorModel.
Variable BehaviorVAE_class : ModelRegistry.ModelClass BehaviorVAE.
Variable AnomalyDetector_init : BehaviorVAE -> Q -> result AnomalyDetector.
Variable LearningPathAgent_init : dict value -> result LearningPathAgent.

Let try_load' :=
  try_load MINDSPORE_AVAILABLE StudentBehaviorModel_class BehaviorVAE_class
           AnomalyDetector_init LearningPathAgent_init.
Let load' :=
  load MINDSPORE_AVAILABLE StudentBehaviorModel_class BehaviorVAE_class
       AnomalyDetector_init LearningPathAgent_init.
Let load_models' :=
  _load_models MINDSPORE_AVAILABLE model_config StudentBehaviorModel_class
               BehaviorVAE_class AnomalyDetector_init LearningPathAgent_init.

(** [load] is its [try] block followed by the heuristic fallback. *)
Lemma load_unfold c reg st :
  load' c reg st
  = match try_except (try_load' c reg st) (fun _ => None) with
    | Some st' => st'
    | None => bind_heuristic st (cap_name c)
    end.
Proof. now destruct c. Qed.

(** What the [try] block of a loader does depends on the registry and the
    model classes only; the state it starts from is merely rebound. *)
Lemma try_load_outcome c reg :
  exists outcome : result (option (predictor * string)),
    forall st,
      try_load' c reg st
      = match outcome with
        | Ok (Some (p, ver)) =>
            Ok (Some (set_binding st (cap_name c) p ver false))
        | Ok None => Ok None
        | Raise e => Raise e
        end.
Proof.
  unfold try_load', try_load.
  destruct c; cbv beta iota;
    [unfold try_load_behavior_model
    |unfold try_load_anomaly_model
    |unfold try_load_learning_path_model];
    cbv zeta; unfold mbind, result_bind, bind.
  - destruct MINDSPORE_AVAILABLE; [|now exists (Ok None)].
    destruct (ModelRegistry.get_production_version reg "behavior")
      as [ver|]; [|now exists (Ok None)].
    destruct (String.eqb ver ""); [now exists (Ok None)|].
    destruct (ModelRegistry.get_model _ _ _ _) as [[model|path]|e];
      [|now exists (Raise (AttributeError "set_train"))
       |now exists (Raise e)].
    destruct (sbm_set_train model false) as [[]|e];
      [|now exists (Raise e)].
    now exists (Ok (Some (PBehavior model, ver))).
  - destruct MINDSPORE_AVAILABLE; [|now exists (Ok None)].
    destruct (ModelRegistry.get_production_version reg "anomaly")
      as [ver|]; [|now exists (Ok None)].
    destruct (String.eqb ver ""); [now exists (Ok None)|].
    destruct (ModelRegistry.get_model _ _ _ _) as [[model|path]|e];
      [|now exists (Raise (AttributeError "set_train"))
       |now exists (Raise e)].
    destruct (AnomalyDetector_init model 0.7%Q) as [detector|e];
      [|now exists (Raise e)].
    now exists (Ok (Some (PDetector detector, ver))).
  - destruct MINDSPORE_AVAILABLE; [|now exists (Ok None)].
    destruct (ModelRegistry.get_production_version reg "learning_path")
      as [ver|]; [|now exists (Ok None)].
    destruct (String.eqb ver ""); [now exists (Ok None)|].
    destruct (ModelRegistry.get_version_info _ _ _) as [info|e];
      [|now exists (Raise e)].
    destruct (LearningPathAgent_init _) as [agent|e];
      [|now exists (Raise e)].
    destruct (ModelRegistry.get_model _ _ _ _) as [[model|path]|e];
      [now exists (Raise (TypeError "expected str, bytes or os.PathLike"))
      | |now exists (Raise e)].
    destruct (agent_load agent (dirname path)) as [[]|e];
      [|now exists (Raise e)].
    now exists (Ok (Some (PAgent agent, ver))).
Qed.

(** A loader touches the binding of its own capability only. *)
Lemma load_frame c reg st name :
  name <> cap_name c -> binding (load' c reg st) name = binding st name.
Proof.
  intros Hne. rewrite load_unfold.
  destruct (try_load_outcome c reg) as (outcome & Hout). rewrite Hout.
  destruct outcome as [[[p ver]|]|e]; cbn [try_except];
    now apply binding_set_ne.
Qed.

(** The binding a loader leaves does not depend on the state it starts
    from. *)
Lemma load_own_binding c reg st st' :
  binding (load' c reg st) (cap_name c)
  = binding (load' c reg st') (cap_name c).
Proof.
  rewrite !load_unfold.
  destruct (try_load_outcome c reg) as (outcome & Hout). rewrite !Hout.
  destruct outcome as [[[p ver]|]|e]; cbn [try_except];
    unfold bind_heuristic; now rewrite !binding_set_eq.
Qed.

(** Each way of failing ends in the heuristic binding. *)
Lemma load_failure_heuristic c reg st :
  load_fails MINDSPORE_AVAILABLE StudentBehaviorModel_class BehaviorVAE_class
             AnomalyDetector_init LearningPathAgent_init c reg st ->
  binding (load' c reg st) (cap_name c) = heuristic_binding.
Proof.
  intros Hfail. rewrite load_unfold.
  assert (Hnone : try_except (try_load' c reg st) (fun _ => None) = None).
  { destruct Hfail as [Hoff|[Hnone|(e & He)]].
    - unfold try_load', try_load.
      destruct c;
        [unfold try_load_behavior_model
        |unfold try_load_anomaly_model
        |unfold try_load_learning_path_model];
        now rewrite Hoff.
    - unfold try_load', try_load.
      destruct c; cbn [cap_model_type] in Hnone;
        [unfold try_load_behavior_model
        |unfold try_load_anomaly_model
        |unfold try_load_learning_path_model];
        cbv zeta; rewrite Hnone; now destruct MINDSPORE_AVAILABLE.
    - fold try_load' in He. now rewrite He. }
  rewrite Hnone. apply binding_set_eq.
Qed.

(** After [_load_models], an enabled capability has the binding its own
    loader gives it and a disabled one keeps the binding it had. *)
Lemma load_models_binding c reg st :
  binding (load_models' reg st) (cap_name c)
  = if enabled model_config (cap_name c)
    then binding (load' c reg st) (cap_name c)
    else binding st (cap_name c).
Proof.
  unfold load_models', _load_models.
  set (s1 := if enabled model_config "behavior_prediction"
             then load' BehaviorPrediction reg st else st).
  set (s2 := if enabled model_config "anomaly_detection"
             then load' AnomalyDetection reg s1 else s1).
  fold (load' BehaviorPrediction) (load' AnomalyDetection)
       (load' LearningPath).
  change (_load_behavior_model _ _ reg st)
    with (load' BehaviorPrediction reg st).
  fold s1.
  change (_load_anomaly_model _ _ _ reg s1)
    with (load' AnomalyDetection reg s1).
  fold s2.
  change (_load_learning_path_model _ _ reg s2)
    with (load' LearningPath reg s2).
  assert (H1 : forall name, name <> "behavior_prediction" ->
                 binding s1 name = binding st name).
  { intros name Hne. unfold s1.
    destruct (enabled model_config "behavior_prediction"); [|reflexivity].
    now apply (load_frame BehaviorPrediction). }
  assert (H2 : forall name, name <> "anomaly_detection" ->
                 binding s2 name = binding s1 name).
  { intros name Hne. unfold s2.
    destruct (enabled model_config "anomaly_detection"); [|reflexivity].
    now apply (load_frame AnomalyDetection). }
  destruct c; cbn [cap_name].
  - destruct (enabled model_config "learning_path");
      [rewrite (load_frame LearningPath) by discriminate|];
      (rewrite H2 by discriminate); unfold s1;
      destruct (enabled model_config "behavior_prediction"); reflexivity.
  - destruct (enabled model_config "learning_path");
      [rewrite (load_frame LearningPath) by discriminate|];
      unfold s2;
      (destruct (enabled model_config "anomaly_detection");
       [apply (load_own_binding AnomalyDetection)
       |now rewrite H1 by discriminate]).
  - destruct (enabled model_config "learning_path").
    + apply (load_own_binding LearningPath).
    + rewrite H2, H1 by discriminate. reflexivity.
Qed.
End BindingFacts.

Section BindingSpec.
Import Py FeatureExtractor ModelInference.

(** C8. For every capability whose load fails (runtime unavailable, no
    production version, or an exception in the load): its loader leaves it
    bound to the heuristic, model [None], version tag "heuristic-v1", and
    changes no other capability's binding; after [_load_models] and after
    [reload_models] an enabled capability that fails is so bound; and every
    other capability has the binding its own loader gives it (or, when
    disabled, the binding it had).  The loaders return a state on every
    path: a failure is never fatal. *)
Theorem C8_load_failure_is_local
    (MINDSPORE_AVAILABLE : bool) (model_config : dict (dict value))
    (StudentBehaviorModel_class :
       ModelRegistry.ModelClass StudentBehaviorModel)
    (BehaviorVAE_class : ModelRegistry.ModelClass BehaviorVAE)
    (AnomalyDetector_init : BehaviorVAE -> Q -> result AnomalyDetector)
    (LearningPathAgent_init : dict value -> result LearningPathAgent)
    (c : capability) (registry : ModelRegistry.Registry) (st : State) :
  let load :=
    load MINDSPORE_AVAILABLE StudentBehaviorModel_class BehaviorVAE_class
         AnomalyDetector_init LearningPathAgent_init in
  let _load_models :=
    _load_models MINDSPORE_AVAILABLE model_config StudentBehaviorModel_class
                 BehaviorVAE_class AnomalyDetector_init
                 LearningPathAgent_init in
  let reload_models :=
    reload_models MINDSPORE_AVAILABLE model_config StudentBehaviorModel_class
                  BehaviorVAE_class AnomalyDetector_init
                  LearningPathAgent_init in
  load_fails MINDSPORE_AVAILABLE StudentBehaviorModel_class BehaviorVAE_class
             AnomalyDetector_init LearningPathAgent_init c registry st ->
  binding (load c registry st) (cap_name c) = heuristic_binding
  /\ (forall name, name <> cap_name c ->
        binding (load c registry st) name = binding st name)
  /\ (enabled model_config (cap_name c) = true ->
      binding (_load_models registry st) (cap_name c) = heuristic_binding
      /\ binding (reload_models registry st) (cap_name c)
         = heuristic_binding)
  /\ (forall c', c' <> c ->
        binding (_load_models registry st) (cap_name c')
        = if enabled model_config (cap_name c')
          then binding (load c' registry st) (cap_name c')
          else binding st (cap_name c')).
Proof.
  intros load0 load_models0 reload_models0 Hfail.
  assert (Hown : binding (load0 c registry st) (cap_name c)
                 = heuristic_binding)
    by now apply load_failure_heuristic.
  split; [exact Hown|]. split; [|split].
  - intros name Hne. now apply load_frame.
  - intros Hen.
    assert (binding (load_models0 registry st) (cap_name c)
            = heuristic_binding) as Hall.
    { unfold load_models0. rewrite load_models_binding, Hen. exact Hown. }
    split; exact Hall.
  - intros c' _. apply load_models_binding.
Qed.

(** With no autoencoder in production ([registry2]) and with one whose
    class rejects its configuration ([registry5]), anomaly detection is
    heuristic-bound while success prediction is bound to the trained model
    in production. *)
Lemma C8_load_failure_is_local_witness :
  binding (Samples.load_models Samples.registry2 Samples.empty_state)
          "anomaly_detection" = heuristic_binding
  /\ binding (Samples.load_models Samples.registry2 Samples.empty_state)
             "behavior_prediction"
     = (Some (PBehavior Samples.working_model), Some "v1.0.0", Some false)
  /\ binding (Samples.load_models Samples.registry5 Samples.empty_state)
             "anomaly_detection" = heuristic_binding
  /\ binding (Samples.load_models Samples.registry5 Samples.empty_state)
             "behavior_prediction"
     = (Some (PBehavior Samples.working_model), Some "v1.0.1", Some false).
Proof.
  destruct (C8_load_failure_is_local
              true [] Samples.behavior_class Samples.vae_class
              Samples.detector_init Samples.agent_init
              AnomalyDetection Samples.registry2 Samples.empty_state)
    as (_ & _ & Hall & Hothers);
    [right; left; reflexivity|].
  destruct (C8_load_failure_is_local
              true [] Samples.behavior_class Samples.vae_class
              Samples.detector_init Samples.agent_init
              AnomalyDetection Samples.registry5 Samples.empty_state)
    as (_ & _ & Hall' & Hothers');
    [right; right; exists (TypeError "unexpected keyword argument");
     reflexivity|].
  split; [|split; [|split]].
  - apply Hall. reflexivity.
  - etransitivity;
      [apply (Hothers BehaviorPrediction); discriminate|reflexivity].
  - apply Hall'. reflexivity.
  - etransitivity;
      [apply (Hothers' BehaviorPrediction); discriminate|reflexivity].
Defined.
End BindingSpec.

(* ===================================================================== *)
(** ** Extraction without data (C7)                                        *)
(* ===================================================================== *)

Section SparseExtraction.
Import Py FeatureExtractor.

(** Extraction raises exactly when the student id is not an [ObjectId]. *)
Lemma extraction_raises_iff db now student_id lookback_days e :
  extract_student_features db now student_id lookback_days = Raise e
  <-> ObjectId student_id = Raise e.
Proof.
  unfold extract_student_features.
  destruct (ObjectId student_id) as [oid|e']; simpl; split;
    congruence.
Qed.

(** With no twin and no record in the window, every group is its literal
    fallback. *)
Lemma extraction_without_data db now student_id lookback_days oid :
  let cutoff_date := now - days lookback_days in
  ObjectId student_id = Ok oid ->
  find_one oid (student_twins db) = None ->
  student_monitoring db oid cutoff_date = [] ->
  student_submissions db oid cutoff_date = [] ->
  student_hints db oid cutoff_date = [] ->
  extract_student_features db now student_id lookback_days
  = Ok (mkFeatures (Some student_id) (Some now) (Some lookback_days)
          (Some fallback_behavioral) (Some fallback_performance)
          (Some fallback_ai_interaction) (Some fallback_temporal)
          (Some (_create_feature_vector
                   fallback_behavioral fallback_performance
                   fallback_ai_interaction fallback_temporal))).
Proof.
  intros cutoff_date Hid Htwin Hmon Hsub Hhint.
  unfold extract_student_features. rewrite Hid.
  cbn [mbind result_bind bind]. fold cutoff_date. rewrite Htwin.
  unfold _extract_behavioral_features, _extract_performance_features,
    _extract_ai_features, _extract_temporal_features.
  rewrite Hmon, Hsub, Hhint. reflexivity.
Qed.

(** For every such student the fallbacks depart from the table at the same
    two features. *)
Lemma fallback_mismatches_without_data db now student_id lookback_days oid :
  let cutoff_date := now - days lookback_days in
  ObjectId student_id = Ok oid ->
  find_one oid (student_twins db) = None ->
  student_monitoring db oid cutoff_date = [] ->
  student_submissions db oid cutoff_date = [] ->
  student_hints db oid cutoff_date = [] ->
  exists features,
    extract_student_features db now student_id lookback_days = Ok features
    /\ fallback_mismatches features
       = [ ("attempt_count", 1%Q, 2%Q);
           ("days_since_last_session", 7%Q, 1%Q) ].
Proof.
  intros cutoff_date Hid Htwin Hmon Hsub Hhint.
  eexists. split.
  - now apply extraction_without_data with (oid := oid).
  - reflexivity.
Qed.

(** C7 (the code departs from it). For a student with no twin and no
    records extraction succeeds with the literal fallbacks, but two of
    them are not the defaults the definition table declares:
    [attempt_count] falls back to 1 where the table says 2, and
    [days_since_last_session] to 7 where the table says 1. *)
Theorem C7_fallbacks_against_table :
  exists features : Features,
    Samples.extractor Samples.new_student = Ok features
    /\ table_default "performance" "attempt_count" = Some 2%Q
    /\ table_default "temporal" "days_since_last_session" = Some 1%Q
    /\ fallback_mismatches features
       = [ ("attempt_count", 1%Q, 2%Q);
           ("days_since_last_session", 7%Q, 1%Q) ].
Proof. eexists. repeat split. Qed.
End SparseExtraction.

(* ===================================================================== *)
(** ** Hint level (C9)                                                      *)
(* ===================================================================== *)

Section HintLevel.
Import Py FeatureExtractor ModelInference.
Local Open Scope Q_scope.

Lemma int_bounds (x : Q) (lo hi : Z) :
  (0 <= lo)%Z -> inject_Z lo <= x -> x <= inject_Z hi ->
  (lo <= Py.int x <= hi)%Z.
Proof.
  intros Hlo H1 H2. unfold Py.int. destruct x as [n d].
  unfold Qle in H1, H2. cbn [Qnum Qden inject_Z] in *.
  rewrite Z.mul_1_r in H1, H2.
  assert (0 <= n)%Z by nia.
  rewrite Z.quot_div_nonneg by lia. split.
  - apply Z.div_le_lower_bound; lia.
  - apply Z.div_le_upper_bound; lia.
Qed.

(** Inside the declared range of [avg_hint_level] the suggestion stays in
    [1,5]. *)
Lemma suggest_level_in_range ai_dependency success_rate avg_hint_level
      attempt_number time_spent :
  1 <= avg_hint_level <= 5 ->
  (1 <= fst (fst (suggest_level ai_dependency success_rate avg_hint_level
                                attempt_number time_spent)) <= 5)%Z.
Proof.
  intros [H1 H5].
  assert (Hint : (1 <= Py.int avg_hint_level <= 5)%Z)
    by (apply int_bounds; [lia|exact H1|exact H5]).
  unfold suggest_level.
  destruct (gtb ai_dependency 0.6);
    [|destruct (ltb ai_dependency 0.3 && gtb success_rate 70)%bool];
    destruct (600 <? time_spent)%Z; destruct (3 <=? attempt_number)%Z;
    cbn [fst snd]; lia.
Qed.

(** C9 (the code departs from it). Two students whose twin documents
    carry an average hint level outside 1..5, on a first attempt with no
    time spent: with average 0 the standard branch suggests level 0, and
    with average 9 it suggests level 9. *)
Theorem C9_hint_level_outside_range :
  get_personalized_hint (Samples.twin_extractor 0) Samples.empty_state
                        Samples.new_student "activity" "" None 1 0
    !! "suggested_level" = Some (VNum 0)
  /\ get_personalized_hint (Samples.twin_extractor 9) Samples.empty_state
                           Samples.new_student "activity" "" None 1 0
       !! "suggested_level" = Some (VNum 9).
Proof. split; reflexivity. Qed.
End HintLevel.

(* ===================================================================== *)
(** ** Provenance tag of responses (C10)                                   *)
(* ===================================================================== *)

Section Provenance.
Import Py FeatureExtractor ModelInference.

(** Success prediction tags every response. *)
Lemma predict_success_tagged extract st student_id activity_id :
  is_Some (predict_success extract st student_id activity_id
             !! "model_version").
Proof.
  unfold predict_success.
  destruct (extract student_id) as [features|e]; [|now eexists].
  cbn [mbind result_bind bind].
  destruct (is_falsy features); [now eexists|].
  destruct (negb _); [|now eexists].
  unfold _predict_with_model.
  destruct (default PNone _) as [|model| |]; try now eexists.
  cbn [mbind result_bind bind].
  destruct (sbm_call model _) as [[p a]|e]; now eexists.
Qed.

(** The heuristic paths of the other two capabilities tag theirs. *)
Lemma heuristic_paths_tagged features target_competency num_activities r :
  _detect_with_heuristics features !! "model_version"
  = Some (VStr "heuristic-v1")
  /\ (_get_path_with_heuristics features target_competency num_activities
      = Ok r -> r !! "model_version" = Some (VStr "heuristic-v1")).
Proof.
  split.
  - apply detect_with_heuristics_fields.
  - unfold _get_path_with_heuristics.
    destruct (if geb _ 80 then _ else _) as [d reasoning].
    destruct (index_list _ d) as [name|e]; [|discriminate].
    cbn [mbind result_bind bind]. intros H. injection H as <-. reflexivity.
Qed.

(** C10 (the code departs from it). When extraction raises, anomaly
    detection and path recommendation return their default responses, and
    neither has a [model_version] key, while the default prediction is
    tagged "default". *)
Theorem C10_default_responses_untagged :
  detect_anomalies Samples.extractor Samples.empty_state Samples.bad_student
    !! "model_version" = None
  /\ get_optimal_path Samples.extractor Samples.empty_state
                      Samples.bad_student None 5 !! "model_version" = None
  /\ _default_anomaly_result !! "model_version" = None
  /\ _default_learning_path !! "model_version" = None
  /\ _default_prediction !! "model_version" = Some (VStr "default").
Proof. repeat split. Qed.
End Provenance.

(* ===================================================================== *)
(** ** Registering over an existing version (C6)                           *)
(* ===================================================================== *)

Section Overwrite.
Import Py ModelRegistry.



End Overwrite.

(* ===================================================================== *)
(** ** Feature pipeline: normalization, groups, training data *)
(* ===================================================================== *)

Section NormalizeShape.
Import Py FeatureExtractor.
Local Open Scope Q_scope.

Lemma normalize_clamp (value min_val max_val : Q) :
  min_val < max_val ->
  _normalize value min_val max_val
  == Qmax 0 (Qmin 1 ((value - min_val) / (max_val - min_val))).
Proof.
  intros Hlt. unfold _normalize.
  assert (E : Py.eqb max_val min_val = false) by (apply eqb_false; lra).
  rewrite E, py_max_Qmax, py_min_Qmin. apply clamp_literals.
Qed.

Lemma div_le_compat (a b d : Q) : 0 < d -> a <= b -> a / d <= b / d.
Proof.
  intros Hd Hab. unfold Qdiv. apply Qmult_le_compat_r; [exact Hab|].
  apply Qlt_le_weak, Qinv_lt_0_compat, Hd.
Qed.

(** X1. Normalization preserves order. *)
Theorem normalize_monotone (v1 v2 min_val max_val : Q) :
  min_val < max_val -> v1 <= v2 ->
  _normalize v1 min_val max_val <= _normalize v2 min_val max_val.
Proof.
  intros Hlt Hle. rewrite !normalize_clamp by exact Hlt.
  apply Q.max_le_compat_l, Q.min_le_compat_l, div_le_compat; lra.
Qed.

Lemma normalize_monotone_witness :
  _normalize 40 0 100 <= _normalize 55 0 100.
Proof. apply normalize_monotone; lra. Defined.


End NormalizeShape.

Section ExtractionShape.
Import Py FeatureExtractor.
Local Open Scope Q_scope.

(** The part of the vector one category contributes. *)
Let group_vector (category : string) (features : list (string * Q)) : list Q :=
  map (fun '(name, value) =>
         let defs := get FEATURE_DEFINITIONS category [] in
         match dlookup defs name with
         | Some definition =>
             _normalize value (fd_min definition) (fd_max definition)
         | None => if Py.eqb value 0 then 0.0 else value
         end) features.

Lemma feature_vector_groups (b p a t : list (string * Q)) :
  _create_feature_vector b p a t
  = group_vector "behavioral" b ++ group_vector "performance" p
    ++ group_vector "ai_interaction" a ++ group_vector "temporal" t.
Proof.
  unfold _create_feature_vector. cbn [flat_map]. now rewrite app_nil_r.
Qed.

(** A group whose names are all declared normalizes entry by entry. *)
Lemma normalized_group (category : string) (features : list (string * Q)) :
  Forall (fun name => is_Some (table_default category name)) (keys features) ->
  length (group_vector category features) = length features
  /\ Forall (fun x => 0 <= x <= 1) (group_vector category features).
Proof.
  intros Hdecl. split; [apply length_map|].
  unfold group_vector.
  induction features as [|[name value] l IH]; [constructor|].
  cbn [keys map fst] in Hdecl.
  apply Forall_cons in Hdecl as [Hname Hl].
  cbn [map]. constructor; [|now apply IH].
  unfold table_default in Hname. cbv zeta.
  destruct (dlookup (get FEATURE_DEFINITIONS category []) name);
    [apply normalize_range|].
  destruct Hname as [x Hx]. discriminate Hx.
Qed.

Lemma feature_vector_shape (b p a t : list (string * Q)) :
  Forall (fun name => is_Some (table_default "behavioral" name)) (keys b) ->
  Forall (fun name => is_Some (table_default "performance" name)) (keys p) ->
  Forall (fun name => is_Some (table_default "ai_interaction" name)) (keys a) ->
  Forall (fun name => is_Some (table_default "temporal" name)) (keys t) ->
  length (_create_feature_vector b p a t)
  = (length b + length p + length a + length t)%nat
  /\ Forall (fun x => 0 <= x <= 1) (_create_feature_vector b p a t).
Proof.
  intros Hb Hp Ha Ht.
  destruct (normalized_group _ _ Hb) as [Lb Fb].
  destruct (normalized_group _ _ Hp) as [Lp Fp].
  destruct (normalized_group _ _ Ha) as [La Fa].
  destruct (normalized_group _ _ Ht) as [Lt Ft].
  rewrite feature_vector_groups.
  split.
  - rewrite !length_app, Lb, Lp, La, Lt. lia.
  - repeat (apply Forall_app; split); assumption.
Qed.

(** The feature names the table declares for a category, in order. *)
Lemma declared_names :
  keys (get FEATURE_DEFINITIONS "behavioral" [])
  = ["avg_typing_speed"; "avg_thinking_pause"; "paste_frequency";
     "active_time_percentage"; "tab_switch_rate"; "idle_time_percentage";
     "error_frequency"]
  /\ keys (get FEATURE_DEFINITIONS "performance" [])
     = ["success_rate"; "avg_score"; "difficulty_level"; "time_per_problem";
        "attempt_count"; "completion_rate"]
  /\ keys (get FEATURE_DEFINITIONS "ai_interaction" [])
     = ["hint_request_rate"; "avg_hint_level"; "ai_dependency_score";
        "hints_before_success"; "comprehension_pass_rate"]
  /\ keys (get FEATURE_DEFINITIONS "temporal" [])
     = ["session_duration"; "days_since_last_session"; "learning_velocity";
        "weekly_sessions"].
Proof. repeat split. Qed.

Lemma extraction_groups
    (db : Database) (now : datetime) (student_id : string)
    (lookback_days : Z) (f : Features) :
  extract_student_features db now student_id lookback_days = Ok f ->
  exists b p a t,
    behavioral f = Some b /\ performance f = Some p
    /\ ai_interaction f = Some a /\ temporal f = Some t
    /\ keys b = keys (get FEATURE_DEFINITIONS "behavioral" [])
    /\ keys p = keys (get FEATURE_DEFINITIONS "performance" [])
    /\ keys a = keys (get FEATURE_DEFINITIONS "ai_interaction" [])
    /\ keys t = keys (get FEATURE_DEFINITIONS "temporal" [])
    /\ feature_vector f = Some (_create_feature_vector b p a t).
Proof.
  unfold extract_student_features.
  destruct (ObjectId student_id) as [oid|e]; [|discriminate].
  cbn [mbind result_bind bind]. intros H. injection H as <-.
  do 4 eexists. cbn [behavioral performance ai_interaction temporal
                     feature_vector].
  split; [reflexivity|]. split; [reflexivity|].
  split; [reflexivity|]. split; [reflexivity|].
  split; [|split; [|split; [|split]]]; [| | | |reflexivity].
  - unfold _extract_behavioral_features.
    now destruct (is_empty _).
  - unfold _extract_performance_features.
    now destruct (is_empty (student_submissions _ _ _)).
  - unfold _extract_ai_features.
    now destruct (is_empty _).
  - unfold _extract_temporal_features.
    now destruct (map sub_createdAt _).
Qed.


Lemma extraction_vector
    (db : Database) (now : datetime) (student_id : string)
    (lookback_days : Z) (f : Features) :
  extract_student_features db now student_id lookback_days = Ok f ->
  exists v, feature_vector f = Some v
            /\ length v = 22%nat
            /\ Forall (fun x => 0 <= x <= 1) v.
Proof.
  intros H.
  apply extraction_groups in H
    as (b & p & a & t & _ & _ & _ & _ & Kb & Kp & Ka & Kt & Hv).
  exists (_create_feature_vector b p a t). split; [exact Hv|].
  assert (Hshape := feature_vector_shape b p a t).
  rewrite Kb, Kp, Ka, Kt in Hshape.
  destruct Hshape as [Hlen Hall];
    try (repeat constructor; eexists; reflexivity).
  split; [|exact Hall].
  rewrite Hlen.
  apply (f_equal (@length string)) in Kb, Kp, Ka, Kt.
  unfold keys in Kb, Kp, Ka, Kt. rewrite !length_map in Kb, Kp, Ka, Kt.
  rewrite Kb, Kp, Ka, Kt. reflexivity.
Qed.
(** X3. Whatever the database holds, a successful extraction returns the
    four groups with exactly the feature names the definition table
    declares, in the table's order, and the vector built from them. *)
Theorem extraction_groups_follow_table
    (db : Database) (now : datetime) (student_id : string)
    (lookback_days : Z) (f : Features) :
  extract_student_features db now student_id lookback_days = Ok f ->
  exists b p a t,
    behavioral f = Some b /\ performance f = Some p
    /\ ai_interaction f = Some a /\ temporal f = Some t
    /\ keys b = keys (get FEATURE_DEFINITIONS "behavioral" [])
    /\ keys p = keys (get FEATURE_DEFINITIONS "performance" [])
    /\ keys a = keys (get FEATURE_DEFINITIONS "ai_interaction" [])
    /\ keys t = keys (get FEATURE_DEFINITIONS "temporal" [])
    /\ feature_vector f = Some (_create_feature_vector b p a t).
Proof. apply extraction_groups. Qed.

(** X4. The feature vector of every successful extraction has 22 entries,
    each in [0,1]. *)
Theorem extraction_vector_shape
    (db : Database) (now : datetime) (student_id : string)
    (lookback_days : Z) (f : Features) :
  extract_student_features db now student_id lookback_days = Ok f ->
  exists v, feature_vector f = Some v
            /\ length v = 22%nat
            /\ Forall (fun x => 0 <= x <= 1) v.
Proof. apply extraction_vector. Qed.
End ExtractionShape.

Section SumFacts.
Import Py FeatureExtractor.
Local Open Scope Q_scope.

Lemma fold_plus_acc (l : list Q) (a : Q) :
  fold_left Qplus l a == a + sum l.
Proof.
  unfold sum. revert a. induction l as [|x l IH]; intros a; simpl.
  - lra.
  - rewrite IH. rewrite (IH (0 + x)). lra.
Qed.

Lemma sum_cons (x : Q) (l : list Q) : sum (x :: l) == x + sum l.
Proof. unfold sum at 1. simpl. rewrite fold_plus_acc. lra. Qed.

Lemma sum_nil : sum [] == 0.
Proof. reflexivity. Qed.

Lemma sum_app (l1 l2 : list Q) : sum (l1 ++ l2) == sum l1 + sum l2.
Proof.
  induction l1 as [|x l IH]; simpl.
  - rewrite sum_nil. lra.
  - rewrite !sum_cons, IH. lra.
Qed.

Lemma qlen_cons {A} (x : A) (l : list A) : qlen (x :: l) == 1 + qlen l.
Proof.
  unfold qlen. cbn [length]. rewrite Nat2Z.inj_succ.
  unfold Z.succ. rewrite inject_Z_plus.
  change (inject_Z 1) with 1. ring.
Qed.

Lemma qlen_nonneg {A} (l : list A) : 0 <= qlen l.
Proof.
  unfold qlen. change 0 with (inject_Z 0). rewrite <- Zle_Qle. lia.
Qed.

Lemma qlen_pos {A} (l : list A) : l <> [] -> 0 < qlen l.
Proof.
  intros H. destruct l as [|x l]; [congruence|].
  rewrite qlen_cons. pose proof (qlen_nonneg l). lra.
Qed.

(** A sum of values between two bounds lies between the bounds times the
    number of values. *)
Lemma sum_bounds {A} (f : A -> Q) (lo hi : Q) (l : list A) :
  Forall (fun x => lo <= f x <= hi) l ->
  lo * qlen l <= sum (map f l) <= hi * qlen l.
Proof.
  induction 1 as [|x l Hx Hl IH]; cbn [map].
  - assert (E : qlen (@nil A) == 0) by reflexivity.
    rewrite sum_nil, E. lra.
  - rewrite sum_cons, qlen_cons. lra.
Qed.

Lemma count_length {A} (p : A -> bool) (l : list A) :
  count p l == qlen (List.filter p l).
Proof.
  unfold count. induction (List.filter p l) as [|x t IH]; cbn [map].
  - reflexivity.
  - rewrite sum_cons, qlen_cons, IH. lra.
Qed.

Lemma count_bounds {A} (p : A -> bool) (l : list A) :
  0 <= count p l <= qlen l.
Proof.
  rewrite count_length. split; [apply qlen_nonneg|].
  unfold qlen. rewrite <- Zle_Qle. apply Nat2Z.inj_le, filter_length_le.
Qed.

Lemma is_empty_false {A} (l : list A) : is_empty l = false <-> l <> [].
Proof. destruct l; simpl; split; congruence. Qed.

Lemma or_num_pos (x : Q) : 0 <= x -> 0 < or_num x 1.
Proof.
  intros H. unfold or_num. destruct (Py.eqb x 0) eqn:E; [lra|].
  apply eqb_false in E. lra.
Qed.

Lemma or_num_ge (x : Q) : 0 <= x -> x <= or_num x 1.
Proof.
  intros H. unfold or_num. destruct (Py.eqb x 0) eqn:E; [|lra].
  apply eqb_true in E. lra.
Qed.
End SumFacts.

Section AttemptCounting.
Import Py FeatureExtractor.
Local Open Scope Q_scope.

Lemma get_cons_eq {V} (k : string) (v dflt : V) (d : list (string * V)) :
  get ((k, v) :: d) k dflt = v.
Proof. unfold get. simpl. now rewrite String.eqb_refl. Qed.

Lemma get_cons_ne {V} (k k' : string) (v dflt : V) (d : list (string * V)) :
  String.eqb k k' = false -> get ((k', v) :: d) k dflt = get d k dflt.
Proof. intros E. unfold get. simpl. now rewrite E. Qed.

Lemma sum_values_set (d : list (string * Q)) (k : string) (v : Q) :
  sum (values (set d k v)) == sum (values d) - get d k 0 + v.
Proof.
  induction d as [|[k' v'] d IH]; cbn [set].
  - unfold values, get. simpl. rewrite sum_cons, !sum_nil. lra.
  - destruct (String.eqb k k') eqn:E.
    + apply String.eqb_eq in E. subst k'. rewrite get_cons_eq.
      unfold values. cbn [map snd]. rewrite !sum_cons. lra.
    + rewrite get_cons_ne by exact E.
      unfold values in *. cbn [map snd]. rewrite !sum_cons, IH. lra.
Qed.

Lemma length_set {V} (d : list (string * V)) (k : string) (v : V) :
  length (set d k v) = if contains d k then length d else S (length d).
Proof.
  unfold contains. induction d as [|[k' v'] d IH]; cbn [set dlookup].
  - reflexivity.
  - destruct (String.eqb k k'); [reflexivity|].
    cbn [length]. rewrite IH. now destruct (dlookup d k).
Qed.

Lemma get_set_eq {V} (d : list (string * V)) (k : string) (v dflt : V) :
  get (set d k v) k dflt = v.
Proof. unfold get. now rewrite dlookup_set_eq. Qed.

Lemma contains_set {V} (d : list (string * V)) (k : string) (v : V) :
  contains (set d k v) k = true.
Proof. unfold contains. now rewrite dlookup_set_eq. Qed.

Lemma contains_false_get (d : list (string * Q)) (k : string) :
  contains d k = false -> get d k 0 = 0.
Proof. unfold contains, get. now destruct (dlookup d k). Qed.

(** The counting loop gives every submission to exactly one activity. *)
Lemma count_attempts_total (subs : list SubmissionDoc) :
  sum (values (count_attempts subs)) == qlen subs
  /\ (length (count_attempts subs) <= length subs)%nat
  /\ (subs <> [] -> count_attempts subs <> []).
Proof.
  unfold count_attempts.
  set (step := fun (activity_attempts : list (string * Q)) s => _).
  assert (Hstep : forall acc s,
             sum (values (step acc s)) == sum (values acc) + 1
             /\ (length acc <= length (step acc s) <= S (length acc))%nat).
  { intros acc s. unfold step.
    set (id := or_else (sub_activityId s) "None").
    destruct (contains acc id) eqn:E.
    - split.
      + rewrite sum_values_set. lra.
      + rewrite length_set, E. lia.
    - split.
      + rewrite sum_values_set, get_set_eq, sum_values_set.
        rewrite contains_false_get by exact E. lra.
      + rewrite !length_set, contains_set, E. lia. }
  assert (Hfold : forall l acc,
             sum (values (fold_left step l acc)) == sum (values acc) + qlen l
             /\ (length acc <= length (fold_left step l acc)
                 <= length acc + length l)%nat).
  { induction l as [|s l IH]; intros acc; cbn [fold_left].
    - split; [|cbn [length]; lia].
      assert (E : qlen (@nil SubmissionDoc) == 0) by reflexivity.
      rewrite E. lra.
    - destruct (IH (step acc s)) as [Hs Hl].
      destruct (Hstep acc s) as [Hs1 Hl1].
      split.
      + rewrite Hs, Hs1, qlen_cons. lra.
      + cbn [length]. lia. }
  destruct (Hfold subs []) as [Hs Hl].
  split; [|split].
  - rewrite Hs. unfold values. cbn [map]. rewrite sum_nil. lra.
  - cbn [length] in Hl. lia.
  - intros Hne. destruct subs as [|s l]; [congruence|].
    cbn [fold_left].
    destruct (Hfold l (step [] s)) as [_ Hl'].
    destruct (Hstep [] s) as [Hs1 _].
    intros Hnil. rewrite Hnil in Hl'. cbn [length] in Hl'.
    assert (Hlen : length (step [] s) = 0%nat) by lia.
    destruct (step [] s); [|discriminate].
    unfold values in Hs1. cbn [map] in Hs1. rewrite sum_nil in Hs1. lra.
Qed.
End AttemptCounting.

Section PerformanceBounds.
Import Py FeatureExtractor.
Local Open Scope Q_scope.

(** X5. Whatever the database holds, the performance group of an
    extraction has a success rate between 0 and 100, a completion rate
    equal to it, a difficulty level that is 0, 1 or 2, and an attempt
    count of at least 1. *)
Theorem performance_features_bounds
    (db : Database) (now : datetime) (student_id : string)
    (lookback_days : Z) (f : Features) :
  extract_student_features db now student_id lookback_days = Ok f ->
  exists p,
    performance f = Some p
    /\ 0 <= get p "success_rate" 50 <= 100
    /\ get p "completion_rate" 50 = get p "success_rate" 50
    /\ (get p "difficulty_level" 1 = 0 \/ get p "difficulty_level" 1 = 1
        \/ get p "difficulty_level" 1 = 2)
    /\ 1 <= get p "attempt_count" 2.
Proof.
  unfold extract_student_features.
  destruct (ObjectId student_id) as [oid|e]; [|discriminate].
  cbn [mbind result_bind bind]. intros H. injection H as <-.
  eexists. cbn [performance]. split; [reflexivity|].
  unfold _extract_performance_features.
  set (subs := student_submissions db oid _).
  destruct (is_empty subs) eqn:E.
  - cbn. repeat split; try lra. right. now left.
  - apply is_empty_false in E.
    pose proof (qlen_pos subs E) as Hn.
    set (passed := count _ subs).
    pose proof (count_bounds (fun s => match sub_status s with
                                       | Some st => String.eqb st "passed"
                                       | None => false
                                       end) subs) as Hp.
    fold passed in Hp.
    change (get _ "success_rate" 50) with (passed / qlen subs * 100).
    change (get _ "completion_rate" 50) with (passed / qlen subs * 100).
    split; [|split; [reflexivity|split]].
    + assert (0 <= passed / qlen subs) by (apply Qle_shift_div_l; lra).
      assert (passed / qlen subs <= 1) by (apply Qle_shift_div_r; lra).
      split; nra.
    + cbn. destruct (gtb _ 0); [now right; right|].
      destruct (gtb _ 0); [now right; left|now left].
    + destruct (count_attempts_total subs) as (Hsum & Hlen & Hnn).
      specialize (Hnn E).
      change (get _ "attempt_count" 2)
        with (if is_empty (count_attempts subs) then 1
              else sum (values (count_attempts subs))
                   / qlen (count_attempts subs)).
      destruct (is_empty (count_attempts subs)) eqn:E'; [lra|].
      pose proof (qlen_pos _ Hnn) as Hpos.
      apply Qle_shift_div_l; [exact Hpos|].
      assert (qlen (count_attempts subs) <= qlen subs)
        by (unfold qlen; rewrite <- Zle_Qle; lia).
      rewrite Hsum. lra.
Qed.
End PerformanceBounds.

Section GroupBounds.
Import Py FeatureExtractor.
Local Open Scope Q_scope.

(** An average of values between two bounds lies between the bounds. *)
Lemma average_bounds {A} (g : A -> Q) (lo hi : Q) (l : list A) :
  l <> [] -> Forall (fun x => lo <= g x <= hi) l ->
  lo <= sum (map g l) / qlen l <= hi.
Proof.
  intros Hne Hall. pose proof (qlen_pos l Hne) as Hn.
  destruct (sum_bounds g lo hi l Hall) as [H1 H2]. split.
  - apply Qle_shift_div_l; [exact Hn|exact H1].
  - apply Qle_shift_div_r; [exact Hn|exact H2].
Qed.

Lemma extract_ok db now student_id lookback_days oid :
  ObjectId student_id = Ok oid ->
  let cutoff_date := (now - days lookback_days)%Z in
  let twin := or_else (find_one oid (student_twins db)) empty_twin in
  extract_student_features db now student_id lookback_days
  = Ok (mkFeatures
          (Some student_id) (Some now) (Some lookback_days)
          (Some (_extract_behavioral_features db oid cutoff_date twin))
          (Some (_extract_performance_features db oid cutoff_date twin))
          (Some (_extract_ai_features db oid cutoff_date twin))
          (Some (_extract_temporal_features db now oid cutoff_date twin))
          (Some (_create_feature_vector
                   (_extract_behavioral_features db oid cutoff_date twin)
                   (_extract_performance_features db oid cutoff_date twin)
                   (_extract_ai_features db oid cutoff_date twin)
                   (_extract_temporal_features db now oid cutoff_date
                                               twin)))).
Proof.
  intros H. unfold extract_student_features. now rewrite H.
Qed.

(** X6. With at least one hint request in the window, the average hint
    level lies between any two bounds that hold for every request's level
    (a request without a level counting as level 1); in every case the
    comprehension pass rate is between 0 and 100 and the number of hints
    per successful hint is at least 1. *)
Theorem ai_features_bounds
    (db : Database) (now : datetime) (student_id oid : string)
    (lookback_days : Z) :
  ObjectId student_id = Ok oid ->
  let hints := student_hints db oid (now - days lookback_days)%Z in
  exists f a,
    extract_student_features db now student_id lookback_days = Ok f
    /\ ai_interaction f = Some a
    /\ 0 <= get a "comprehension_pass_rate" 80 <= 100
    /\ 1 <= get a "hints_before_success" 1
    /\ (hints <> [] ->
        forall lo hi,
          Forall (fun h => lo <= or_else (hintLevel h) 1 <= hi) hints ->
          lo <= get a "avg_hint_level" 2 <= hi).
Proof.
  intros Hid hints. rewrite (extract_ok _ _ _ _ _ Hid).
  do 2 eexists. split; [reflexivity|]. cbn [ai_interaction].
  split; [reflexivity|].
  unfold _extract_ai_features. fold hints.
  destruct (is_empty hints) eqn:E.
  - cbn. split; [lra|]. split; [lra|].
    intros Hne. destruct hints; [congruence|discriminate].
  - apply is_empty_false in E. pose proof (qlen_pos hints E) as Hn.
    set (passed := count (fun h => or_else
                    (or_else (comprehensionCheck h) None) true) hints).
    set (successful := count (fun h => or_else (ledToSuccess h) false)
                             hints).
    change (get _ "comprehension_pass_rate" 80)
      with (if gtb (qlen hints) 0 then passed / qlen hints * 100 else 80).
    change (get _ "hints_before_success" 1)
      with (qlen hints / or_num successful 1).
    change (get _ "avg_hint_level" 2)
      with (sum (map (fun h => or_else (hintLevel h) 1) hints) / qlen hints).
    split; [|split].
    + rewrite (proj2 (gtb_true (qlen hints) 0)) by exact Hn.
      pose proof (count_bounds (fun h => or_else
                    (or_else (comprehensionCheck h) None) true) hints) as Hp.
      fold passed in Hp.
      assert (0 <= passed / qlen hints) by (apply Qle_shift_div_l; lra).
      assert (passed / qlen hints <= 1) by (apply Qle_shift_div_r; lra).
      split; nra.
    + pose proof (count_bounds (fun h => or_else (ledToSuccess h) false)
                               hints) as Hs.
      fold successful in Hs.
      pose proof (or_num_pos successful (proj1 Hs)) as Hpos.
      apply Qle_shift_div_l; [exact Hpos|].
      assert (1 <= qlen hints).
      { destruct hints as [|h l]; [congruence|].
        rewrite qlen_cons. pose proof (qlen_nonneg l). lra. }
      unfold or_num in *. destruct (Py.eqb successful 0); lra.
    + intros _ lo hi Hall. now apply average_bounds.
Qed.

Lemma latest_bounds (lo hi first : Z) (rest : list Z) :
  (lo <= first <= hi)%Z -> Forall (fun t => (lo <= t <= hi)%Z) rest ->
  (lo <= latest first rest <= hi)%Z.
Proof.
  unfold latest. revert first.
  induction rest as [|t l IH]; intros first Hf Hall; cbn [fold_left].
  - exact Hf.
  - apply Forall_cons in Hall as [Ht Hl]. apply IH; [lia|exact Hl].
Qed.

(** X7. The weekly session count of an extraction is between 0 and 7; and
    when the student has a submission in the window and none dated after
    [now], the days since the last session are between 0 and the lookback
    window. *)
Theorem temporal_features_bounds
    (db : Database) (now : datetime) (student_id oid : string)
    (lookback_days : Z) :
  ObjectId student_id = Ok oid ->
  let subs := student_submissions db oid (now - days lookback_days)%Z in
  exists f t,
    extract_student_features db now student_id lookback_days = Ok f
    /\ temporal f = Some t
    /\ 0 <= get t "weekly_sessions" 2 <= 7
    /\ (subs <> [] ->
        Forall (fun s => (sub_createdAt s <= now)%Z) subs ->
        0 <= get t "days_since_last_session" 1 <= inject_Z lookback_days).
Proof.
  intros Hid subs. rewrite (extract_ok _ _ _ _ _ Hid).
  do 2 eexists. split; [reflexivity|]. cbn [temporal].
  split; [reflexivity|].
  unfold _extract_temporal_features. fold subs.
  assert (Hwin : Forall (fun s => (now - days lookback_days
                                   <= sub_createdAt s)%Z) subs).
  { apply List.Forall_forall. intros s Hs. unfold subs, student_submissions in Hs.
    apply filter_In in Hs as [_ Hs].
    apply andb_prop in Hs as [_ Hs]. now apply Z.leb_le in Hs. }
  destruct subs as [|s l] eqn:Esubs.
  - cbn. split; [lra|]. intros Hne. congruence.
  - cbn [map].
    set (times := sub_createdAt s :: map sub_createdAt l).
    set (weekly := count (fun c : Z => (now - days 7 <=? c)%Z) times).
    change (get _ "weekly_sessions" 2) with (Py.min weekly 7).
    change (get _ "days_since_last_session" 1)
      with (inject_Z (to_days (now - latest (sub_createdAt s)
                                            (map sub_createdAt l)))).
    split.
    + pose proof (count_bounds (fun c => (now - days 7 <=? c)%Z) times)
        as [Hw _].
      fold weekly in Hw.
      rewrite py_min_Qmin.
      destruct (Q.min_spec weekly 7) as [[? ->]|[? ->]]; lra.
    + intros _ Hpast.
      apply Forall_cons in Hpast as [Hs Hl].
      apply Forall_cons in Hwin as [Hs' Hl'].
      assert (Hb : (now - days lookback_days
                    <= latest (sub_createdAt s) (map sub_createdAt l)
                    <= now)%Z).
      { apply latest_bounds; [lia|].
        apply List.Forall_forall. intros t Ht.
        apply in_map_iff in Ht as (s0 & <- & Hs0).
        rewrite List.Forall_forall in Hl, Hl'.
        specialize (Hl s0 Hs0). specialize (Hl' s0 Hs0). lia. }
      unfold days in Hb. unfold to_days.
      change 0 with (inject_Z 0). rewrite <- !Zle_Qle. split.
      * apply Z.div_pos; lia.
      * apply Z.div_le_upper_bound; lia.
Qed.

(** X8. With at least one monitoring record in the window, the active and
    idle time percentages of an extraction add up to 100, and the paste
    frequency lies between any two bounds that hold for every record's
    paste count. *)
Theorem behavioral_features_aggregates
    (db : Database) (now : datetime) (student_id oid : string)
    (lookback_days : Z) :
  ObjectId student_id = Ok oid ->
  let records := student_monitoring db oid (now - days lookback_days)%Z in
  records <> [] ->
  exists f b,
    extract_student_features db now student_id lookback_days = Ok f
    /\ behavioral f = Some b
    /\ get b "active_time_percentage" 80 + get b "idle_time_percentage" 10
       == 100
    /\ forall lo hi,
         Forall (fun r => lo <= get (mon_fields r) "pasteCount" 0 <= hi)
                records ->
         lo <= get b "paste_frequency" 0 <= hi.
Proof.
  intros Hid records Hne. rewrite (extract_ok _ _ _ _ _ Hid).
  do 2 eexists. split; [reflexivity|]. cbn [behavioral].
  split; [reflexivity|].
  unfold _extract_behavioral_features. fold records.
  rewrite (proj2 (is_empty_false records) Hne).
  pose proof (qlen_pos records Hne) as Hn.
  set (idle := sum (map (fun r => get (mon_fields r) "totalIdleTime" 0)
                        records)).
  set (time := sum (map (fun r => get (mon_fields r) "totalActiveTime" 0)
                        records)).
  set (pastes := sum (map (fun r => get (mon_fields r) "pasteCount" 0)
                          records)).
  change (get _ "active_time_percentage" 80)
    with (100 - idle / or_num time 1 * 100).
  change (get _ "idle_time_percentage" 10) with (idle / or_num time 1 * 100).
  change (get _ "paste_frequency" 0)
    with (if gtb (or_num (qlen records) 1) 0
          then pastes / or_num (qlen records) 1 else 0).
  split; [ring|].
  intros lo hi Hall.
  assert (E : or_num (qlen records) 1 = qlen records).
  { unfold or_num. destruct (Py.eqb (qlen records) 0) eqn:E; [|reflexivity].
    apply eqb_true in E. lra. }
  rewrite E. rewrite (proj2 (gtb_true (qlen records) 0)) by exact Hn.
  now apply average_bounds.
Qed.
End GroupBounds.

Section TrainingData.
Import Py FeatureExtractor.
Local Open Scope Q_scope.

Variables (db : Database) (now : datetime) (lookback_days : Z).







End TrainingData.

Section ExtractionWitnesses.
Import Py FeatureExtractor.
Local Open Scope Q_scope.

Lemma extraction_groups_follow_table_witness :
  exists b p a t,
    behavioral Records.busy_features = Some b
    /\ performance Records.busy_features = Some p
    /\ ai_interaction Records.busy_features = Some a
    /\ temporal Records.busy_features = Some t
    /\ keys b = keys (get FEATURE_DEFINITIONS "behavioral" [])
    /\ keys p = keys (get FEATURE_DEFINITIONS "performance" [])
    /\ keys a = keys (get FEATURE_DEFINITIONS "ai_interaction" [])
    /\ keys t = keys (get FEATURE_DEFINITIONS "temporal" [])
    /\ feature_vector Records.busy_features
       = Some (_create_feature_vector b p a t).
Proof.
  apply (extraction_groups_follow_table
           Records.busy_db Samples.now Samples.new_student 90).
  reflexivity.
Defined.

Lemma extraction_vector_shape_witness :
  exists v, feature_vector Records.busy_features = Some v
            /\ length v = 22%nat
            /\ Forall (fun x => 0 <= x <= 1) v.
Proof.
  apply (extraction_vector_shape
           Records.busy_db Samples.now Samples.new_student 90).
  reflexivity.
Defined.

Lemma performance_features_bounds_witness :
  exists p,
    performance Records.busy_features = Some p
    /\ 0 <= get p "success_rate" 50 <= 100
    /\ get p "completion_rate" 50 = get p "success_rate" 50
    /\ (get p "difficulty_level" 1 = 0 \/ get p "difficulty_level" 1 = 1
        \/ get p "difficulty_level" 1 = 2)
    /\ 1 <= get p "attempt_count" 2.
Proof.
  apply (performance_features_bounds
           Records.busy_db Samples.now Samples.new_student 90).
  reflexivity.
Defined.

Lemma ai_features_bounds_witness :
  exists f a,
    extract_student_features Records.busy_db Samples.now
                             Samples.new_student 90 = Ok f
    /\ ai_interaction f = Some a
    /\ 2 <= get a "avg_hint_level" 2 <= 4.
Proof.
  destruct (ai_features_bounds Records.busy_db Samples.now
              Samples.new_student Samples.new_student 90 eq_refl)
    as (f & a & Hf & Ha & _ & _ & Havg).
  exists f, a. split; [exact Hf|]. split; [exact Ha|].
  apply Havg; [discriminate|].
  repeat constructor; cbn; lra.
Defined.

Lemma temporal_features_bounds_witness :
  exists f t,
    extract_student_features Records.busy_db Samples.now
                             Samples.new_student 90 = Ok f
    /\ temporal f = Some t
    /\ 0 <= get t "weekly_sessions" 2 <= 7
    /\ 0 <= get t "days_since_last_session" 1 <= 90.
Proof.
  destruct (temporal_features_bounds Records.busy_db Samples.now
              Samples.new_student Samples.new_student 90 eq_refl)
    as (f & t & Hf & Ht & Hweek & Hdays).
  exists f, t. split; [exact Hf|]. split; [exact Ht|].
  split; [exact Hweek|].
  apply Hdays; [discriminate|].
  repeat constructor; vm_compute; discriminate.
Defined.

Lemma behavioral_features_aggregates_witness :
  exists f b,
    extract_student_features Records.busy_db Samples.now
                             Samples.new_student 90 = Ok f
    /\ behavioral f = Some b
    /\ get b "active_time_percentage" 80 + get b "idle_time_percentage" 10
       == 100
    /\ 2 <= get b "paste_frequency" 0 <= 4.
Proof.
  destruct (behavioral_features_aggregates Records.busy_db Samples.now
              Samples.new_student Samples.new_student 90 eq_refl)
    as (f & b & Hf & Hb & Hsum & Hpaste); [discriminate|].
  exists f, b. split; [exact Hf|]. split; [exact Hb|].
  split; [exact Hsum|].
  apply Hpaste. repeat constructor; cbn; lra.
Defined.
End ExtractionWitnesses.

(* ===================================================================== *)
(** ** Registry: promotion, deletion, storage, queries, generated versions *)
(* ===================================================================== *)

Section RegistryMore.
Import Py ModelRegistry.
Context {Network : Type}.
Variable save_checkpoint : Network -> string.
Variable md5 : string -> string.

Lemma contains_dlookup {V} (d : list (string * V)) (k : string) :
  contains d k = true <-> is_Some (dlookup d k).
Proof.
  unfold contains. destruct (dlookup d k); split;
    [eauto|reflexivity|discriminate|intros [x Hx]; discriminate].
Qed.

Lemma dlookup_in_keys {V} (d : list (string * V)) (k : string) :
  is_Some (dlookup d k) <-> In k (keys d).
Proof.
  unfold keys. induction d as [|[k' v'] d IH]; cbn [dlookup map fst].
  - split; [intros [x Hx]; discriminate|intros []].
  - destruct (String.eqb k k') eqn:E.
    + apply String.eqb_eq in E. subst. split; [now left|eauto].
    + rewrite IH. apply String.eqb_neq in E. split; [now right|].
      intros [H|H]; [congruence|exact H].
Qed.

Lemma keys_set {V} (d : list (string * V)) (k : string) (v : V) :
  keys (set d k v) = if contains d k then keys d else keys d ++ [k].
Proof.
  unfold contains, keys. induction d as [|[k' v'] d IH]; cbn [set dlookup map fst].
  - reflexivity.
  - destruct (String.eqb k k'); [reflexivity|].
    cbn [map fst]. rewrite IH. now destruct (dlookup d k).
Qed.







Lemma keys_map_snd {V W} (f : V -> W) (d : list (string * V)) :
  keys (map (fun e => (fst e, f (snd e))) d) = keys d.
Proof. unfold keys. rewrite map_map. now apply map_ext. Qed.

Lemma set_same {V} (d : list (string * V)) (k : string) (v : V) :
  dlookup d k = Some v -> set d k v = d.
Proof.
  induction d as [|[k' v'] d IH]; cbn [dlookup set]; [discriminate|].
  destruct (String.eqb k k') eqn:E.
  - apply String.eqb_eq in E. intros [= ->]. now subst.
  - intros H. now rewrite IH.
Qed.

Lemma map_snd_set {V W} (f : V -> W) (d : list (string * V)) k v :
  map (fun e => (fst e, f (snd e))) (set d k v)
  = set (map (fun e => (fst e, f (snd e))) d) k (f v).
Proof.
  induction d as [|[k' v'] d IH]; cbn [set map fst snd]; [reflexivity|].
  destruct (String.eqb k k'); cbn [map fst snd]; [reflexivity|].
  now rewrite IH.
Qed.

Lemma set_production_unfold r mt v r' :
  set_production r mt v = Ok r' ->
  exists entries,
    index r !! mt = Some entries
    /\ is_Some (dlookup entries v)
    /\ r' = mkRegistry (registry_path r)
                       (<[mt := promoted entries v]> (index r)) (files r).
Proof.
  unfold set_production.
  destruct (index r !! mt) as [entries|] eqn:Ei; [|discriminate].
  unfold contains.
  destruct (dlookup entries v) as [data|] eqn:El; cbn [negb]; [|discriminate].
  intros [= <-]. exists entries. split; [reflexivity|]. split; [eauto|].
  reflexivity.
Qed.

Lemma keys_promoted entries v : keys (promoted entries v) = keys entries.
Proof.
  unfold promoted. cbv zeta. rewrite dlookup_map_snd.
  destruct (dlookup entries v) as [data|] eqn:E; cbn [fmap option_fmap option_map].
  - rewrite keys_set. unfold contains. rewrite dlookup_map_snd, E.
    cbn. apply keys_map_snd.
  - apply keys_map_snd.
Qed.

Lemma dlookup_promoted entries v w :
  is_Some (dlookup entries v) ->
  dlookup (promoted entries v) w
  = set_is_production (String.eqb w v) <$> dlookup entries w.
Proof.
  intros [data E]. unfold promoted. cbv zeta. rewrite dlookup_map_snd, E.
  cbn [fmap option_fmap option_map].
  destruct (String.eqb w v) eqn:Ew.
  - apply String.eqb_eq in Ew. subst w. rewrite dlookup_set_eq, E. reflexivity.
  - apply String.eqb_neq in Ew. rewrite dlookup_set_ne by congruence.
    rewrite dlookup_map_snd. reflexivity.
Qed.

Lemma contains_promoted entries v w :
  contains (promoted entries v) w = contains entries w.
Proof.
  destruct (contains entries w) eqn:E.
  - apply contains_dlookup, dlookup_in_keys. rewrite keys_promoted.
    now apply dlookup_in_keys, contains_dlookup.
  - destruct (contains (promoted entries v) w) eqn:E'; [|reflexivity].
    apply contains_dlookup, dlookup_in_keys in E'.
    rewrite keys_promoted in E'.
    apply dlookup_in_keys, contains_dlookup in E'. congruence.
Qed.

Lemma promoted_promoted entries w v :
  is_Some (dlookup entries w) ->
  promoted (promoted entries w) v = promoted entries v.
Proof.
  intros [data E]. unfold promoted at 2. cbv zeta.
  rewrite dlookup_map_snd, E. cbn [fmap option_fmap option_map].
  unfold promoted. cbv zeta.
  rewrite map_snd_set, map_map. cbn [fst snd].
  assert (Hc : map (fun x : string * ModelVersion =>
                      (fst x, set_is_production false
                                (set_is_production false (snd x)))) entries
               = map (fun e => (fst e, set_is_production false (snd e)))
                     entries)
    by (apply map_ext; intros [k x]; reflexivity).
  rewrite Hc.
  rewrite (set_same _ w
             (set_is_production false
                (set_is_production true (set_is_production false data)))).
  - reflexivity.
  - rewrite dlookup_map_snd, E. reflexivity.
Qed.

(** X10. [set_production] rewrites production flags and nothing else: the
    stored files, the registry path, the other model types and the list of
    version strings of the type are as before, and every version's entry is
    its old entry with the flag set exactly for the promoted version. *)
Theorem set_production_only_flags r mt v r' :
  set_production r mt v = Ok r' ->
  files r' = files r
  /\ registry_path r' = registry_path r
  /\ (forall mt', mt' <> mt -> index r' !! mt' = index r !! mt')
  /\ keys (default [] (index r' !! mt)) = keys (default [] (index r !! mt))
  /\ forall w,
       get_version_info r' mt w
       = match get_version_info r mt w with
         | Ok data => Ok (set_is_production (String.eqb w v) data)
         | Raise e => Raise e
         end.
Proof.
  intros H. apply set_production_unfold in H as (entries & Ei & Hv & ->).
  cbn [files registry_path index]. repeat split.
  - intros mt' Hne. now rewrite lookup_insert_ne by congruence.
  - rewrite lookup_insert_eq, Ei. cbn [default]. apply keys_promoted.
  - intros w. unfold get_version_info. cbn [index].
    rewrite lookup_insert_eq, Ei, dlookup_promoted by exact Hv.
    now destruct (dlookup entries w).
Qed.

Lemma set_production_last_wins r mt w v r1 :
  set_production r mt w = Ok r1 ->
  set_production r1 mt v = set_production r mt v.
Proof.
  intros H. apply set_production_unfold in H as (entries & Ei & Hw & ->).
  unfold set_production at 1. cbn [index files registry_path].
  rewrite lookup_insert_eq, contains_promoted.
  unfold set_production. rewrite Ei.
  destruct (contains entries v); cbn [negb]; [|reflexivity].
  fold (promoted (promoted entries w) v). fold (promoted entries v).
  rewrite promoted_promoted by exact Hw.
  now rewrite insert_insert_eq.
Qed.

(** X11. Promotion is last-write-wins: after a successful promotion of any
    version of a type, promoting [v] gives exactly the registry (or the
    error) that promoting [v] directly would have given.  In particular a
    promotion is idempotent, and promoting the earlier version again
    restores the registry as it was under it (rollback). *)
Theorem set_production_overrides r mt w v r1 :
  set_production r mt w = Ok r1 ->
  set_production r1 mt v = set_production r mt v
  /\ set_production r1 mt w = Ok r1
  /\ forall r2, set_production r1 mt v = Ok r2 ->
                set_production r2 mt w = Ok r1.
Proof.
  intros H. pose proof (set_production_last_wins _ _ _ v _ H) as Hv.
  pose proof (set_production_last_wins _ _ _ w _ H) as Hw.
  split; [exact Hv|]. split; [now rewrite Hw|].
  intros r2 H2. rewrite (set_production_last_wins _ _ _ w _ H2).
  now rewrite Hw.
Qed.






(** *** Index and storage stay in step *)


Lemma has_version_default r mt v :
  has_version r mt v = contains (default [] (index r !! mt)) v.
Proof. unfold has_version. now destruct (index r !! mt). Qed.










(** X16. What [register_model] stores can be read back: [get_version_info]
    returns the registered entry, which is not production, and [get_model]
    on the new version returns its checkpoint path, or, given a model
    class, the model built from the registered configuration and loaded
    from the checkpoint just saved. *)
Theorem register_then_get {M} r now model mt metrics config tags descr ver
        mv r' (cls : ModelClass M) :
  register_model save_checkpoint md5 r now model mt metrics config tags
                 descr ver = Ok (mv, r') ->
  get_version_info r' mt (version mv) = Ok mv
  /\ is_production mv = false
  /\ get_model r' mt (Some (version mv)) (@None (ModelClass M))
     = Ok (LPath (version_dir r mt (version mv) +:+ "/model.ckpt"))
  /\ get_model r' mt (Some (version mv)) (Some cls)
     = (m ← construct cls (FeatureExtractor.or_else config []);
        m ← load_checkpoint cls (save_checkpoint model) m;
        Ok (LModel m)).
Proof.
  intros H. pose proof H as H0.
  apply register_model_ok in H as (v & Hmv & Hi & Hf & _).
  assert (Hver : version mv = v) by (now rewrite Hmv).
  assert (Hpath : registry_path r' = registry_path r).
  { unfold register_model in H0.
    destruct (negb _); [discriminate|].
    destruct (match ver with Some v0 => Ok v0 | None => _ end);
      cbn [mbind result_bind bind] in H0; [|discriminate].
    now injection H0 as _ <-. }
  rewrite Hver. split; [|split; [|split]].
  - unfold get_version_info. rewrite Hi, lookup_insert_eq, dlookup_set_eq.
    reflexivity.
  - now rewrite Hmv.
  - unfold get_model. cbn [mbind result_bind bind].
    rewrite Hf, lookup_insert_eq.
    cbn [default model_ckpt metadata_json]. unfold version_dir.
    now rewrite Hpath.
  - unfold get_model. cbn [mbind result_bind bind].
    rewrite Hf, lookup_insert_eq.
    cbn [default model_ckpt metadata_json md_version]. rewrite Hmv.
    reflexivity.
Qed.
End RegistryMore.

Section RegistryQueries.
Import Py ModelRegistry.

Lemma insert_desc_perm {A} (key : A -> Z) (x : A) (l : list A) :
  Permutation (insert_desc key x l) (x :: l).
Proof.
  induction l as [|y l IH]; cbn [insert_desc]; [reflexivity|].
  destruct (key y <? key x); [reflexivity|].
  rewrite IH. apply perm_swap.
Qed.

Lemma insert_desc_sorted {A} (key : A -> Z) (x : A) (l : list A) :
  StronglySorted (fun a b => key b <= key a) l ->
  StronglySorted (fun a b => key b <= key a) (insert_desc key x l).
Proof.
  induction 1 as [|y l Hs IH Hall]; cbn [insert_desc].
  - repeat constructor.
  - destruct (key y <? key x) eqn:E.
    + apply Z.ltb_lt in E. constructor; [now constructor|].
      constructor; [lia|].
      eapply List.Forall_impl; [|exact Hall]. cbv beta. intros z Hz. lia.
    + apply Z.ltb_ge in E. constructor; [exact IH|].
      rewrite (insert_desc_perm key x l). now constructor.
Qed.

Lemma sort_desc_acc {A} (key : A -> Z) (l acc : list A) :
  StronglySorted (fun a b => key b <= key a) acc ->
  Permutation (fold_left (fun acc x => insert_desc key x acc) l acc)
              (acc ++ l)
  /\ StronglySorted (fun a b => key b <= key a)
                    (fold_left (fun acc x => insert_desc key x acc) l acc).
Proof.
  revert acc. induction l as [|x l IH]; intros acc Hacc; cbn [fold_left].
  - rewrite app_nil_r. split; [reflexivity|exact Hacc].
  - destruct (IH (insert_desc key x acc)) as [Hp Hs];
      [now apply insert_desc_sorted|].
    split; [|exact Hs]. rewrite Hp, insert_desc_perm.
    apply Permutation_middle.
Qed.

Lemma list_versions_perm r mt tags :
  Permutation (list_versions r mt tags)
              (List.filter (tag_match tags)
                           (values (default [] (index r !! mt)))).
Proof.
  unfold list_versions.
  destruct (index r !! mt) as [entries|]; cbn [default]; [|reflexivity].
  cbv zeta. unfold sort_desc.
  now destruct (sort_desc_acc created_at
                  (List.filter (tag_match tags) (values entries)) [])
    as [Hp _]; [constructor|].
Qed.

Lemma filter_true_all {A} (l : list A) :
  List.filter (fun _ => true) l = l.
Proof. induction l as [|x l IH]; cbn; congruence. Qed.

Lemma list_versions_length r mt :
  length (list_versions r mt None)
  = length (default [] (index r !! mt)).
Proof.
  rewrite (Permutation_length (list_versions_perm r mt None)).
  cbn [tag_match]. rewrite filter_true_all. unfold values.
  now rewrite length_map.
Qed.

(** X17. [list_versions] returns exactly the index entries of the type that carry
    at least one of the requested tags (all entries when no tags are
    given), each once, ordered by creation time, newest first; an unknown
    type gives the empty list. *)
Theorem list_versions_filtered_newest_first r mt tags :
  Permutation (list_versions r mt tags)
              (List.filter (tag_match tags)
                           (values (default [] (index r !! mt))))
  /\ StronglySorted (fun a b => created_at b <= created_at a)
                    (list_versions r mt tags).
Proof.
  unfold list_versions.
  destruct (index r !! mt) as [entries|]; cbn [default].
  - cbv zeta. unfold sort_desc.
    destruct (sort_desc_acc created_at
                (List.filter (tag_match tags) (values entries)) [])
      as [Hp Hs]; [constructor|].
    split; [exact Hp|exact Hs].
  - split; [reflexivity|constructor].
Qed.

Lemma compare_fold (f : string -> dict (option Q)) (l : list string)
      (acc : gmap string (dict (option Q))) (metric : string) :
  fold_left (fun acc m => <[m := f m]> acc) l acc !! metric
  = if existsb (String.eqb metric) l then Some (f metric) else acc !! metric.
Proof.
  revert acc. induction l as [|m l IH]; intros acc; cbn [fold_left existsb];
    [reflexivity|].
  rewrite IH. destruct (existsb (String.eqb metric) l);
    [now rewrite orb_true_r|].
  rewrite orb_false_r. destruct (String.eqb metric m) eqn:E.
  - apply String.eqb_eq in E. subst. now rewrite lookup_insert_eq.
  - apply String.eqb_neq in E. now rewrite lookup_insert_ne by congruence.
Qed.

Lemma existsb_keys {V} (d : list (string * V)) (k : string) :
  existsb (String.eqb k) (keys d) = contains d k.
Proof.
  unfold keys, contains.
  induction d as [|[k' v'] d IH]; cbn [map fst existsb dlookup];
    [reflexivity|].
  destruct (String.eqb k k'); [reflexivity|exact IH].
Qed.

Lemma compare_versions_entries r mt version1 version2 v1 v2 :
  get_version_info r mt version1 = Ok v1 ->
  get_version_info r mt version2 = Ok v2 ->
  exists metrics_diff,
    compare_versions r mt version1 version2
    = Ok ([version1; version2], metrics_diff)
    /\ forall metric,
         metrics_diff !! metric
         = if (contains (metrics v1) metric
               || contains (metrics v2) metric)%bool
           then Some (metric_entry version1 version2
                        (dlookup (metrics v1) metric)
                        (dlookup (metrics v2) metric))
           else None.
Proof.
  intros H1 H2. unfold compare_versions. rewrite H1, H2.
  cbn [mbind result_bind bind]. cbv zeta. eexists. split; [reflexivity|].
  intros metric.
  rewrite (compare_fold
             (fun m => metric_entry version1 version2
                         (dlookup (metrics v1) m) (dlookup (metrics v2) m))).
  rewrite existsb_app, !existsb_keys, lookup_empty. reflexivity.
Qed.

(** X18. [compare_versions] of two indexed versions reports one entry per
    metric that either version has and none for any other name; the
    entry's ['diff'] is the second value minus the first when both versions
    have the metric, and [None] when one of them lacks it.  It raises
    the Version not found error for the first version when that is
    missing, and otherwise for the second. *)
Theorem compare_versions_diff r mt version1 version2 :
  match get_version_info r mt version1, get_version_info r mt version2 with
  | Raise _, _ =>
      compare_versions r mt version1 version2
      = version_not_found mt version1
  | Ok _, Raise _ =>
      compare_versions r mt version1 version2
      = version_not_found mt version2
  | Ok v1, Ok v2 =>
      exists metrics_diff,
        compare_versions r mt version1 version2
        = Ok ([version1; version2], metrics_diff)
        /\ forall metric,
             match dlookup (metrics v1) metric,
                   dlookup (metrics v2) metric with
             | None, None => metrics_diff !! metric = None
             | val1, val2 =>
                 exists entry,
                   metrics_diff !! metric = Some entry
                   /\ dlookup entry "diff"
                      = Some (match val1, val2 with
                              | Some a, Some b => Some (b - a)%Q
                              | _, _ => None
                              end)
             end
  end.
Proof.
  destruct (get_version_info r mt version1) as [v1|e1] eqn:H1.
  - destruct (get_version_info r mt version2) as [v2|e2] eqn:H2.
    + destruct (compare_versions_entries _ _ _ _ _ _ H1 H2)
        as (md & Hc & Hmd).
      exists md. split; [exact Hc|]. intros metric.
      specialize (Hmd metric). unfold contains in Hmd.
      destruct (dlookup (metrics v1) metric) as [a|],
               (dlookup (metrics v2) metric) as [b|]; cbn [orb] in Hmd;
        try exact Hmd;
        (eexists; split; [exact Hmd|]);
        unfold metric_entry; cbv zeta; apply dlookup_set_eq.
    + unfold compare_versions. rewrite H1, H2.
      cbn [mbind result_bind bind].
      unfold get_version_info in H2.
      destruct (index r !! mt) as [entries|]; [|now injection H2 as <-].
      destruct (dlookup entries version2); [discriminate|].
      now injection H2 as <-.
  - unfold compare_versions. rewrite H1. cbn [mbind result_bind bind].
    unfold get_version_info in H1.
    destruct (index r !! mt) as [entries|]; [|now injection H1 as <-].
    destruct (dlookup entries version1); [discriminate|].
    now injection H1 as <-.
Qed.

(** X19. Comparing a version with itself gives a difference of zero for each of
    its metrics, and swapping the two versions negates every difference. *)
Theorem compare_versions_symmetry r mt version1 version2 v1 v2 :
  get_version_info r mt version1 = Ok v1 ->
  get_version_info r mt version2 = Ok v2 ->
  exists forward backward,
    compare_versions r mt version1 version2
    = Ok ([version1; version2], forward)
    /\ compare_versions r mt version2 version1
       = Ok ([version2; version1], backward)
    /\ forall metric entry,
         forward !! metric = Some entry ->
         exists entry',
           backward !! metric = Some entry'
           /\ match get entry "diff" None, get entry' "diff" None with
              | Some d, Some d' => (d' == - d)%Q
                                   /\ (version1 = version2 -> (d == 0)%Q)
              | None, None => True
              | _, _ => False
              end.
Proof.
  intros H1 H2.
  destruct (compare_versions_entries _ _ _ _ _ _ H1 H2) as (fw & Hf & Hfw).
  destruct (compare_versions_entries _ _ _ _ _ _ H2 H1) as (bw & Hb & Hbw).
  exists fw, bw. split; [exact Hf|]. split; [exact Hb|].
  intros metric entry He. rewrite Hfw in He. rewrite Hbw.
  rewrite (orb_comm (contains (metrics v2) metric)).
  destruct (contains (metrics v1) metric || contains (metrics v2) metric)%bool;
    [|discriminate].
  injection He as <-. eexists. split; [reflexivity|].
  unfold get, metric_entry. cbv zeta. rewrite !dlookup_set_eq.
  destruct (dlookup (metrics v1) metric) as [a|] eqn:Ea,
           (dlookup (metrics v2) metric) as [b|] eqn:Eb; try exact I.
  split; [ring|]. intros ->. rewrite H1 in H2. injection H2 as ->.
  rewrite Ea in Eb. injection Eb as ->. ring.
Qed.
End RegistryQueries.

Section DecimalFacts.
Import Py.

Lemma digit_of_digit_char (d : Z) :
  0 <= d < 10 -> digit_of (digit_char d) = Some d.
Proof.
  intros H.
  assert (Hd : d = 0 \/ d = 1 \/ d = 2 \/ d = 3 \/ d = 4 \/ d = 5 \/ d = 6
               \/ d = 7 \/ d = 8 \/ d = 9) by lia.
  repeat (destruct Hd as [->|Hd]; [reflexivity|]). now subst.
Qed.

Lemma digit_of_range (c : ascii) (d : Z) :
  digit_of c = Some d -> (48 <= nat_of_ascii c <= 57)%nat.
Proof.
  unfold digit_of.
  destruct (48 <=? nat_of_ascii c)%nat eqn:E1; [|discriminate].
  destruct (nat_of_ascii c <=? 57)%nat eqn:E2; [|discriminate].
  intros _. apply Nat.leb_le in E1. apply Nat.leb_le in E2. lia.
Qed.

(** A decimal digit is neither white space nor a sign nor the dot. *)
Lemma digit_plain (c : ascii) :
  is_Some (digit_of c) ->
  is_space c = false /\ Ascii.eqb c "-" = false /\ Ascii.eqb c "+" = false
  /\ Ascii.eqb c "." = false.
Proof.
  intros [d Hd]. apply digit_of_range in Hd. split; [|split; [|split]].
  - unfold is_space.
    destruct (nat_of_ascii c =? 32)%nat eqn:E1;
      [apply Nat.eqb_eq in E1; lia|].
    destruct (nat_of_ascii c <=? 13)%nat eqn:E2;
      [apply Nat.leb_le in E2; lia|].
    destruct (nat_of_ascii c <=? 31)%nat eqn:E3;
      [apply Nat.leb_le in E3; lia|].
    now rewrite !andb_false_r.
  - apply Ascii.eqb_neq. intros ->.
    change (nat_of_ascii "-") with 45%nat in Hd. lia.
  - apply Ascii.eqb_neq. intros ->.
    change (nat_of_ascii "+") with 43%nat in Hd. lia.
  - apply Ascii.eqb_neq. intros ->.
    change (nat_of_ascii ".") with 46%nat in Hd. lia.
Qed.

(** The digits that [digits_fuel] writes in front of [acc], read back. *)
Lemma digits_fuel_parse (fuel : nat) :
  forall (n : Z) (acc : string),
    fuel <> O -> 0 <= n < 2 ^ Z.of_nat fuel ->
    exists dl,
      list_ascii_of_string (digits_fuel fuel n acc)
      = dl ++ list_ascii_of_string acc
      /\ dl <> []
      /\ List.Forall (fun c => is_Some (digit_of c)) dl
      /\ forall a b rest,
           parse_digits a b (dl ++ rest)
           = parse_digits (a * 10 ^ Z.of_nat (length dl) + n) true rest.
Proof.
  induction fuel as [|fuel IH]; intros n acc Hfuel Hn; [congruence|].
  cbn [digits_fuel]. cbv zeta.
  assert (Hmod : 0 <= n mod 10 < 10) by (apply Z.mod_pos_bound; lia).
  pose proof (digit_of_digit_char _ Hmod) as Hdig.
  pose proof (Z.div_mod n 10 ltac:(lia)) as Hdm.
  destruct (n / 10 =? 0) eqn:E.
  - apply Z.eqb_eq in E. exists [digit_char (n mod 10)].
    split; [reflexivity|]. split; [discriminate|].
    split; [constructor; [eauto|constructor]|].
    intros a b rest. cbn [app parse_digits length]. rewrite Hdig.
    f_equal. change (Z.of_nat 1) with 1. lia.
  - apply Z.eqb_neq in E.
    assert (Hq0 : 0 <= n / 10) by (apply Z.div_pos; lia).
    assert (Hf : fuel <> O).
    { intros ->. change (2 ^ Z.of_nat 1) with 2 in Hn. lia. }
    assert (Hq : 0 <= n / 10 < 2 ^ Z.of_nat fuel).
    { split; [exact Hq0|].
      apply Z.div_lt_upper_bound; [lia|].
      rewrite Nat2Z.inj_succ, Z.pow_succ_r in Hn by lia.
      assert (0 < 2 ^ Z.of_nat fuel) by (apply Z.pow_pos_nonneg; lia).
      lia. }
    destruct (IH (n / 10) (String (digit_char (n mod 10)) acc) Hf Hq)
      as (dl & Hl & Hne & Hall & Hp).
    exists (dl ++ [digit_char (n mod 10)]).
    split; [|split; [|split]].
    + rewrite Hl. cbn [list_ascii_of_string].
      now rewrite <- List.app_assoc.
    + intros H. now apply app_eq_nil in H as [_ H].
    + apply List.Forall_app. split; [exact Hall|].
      constructor; [eauto|constructor].
    + intros a b rest. rewrite <- List.app_assoc, Hp.
      cbn [app parse_digits]. rewrite Hdig. f_equal.
      rewrite length_app. cbn [length].
      rewrite Nat2Z.inj_add. change (Z.of_nat 1) with 1.
      rewrite Z.pow_add_r by lia. lia.
Qed.

Lemma lstrip_plain (l : list ascii) :
  match l with [] => True | c :: _ => is_space c = false end ->
  lstrip l = l.
Proof. destruct l as [|c l]; [reflexivity|]. cbn. now intros ->. Qed.

Lemma strip_plain (l : list ascii) :
  List.Forall (fun c => is_space c = false) l -> strip l = l.
Proof.
  intros H. unfold strip.
  rewrite (lstrip_plain l) by (destruct H; auto).
  assert (Hr : List.Forall (fun c => is_space c = false) (rev l))
    by (apply List.Forall_rev; exact H).
  rewrite (lstrip_plain (rev l)) by (destruct Hr; auto).
  apply rev_involutive.
Qed.

(** The characters of [str(n)]: an optional minus sign, then digits. *)
Lemma str_int_chars (n : Z) :
  exists dl,
    list_ascii_of_string (str_int n)
    = (if n <? 0 then ["-"%char] else []) ++ dl
    /\ dl <> []
    /\ List.Forall (fun c => is_Some (digit_of c)) dl
    /\ parse_digits 0 false dl = Some (Z.abs n).
Proof.
  unfold str_int. cbv zeta.
  assert (Hb : 0 <= Z.abs n < 2 ^ Z.of_nat (S (Z.to_nat (Z.log2 (Z.abs n))))).
  { split; [lia|]. rewrite Nat2Z.inj_succ, Z2Nat.id by apply Z.log2_nonneg.
    destruct (Z.eq_dec (Z.abs n) 0) as [Hz|Hz]; [rewrite Hz; reflexivity|].
    apply Z.log2_spec. lia. }
  destruct (digits_fuel_parse _ _ "" (Nat.neq_succ_0 _) Hb)
    as (dl & Hl & Hne & Hall & Hp).
  exists dl. cbn [list_ascii_of_string] in Hl. rewrite app_nil_r in Hl.
  split; [|split; [exact Hne|split; [exact Hall|]]].
  - destruct (n <? 0); [|exact Hl].
    change ("-" +:+ ?s) with (String "-" s). cbn [list_ascii_of_string app].
    now rewrite Hl.
  - specialize (Hp 0 false []). rewrite app_nil_r in Hp. rewrite Hp.
    cbn [parse_digits]. f_equal; lia.
Qed.

(** [int(str(n)) == n] *)
Lemma int_of_str_str_int (n : Z) : int_of_str (str_int n) = Ok n.
Proof.
  destruct (str_int_chars n) as (dl & Hl & Hne & Hall & Hp).
  unfold int_of_str. cbv zeta. rewrite Hl.
  assert (Hsp : List.Forall (fun c => is_space c = false) dl).
  { eapply List.Forall_impl; [|exact Hall]. intros c Hc.
    now apply digit_plain in Hc. }
  destruct (n <? 0) eqn:En.
  - rewrite strip_plain by (constructor; [reflexivity|exact Hsp]).
    cbn [app]. rewrite Ascii.eqb_refl. rewrite Hp.
    apply Z.ltb_lt in En. f_equal. lia.
  - cbn [app]. rewrite strip_plain by exact Hsp.
    destruct dl as [|c dl]; [congruence|].
    apply List.Forall_inv in Hall. apply digit_plain in Hall as (_ & H1 & H2 & _).
    rewrite H1, H2, Hp. apply Z.ltb_ge in En. f_equal. lia.
Qed.

(** *** [split] after [join] *)

Lemma split_no_sep sep w : no_sep sep w -> split sep w = [w].
Proof.
  unfold no_sep. induction w as [|c w IH]; cbn [split list_ascii_of_string];
    [reflexivity|].
  intros H. apply List.Forall_cons_iff in H as [Hc Hw].
  now rewrite Hc, IH.
Qed.

Lemma split_app_sep sep w s :
  no_sep sep w -> split sep (w +:+ String sep s) = w :: split sep s.
Proof.
  unfold no_sep.
  induction w as [|c w IH]; simpl.
  - now rewrite Ascii.eqb_refl.
  - intros H. apply List.Forall_cons_iff in H as [Hc Hw].
    now rewrite Hc, IH.
Qed.

Lemma split_join sep ws :
  ws <> [] -> List.Forall (no_sep sep) ws ->
  split sep (join (String sep "") ws) = ws.
Proof.
  induction ws as [|w ws IH]; [congruence|]. intros _ H.
  apply List.Forall_cons_iff in H as [Hw Hws].
  destruct ws as [|w2 ws].
  - cbn [join]. now apply split_no_sep.
  - change (join (String sep "") (w :: w2 :: ws))
      with (w +:+ String sep (join (String sep "") (w2 :: ws))).
    rewrite split_app_sep by exact Hw.
    now rewrite IH.
Qed.

Lemma str_int_no_dot (n : Z) : no_sep "." (str_int n).
Proof.
  destruct (str_int_chars n) as (dl & Hl & _ & Hall & _).
  unfold no_sep. rewrite Hl. apply List.Forall_app. split.
  - destruct (n <? 0); repeat constructor.
  - eapply List.Forall_impl; [|exact Hall]. intros c Hc.
    now apply digit_plain in Hc.
Qed.

Lemma mapM_int_of_str (parts : list Z) :
  mapM int_of_str (map str_int parts) = Ok parts.
Proof.
  induction parts as [|p parts IH]; [reflexivity|].
  cbn [map mapM]. now rewrite int_of_str_str_int, IH.
Qed.

(** *** The lexicographic order of version keys *)

Lemma list_ltb_irrefl (a : list Z) : list_ltb a a = false.
Proof.
  induction a as [|x a IH]; [reflexivity|]. cbn [list_ltb].
  now rewrite Z.ltb_irrefl.
Qed.

Lemma list_ltb_trans (a b c : list Z) :
  list_ltb a b = true -> list_ltb b c = true -> list_ltb a c = true.
Proof.
  revert b c. induction a as [|x a IH]; intros [|y b] [|z c];
    cbn [list_ltb]; try congruence.
  destruct (x <? y) eqn:Exy, (y <? x) eqn:Eyx, (y <? z) eqn:Eyz,
           (z <? y) eqn:Ezy, (x <? z) eqn:Exz, (z <? x) eqn:Ezx;
    try congruence; try (intros; eapply IH; eassumption);
    repeat match goal with
           | H : (_ <? _) = true |- _ => apply Z.ltb_lt in H
           | H : (_ <? _) = false |- _ => apply Z.ltb_ge in H
           end; lia.
Qed.

Lemma list_ltb_app (l a b : list Z) :
  list_ltb (l ++ a) (l ++ b) = list_ltb a b.
Proof.
  induction l as [|x l IH]; [reflexivity|]. cbn [app list_ltb].
  now rewrite Z.ltb_irrefl.
Qed.

Lemma insert_sorted_perm {A} (x : list Z * A) l :
  Permutation (insert_sorted x l) (x :: l).
Proof.
  induction l as [|y l IH]; cbn [insert_sorted]; [reflexivity|].
  destruct (list_ltb (fst x) (fst y)); [reflexivity|].
  rewrite IH. apply perm_swap.
Qed.

Lemma insert_sorted_sorted {A} (x : list Z * A) l :
  StronglySorted (fun a b => list_ltb (fst b) (fst a) = false) l ->
  StronglySorted (fun a b => list_ltb (fst b) (fst a) = false)
                 (insert_sorted x l).
Proof.
  induction 1 as [|y l Hs IH Hall]; cbn [insert_sorted].
  - repeat constructor.
  - destruct (list_ltb (fst x) (fst y)) eqn:E.
    + constructor; [now constructor|]. constructor.
      * destruct (list_ltb (fst y) (fst x)) eqn:E'; [|reflexivity].
        pose proof (list_ltb_trans _ _ _ E E') as Hc.
        now rewrite list_ltb_irrefl in Hc.
      * eapply List.Forall_impl; [|exact Hall]. cbv beta. intros z Hz.
        destruct (list_ltb (fst z) (fst x)) eqn:E'; [|reflexivity].
        pose proof (list_ltb_trans _ _ _ E' E) as Hc. congruence.
    + constructor; [exact IH|].
      rewrite (insert_sorted_perm x l). now constructor.
Qed.

Lemma fold_insert_sorted {A} (l acc : list (list Z * A)) :
  StronglySorted (fun a b => list_ltb (fst b) (fst a) = false) acc ->
  Permutation (fold_left (fun acc x => insert_sorted x acc) l acc) (acc ++ l)
  /\ StronglySorted (fun a b => list_ltb (fst b) (fst a) = false)
                    (fold_left (fun acc x => insert_sorted x acc) l acc).
Proof.
  revert acc. induction l as [|x l IH]; intros acc Hacc; cbn [fold_left].
  - rewrite app_nil_r. split; [reflexivity|exact Hacc].
  - destruct (IH (insert_sorted x acc)) as [Hp Hs];
      [now apply insert_sorted_sorted|].
    split; [|exact Hs]. rewrite Hp, insert_sorted_perm.
    apply Permutation_middle.
Qed.

Lemma sorted_last_max {A} (l : list (list Z * A)) m :
  StronglySorted (fun a b => list_ltb (fst b) (fst a) = false) l ->
  last l = Some m ->
  forall z, In z l -> list_ltb (fst m) (fst z) = false.
Proof.
  induction 1 as [|y l Hs IH Hall]; [discriminate|].
  destruct l as [|y2 l].
  - intros [= <-] z [<-|[]]. apply list_ltb_irrefl.
  - intros Hl z [<-|Hz].
    + rewrite List.Forall_forall in Hall. apply Hall.
      change (last (y :: y2 :: l)) with (last (y2 :: l)) in Hl.
      apply list_elem_of_In, last_Some_elem_of. exact Hl.
    + apply IH; [exact Hl|exact Hz].
Qed.

Lemma last_map {A B} (f : A -> B) (l : list A) :
  last (map f l) = f <$> last l.
Proof.
  induction l as [|x l IH]; [reflexivity|].
  destruct l as [|y l]; [reflexivity|]. exact IH.
Qed.

(** The last element of [sorted(l, key=...)] carries a largest key. *)
Lemma sorted_by_key_last {A} (keyed : list (list Z * A)) (x : A) :
  last (sorted_by_key keyed) = Some x ->
  exists k,
    In (k, x) keyed
    /\ forall k' x', In (k', x') keyed -> list_ltb k k' = false.
Proof.
  unfold sorted_by_key.
  destruct (fold_insert_sorted keyed []) as [Hp Hs]; [constructor|].
  cbn [app] in Hp.
  rewrite last_map.
  destruct (last (fold_left _ keyed [])) as [[k y]|] eqn:El; [|discriminate].
  intros [= <-]. exists k. split.
  - apply list_elem_of_In. rewrite <- Hp. now apply last_Some_elem_of.
  - intros k' x' Hin.
    apply (sorted_last_max _ (k, y) Hs El (k', x')).
    apply list_elem_of_In. rewrite Hp. now apply list_elem_of_In.
Qed.
End DecimalFacts.

Section GeneratedVersions.
Import Py ModelRegistry.
Context {Network : Type}.
Variable save_checkpoint : Network -> string.
Variable md5 : string -> string.

(** A printed version string parses back to its parts. *)
Lemma version_key_printed (parts : list Z) :
  parts <> [] ->
  version_key ("v" +:+ join "." (map str_int parts)) = Ok parts.
Proof.
  intros Hne. unfold version_key.
  change (tail ("v" +:+ ?s)) with s.
  rewrite (split_join "." (map str_int parts)).
  - apply mapM_int_of_str.
  - destruct parts; [congruence|discriminate].
  - apply List.Forall_map, List.Forall_forall. intros n _.
    apply str_int_no_dot.
Qed.

Lemma mapM_keyed (versions : list string) keyed :
  mapM (fun x => k ← version_key x; Ok (k, x)) versions = Ok keyed ->
  (forall k x, In (k, x) keyed -> version_key x = Ok k)
  /\ (forall x, In x versions -> exists k, In (k, x) keyed).
Proof.
  revert keyed. induction versions as [|x versions IH]; intros keyed;
    cbn [mapM].
  - intros [= <-]. split; [intros k x []|intros x []].
  - destruct (version_key x) as [k|e] eqn:Ek; cbn [mbind result_bind bind];
      [|discriminate].
    destruct (mapM _ versions) as [keyed'|e] eqn:Em; [|discriminate].
    intros [= <-]. destruct (IH keyed' eq_refl) as [H1 H2]. split.
    + intros k0 x0 [[= <- <-]|Hin]; [exact Ek|now apply H1].
    + intros x0 [<-|Hin]; [exists k; now left|].
      destruct (H2 x0 Hin) as [k0 Hk0]. exists k0. now right.
Qed.

Lemma bump_greater (parts ps : list Z) (p : Z) :
  rev parts = p :: ps ->
  list_ltb parts (rev ((p + 1) :: ps)) = true.
Proof.
  intros H. apply (f_equal (@rev Z)) in H. rewrite rev_involutive in H.
  subst parts. cbn [rev]. rewrite list_ltb_app. cbn [list_ltb].
  assert (Hp : (p <? p + 1) = true) by (apply Z.ltb_lt; lia).
  now rewrite Hp.
Qed.

Lemma generated_version_fresh r mt v :
  _generate_version r mt = Ok v -> has_version r mt v = false.
Proof.
  rewrite has_version_default. unfold _generate_version. cbv zeta.
  set (entries := default [] (index r !! mt)).
  destruct (keys entries) as [|x0 xs] eqn:Ek.
  - intros _. destruct (contains entries v) eqn:E; [|reflexivity].
    apply contains_dlookup, dlookup_in_keys in E. rewrite Ek in E.
    destruct E.
  - rewrite <- Ek. clear x0 xs Ek.
    destruct (mapM _ (keys entries)) as [keyed|e] eqn:Em;
      cbn [mbind result_bind bind]; [|discriminate].
    destruct (mapM_keyed _ _ Em) as [Hkey Hall].
    destruct (last (sorted_by_key keyed)) as [latest|] eqn:El;
      [|discriminate].
    destruct (sorted_by_key_last _ _ El) as (kl & Hin & Hmax).
    rewrite (Hkey _ _ Hin). cbn [mbind result_bind bind].
    destruct (rev kl) as [|p ps] eqn:Er; [discriminate|].
    intros [= <-].
    destruct (contains entries _) eqn:E; [|reflexivity].
    apply contains_dlookup, dlookup_in_keys in E.
    destruct (Hall _ E) as [k Hk].
    pose proof (Hkey _ _ Hk) as Hparse.
    rewrite version_key_printed in Hparse
      by (cbn [rev]; intros H; now apply app_eq_nil in H as [_ H]).
    injection Hparse as Hparse. subst k.
    pose proof (Hmax _ _ Hk) as Hle.
    pose proof (bump_greater _ _ _ Er) as Hlt. cbn [rev] in Hlt.
    congruence.
Qed.

(** X20. A version string produced by [_generate_version] is not yet in the
    index of its type, so a registration without an explicit version
    never overwrites: it adds one version to the type and leaves every
    existing entry as it was. *)
Theorem auto_version_is_new
        r now model mt metrics config tags descr mv r' :
  register_model save_checkpoint md5 r now model mt metrics config tags
                 descr None = Ok (mv, r') ->
  has_version r mt (version mv) = false
  /\ (forall w, has_version r mt w = true ->
        get_version_info r' mt w = get_version_info r mt w)
  /\ length (list_versions r' mt None)
     = S (length (list_versions r mt None)).
Proof.
  intros H. apply register_model_ok in H as (v & Hmv & Hi & _ & Hg).
  apply generated_version_fresh in Hg.
  assert (Hver : version mv = v) by (now rewrite Hmv).
  rewrite Hver. split; [exact Hg|]. split.
  - intros w Hw. unfold get_version_info. rewrite Hi, lookup_insert_eq.
    assert (Hne : v <> w) by (intros ->; congruence).
    rewrite dlookup_set_ne by exact Hne.
    unfold has_version in Hw.
    destruct (index r !! mt) as [entries|]; [reflexivity|discriminate].
  - rewrite !list_versions_length, Hi, lookup_insert_eq.
    unfold default at 1. cbn [from_option id].
    rewrite has_version_default in Hg.
    clear Hi. revert Hg. generalize (default [] (index r !! mt)).
    intros d Hd.
    assert (Hk : length (keys (set d v mv)) = S (length (keys d))).
    { rewrite keys_set, Hd, length_app. cbn [length]. lia. }
    unfold keys in Hk. now rewrite !length_map in Hk.
Qed.

(** X21. One version string that does not parse as dotted integers after its
    first character makes every later automatic version fail: the
    [ValueError] of [int] leaves [_generate_version], and with it
    [register_model] without an explicit version. *)
Theorem unparsable_version_blocks_generation
        r now model mt metrics config tags descr bad e :
  has_version r mt bad = true ->
  version_key bad = Raise e ->
  exists e',
    _generate_version r mt = Raise e'
    /\ (existsb (String.eqb mt) MODEL_TYPES = true ->
        register_model save_checkpoint md5 r now model mt metrics config
                       tags descr None = Raise e').
Proof.
  intros Hh Hb. rewrite has_version_default in Hh.
  apply contains_dlookup, dlookup_in_keys in Hh.
  assert (Hm : exists e',
             mapM (fun x => k ← version_key x; Ok (k, x))
                  (keys (default [] (index r !! mt))) = Raise e').
  { induction (keys (default [] (index r !! mt))) as [|x l IH];
      [destruct Hh|].
    cbn [mapM]. destruct Hh as [->|Hin].
    - rewrite Hb. cbn [mbind result_bind bind]. eauto.
    - destruct (version_key x); cbn [mbind result_bind bind]; [|eauto].
      destruct (IH Hin) as [e' ->]. eauto. }
  destruct Hm as [e' Hm]. exists e'.
  assert (Hg : _generate_version r mt = Raise e').
  { unfold _generate_version. cbv zeta.
    destruct (keys (default [] (index r !! mt))) as [|x l] eqn:Ek;
      [destruct Hh|].
    now rewrite Hm. }
  split; [exact Hg|]. intros Hmt. unfold register_model.
  rewrite Hmt, Hg. reflexivity.
Qed.
End GeneratedVersions.

Section RegistryWitnesses.
Import Py ModelRegistry.

Lemma set_production_only_flags_witness :
  files Samples.registry4 = files Samples.registry3
  /\ get_version_info Samples.registry4 "behavior" "v1.0.0"
     = Ok Samples.first_version
  /\ (is_production <$> dlookup
        (default [] (index Samples.registry4 !! "behavior")) "v1.0.1")
     = Some true.
Proof.
  destruct (set_production_only_flags
              Samples.registry3 "behavior" "v1.0.1" Samples.registry4
              eq_refl)
    as (Hfiles & _ & _ & _ & Hinfo).
  split; [exact Hfiles|]. split.
  - rewrite (Hinfo "v1.0.0"). reflexivity.
  - reflexivity.
Defined.

Lemma set_production_overrides_witness :
  set_production Samples.registry2 "behavior" "v1.0.0" = Ok Samples.registry2
  /\ set_production Samples.registry2 "behavior" "v9.9.9"
     = set_production Samples.registry1 "behavior" "v9.9.9".
Proof.
  destruct (set_production_overrides
              Samples.registry1 "behavior" "v1.0.0" "v9.9.9"
              Samples.registry2 eq_refl)
    as (Hsame & Hidem & _).
  split; [exact Hidem|exact Hsame].
Defined.




Lemma register_then_get_witness :
  get_version_info Samples.registry1 "behavior" "v1.0.0"
  = Ok Samples.first_version
  /\ get_model Samples.registry1 "behavior" (Some "v1.0.0")
               (Some Samples.behavior_class)
     = Ok (LModel Samples.working_model).
Proof.
  destruct (register_then_get
              Samples.save_checkpoint Samples.md5 Samples.registry0 10 tt
              "behavior" None None None "first" None Samples.first_version
              Samples.registry1 Samples.behavior_class eq_refl)
    as (Hinfo & _ & _ & Hmodel).
  split; [exact Hinfo|]. etransitivity; [exact Hmodel|reflexivity].
Defined.

Lemma compare_versions_symmetry_witness :
  exists forward backward,
    compare_versions Records.scored_registry "behavior" "v1.0.0" "v1.0.1"
    = Ok (["v1.0.0"; "v1.0.1"], forward)
    /\ compare_versions Records.scored_registry "behavior" "v1.0.1" "v1.0.0"
       = Ok (["v1.0.1"; "v1.0.0"], backward)
    /\ is_Some (forward !! "accuracy")
    /\ is_Some (backward !! "accuracy").
Proof.
  destruct (compare_versions_symmetry
              Records.scored_registry "behavior" "v1.0.0" "v1.0.1"
              (ModelVersion_init "v1.0.0" "behavior" 10
                 (Some [ ("accuracy", 0.8%Q) ]) None (Some ["baseline"])
                 "first" false)
              (ModelVersion_init "v1.0.1" "behavior" 20
                 (Some [ ("accuracy", 0.9%Q); ("loss", 0.2%Q) ]) None None
                 "second" false)
              eq_refl eq_refl)
    as (fw & bw & Hf & Hb & Hsym).
  assert (Hacc : is_Some (fw !! "accuracy")).
  { vm_compute in Hf. injection Hf as <-. vm_compute. eauto. }
  exists fw, bw. split; [exact Hf|]. split; [exact Hb|].
  split; [exact Hacc|].
  destruct Hacc as [entry He]. destruct (Hsym _ _ He) as (entry' & He' & _).
  eauto.
Defined.

Lemma auto_version_is_new_witness :
  has_version Samples.registry2 "behavior" "v1.0.1" = false
  /\ get_version_info Samples.registry3 "behavior" "v1.0.0"
     = get_version_info Samples.registry2 "behavior" "v1.0.0"
  /\ length (list_versions Samples.registry3 "behavior" None) = 2%nat.
Proof.
  destruct (auto_version_is_new
              Samples.save_checkpoint Samples.md5 Samples.registry2 20 tt
              "behavior" None None None "second" Records.second_version
              Samples.registry3 eq_refl)
    as (Hnew & Hkeep & Hlen).
  split; [exact Hnew|]. split; [apply Hkeep; reflexivity|].
  rewrite Hlen. reflexivity.
Defined.

Lemma unparsable_version_blocks_generation_witness :
  exists e,
    _generate_version Records.named_registry "behavior" = Raise e
    /\ register_model Samples.save_checkpoint Samples.md5
                      Records.named_registry 20 tt "behavior" None None None
                      "second" None = Raise e.
Proof.
  destruct (unparsable_version_blocks_generation
              Samples.save_checkpoint Samples.md5 Records.named_registry
              20 tt "behavior" None None None "second" "latest"
              (ValueError "invalid literal for int() with base 10: atest")
              eq_refl eq_refl)
    as (e & Hgen & Hreg).
  exists e. split; [exact Hgen|]. apply Hreg. reflexivity.
Defined.
End RegistryWitnesses.

(* ===================================================================== *)
(** ** Router: feedback, heuristics on extracted features, loaders, inputs *)
(* ===================================================================== *)

Section FeedbackBuffer.
Import Py FeatureExtractor ModelInference.

(** [record_feedback] over a list of (feedback, timestamp) pairs. *)
Lemma record_feedback_frame st feedback recorded_at :
  let st' := record_feedback st feedback recorded_at in
  models st' = models st
  /\ model_versions st' = model_versions st
  /\ use_heuristics st' = use_heuristics st
  /\ ((length (feedback_log st) < 100)%nat ->
      length (feedback_log st')
      = ((length (feedback_log st) + 1) mod 100)%nat).
Proof.
  unfold record_feedback. cbv zeta. cbn [feedback_log].
  rewrite length_app. cbn [length].
  destruct (100 <=? _) eqn:E; cbn [_save_feedback_log models model_versions
                                   use_heuristics feedback_log length];
    (split; [reflexivity|]); (split; [reflexivity|]);
    (split; [reflexivity|]); intros Hlt.
  - apply Z.leb_le in E.
    assert (Hn : length (feedback_log st) = 99%nat) by lia.
    rewrite Hn. reflexivity.
  - apply Z.leb_gt in E. rewrite length_app. cbn [length].
    rewrite Nat.mod_small by lia. reflexivity.
Qed.

(** X22. The feedback buffer wraps at one hundred: starting below 100
    entries, after any sequence of [record_feedback] calls it holds the
    number of recorded entries modulo 100, so never 100 or more, and the
    model tables are untouched. *)
Theorem feedback_buffer_wraps st (feedbacks : list (dict value * string)) :
  (length (feedback_log st) < 100)%nat ->
  let st' := fold_left (fun st fb => record_feedback st (fst fb) (snd fb))
                       feedbacks st in
  length (feedback_log st')
  = ((length (feedback_log st) + length feedbacks) mod 100)%nat
  /\ models st' = models st
  /\ model_versions st' = model_versions st
  /\ use_heuristics st' = use_heuristics st.
Proof.
  revert st. induction feedbacks as [|[fb t] l IH]; intros st Hlt;
    cbn [fold_left length fst snd].
  - rewrite Nat.add_0_r, Nat.mod_small by exact Hlt. repeat split.
  - destruct (record_feedback_frame st fb t) as (Hm & Hv & Hu & Hlen).
    specialize (Hlen Hlt).
    assert (Hlt' : (length (feedback_log (record_feedback st fb t)) < 100)%nat).
    { rewrite Hlen. apply Nat.mod_upper_bound. discriminate. }
    destruct (IH _ Hlt') as (H1 & H2 & H3 & H4).
    cbv zeta in *. rewrite H1, H2, H3, H4, Hlen, Hm, Hv, Hu.
    split; [|repeat split].
    rewrite Nat.Div0.add_mod_idemp_l. f_equal. lia.
Qed.
End FeedbackBuffer.

Section AnomalyFlag.
Import Py FeatureExtractor ModelInference.
Local Open Scope Q_scope.

Lemma detect_with_heuristics_recommendations (features : Features) :
  _detect_with_heuristics features !! "recommendations"
  = Some (VList (map VStr (_generate_recommendations
                             (fst (heuristic_anomalies features))))).
Proof.
  unfold _detect_with_heuristics.
  destruct (heuristic_anomalies features) as [anomalies total].
  reflexivity.
Qed.

Lemma rule_chain_count (b1 b2 b3 b4 b5 : bool) (v1 v2 v3 v4 v5 : Q) :
  let acc :=
    rule b5 "extended_inactivity" "medium" v5 0.3
      (rule b4 "low_performance" "high" v4 0.4
         (rule b3 "high_ai_dependency" "low" v3 0.2
            (rule b2 "excessive_tab_switches" "medium" v2 0.3
               (rule b1 "high_paste_frequency" "medium" v1 0.3 ([], 0))))) in
  (geb (snd acc) 0.5 = true <-> (2 <= length (fst acc))%nat)
  /\ length (_generate_recommendations (fst acc)) = length (fst acc)
  /\ length (flat_map type_of_anomaly (fst acc)) = length (fst acc).
Proof.
  destruct b1, b2, b3, b4, b5; cbv zeta;
    (split; [|split; reflexivity]);
    cbn [rule fst snd app length];
    (split; [intros H; first [lia | vm_compute in H; discriminate]
            |intros H; first [reflexivity | cbn in H; lia]]).
Qed.

(** X23. The heuristic detector flags a student exactly when at least two
    of its five rules fire: no single weight reaches the 0.5 threshold and
    every pair does.  Each reported anomaly comes with one
    recommendation. *)
Theorem heuristic_flag_is_two_rules (features : Features) :
  let result := _detect_with_heuristics features in
  exists anomalies recommendations,
    result !! "types" = Some (VList (map VDict anomalies))
    /\ result !! "recommendations" = Some (VList (map VStr recommendations))
    /\ length recommendations = length anomalies
    /\ length (anomaly_type_names result) = length anomalies
    /\ result !! "is_anomalous"
       = Some (VBool (bool_decide (2 <= length anomalies)%nat)).
Proof.
  cbv zeta.
  destruct (detect_with_heuristics_fields features)
    as (Hflag & _ & Htypes & _).
  pose proof (detect_with_heuristics_recommendations features) as Hrec.
  cbv zeta in Hflag, Htypes.
  exists (fst (heuristic_anomalies features)),
         (_generate_recommendations (fst (heuristic_anomalies features))).
  rewrite (anomaly_type_names_types _ _ Htypes).
  split; [exact Htypes|]. split; [exact Hrec|]. rewrite Hflag.
  unfold heuristic_anomalies. cbv zeta.
  match goal with
  | |- context [rule ?b5 _ _ ?v5 _
                  (rule ?b4 _ _ ?v4 _
                     (rule ?b3 _ _ ?v3 _
                        (rule ?b2 _ _ ?v2 _ (rule ?b1 _ _ ?v1 _ _))))] =>
      destruct (rule_chain_count b1 b2 b3 b4 b5 v1 v2 v3 v4 v5)
        as (Hiff & Hr & Ht)
  end.
  cbv zeta in Hiff, Hr, Ht.
  split; [exact Hr|]. split; [exact Ht|].
  do 2 f_equal.
  destruct (geb _ 0.5) eqn:E.
  - symmetry. apply bool_decide_eq_true. now apply Hiff.
  - symmetry. apply bool_decide_eq_false. intros H.
    apply Hiff in H. congruence.
Qed.
End AnomalyFlag.

Section ProbabilityOrder.
Import Py FeatureExtractor ModelInference.
Local Open Scope Q_scope.

Lemma py_min_mono (a b b' : Q) : b <= b' -> Py.min b a <= Py.min b' a.
Proof.
  intros H. rewrite !py_min_Qmin.
  apply Q.min_le_compat_r. exact H.
Qed.

Lemma heuristic_probability_clamp (features : Features) :
  heuristic_probability features
  == Qmax 0 (Qmin 1 (weighted_probability features)).
Proof.
  unfold heuristic_probability. cbv zeta.
  rewrite py_max_Qmax, py_min_Qmin. apply clamp_literals.
Qed.

(** X24. The heuristic success probability is monotone in its five
    inputs: a student whose success rate, average score and learning
    velocity are not lower, and whose AI dependency and days since the
    last session are not higher, never gets a lower probability. *)
Theorem heuristic_probability_monotone (f f' : Features) :
  get (group (performance f)) "success_rate" 50
  <= get (group (performance f')) "success_rate" 50 ->
  get (group (performance f)) "avg_score" 50
  <= get (group (performance f')) "avg_score" 50 ->
  get (group (ai_interaction f')) "ai_dependency_score" 0.3
  <= get (group (ai_interaction f)) "ai_dependency_score" 0.3 ->
  get (group (temporal f)) "learning_velocity" 50
  <= get (group (temporal f')) "learning_velocity" 50 ->
  get (group (temporal f')) "days_since_last_session" 7
  <= get (group (temporal f)) "days_since_last_session" 7 ->
  heuristic_probability f <= heuristic_probability f'.
Proof.
  intros Hs Ha Hd Hv Hdays.
  rewrite !heuristic_probability_clamp.
  apply Q.max_le_compat_l, Q.min_le_compat_l.
  unfold weighted_probability. cbv zeta.
  assert (H100 : 0 < f64 100) by (vm_compute; reflexivity).
  assert (H7 : 0 < f64 7) by (vm_compute; reflexivity).
  assert (Hc : forall c a a', Qle_bool 0 c = true -> a <= a' ->
                              fmul c a <= fmul c a')
    by (intros c a a' H; apply fmul_le; now apply Qle_bool_iff).
  apply fadd_le; [apply fadd_le; [apply fadd_le; [apply fadd_le|]|]|].
  - apply Hc; [reflexivity|]. apply fdiv_le; assumption.
  - apply Hc; [reflexivity|]. apply fdiv_le; assumption.
  - apply Hc; [reflexivity|]. apply fsub_le; [apply Qle_refl|exact Hd].
  - apply Hc; [reflexivity|]. apply fdiv_le; assumption.
  - apply Hc; [reflexivity|]. apply fsub_le; [apply Qle_refl|].
    apply py_min_mono. apply fdiv_le; assumption.
Qed.
End ProbabilityOrder.

Section HintHistory.
Import Py FeatureExtractor ModelInference.
Local Open Scope Q_scope.

Lemma avg_hint_level_bounds db oid cutoff_date twin (lo hi : Q) :
  let hints := student_hints db oid cutoff_date in
  hints <> [] ->
  Forall (fun h => lo <= or_else (hintLevel h) 1 <= hi) hints ->
  lo <= get (_extract_ai_features db oid cutoff_date twin)
            "avg_hint_level" 2 <= hi.
Proof.
  intros hints Hne Hall. unfold _extract_ai_features. fold hints.
  destruct (is_empty hints) eqn:E;
    [destruct hints; [congruence|discriminate]|].
  change (get _ "avg_hint_level" 2)
    with (sum (map (fun h => or_else (hintLevel h) 1) hints) / qlen hints).
  now apply average_bounds.
Qed.

(** X25. For a student with at least one hint request in the window, all
    of whose levels lie between 1 and 5, [get_personalized_hint] suggests
    a level between 1 and 5, whatever the attempt number, the time spent
    and the rest of the database. *)
Theorem hint_level_from_history
    (db : Database) (now : datetime) (lookback_days : Z) (st : State)
    (student_id oid activity_id code_context : string)
    (error_context : option string) (attempt_number time_spent : Z) :
  ObjectId student_id = Ok oid ->
  let hints := student_hints db oid (now - days lookback_days)%Z in
  hints <> [] ->
  Forall (fun h => 1 <= or_else (hintLevel h) 1 <= 5) hints ->
  exists level : Z,
    get_personalized_hint
      (fun s => extract_student_features db now s lookback_days)
      st student_id activity_id code_context error_context
      attempt_number time_spent !! "suggested_level"
    = Some (VNum (inject_Z level))
    /\ (1 <= level <= 5)%Z.
Proof.
  intros Hid hints Hne Hall.
  unfold get_personalized_hint. rewrite (extract_ok _ _ _ _ _ Hid).
  cbn [mbind result_bind bind is_falsy FeatureExtractor.student_id
       ai_interaction performance group or_else]. cbv zeta.
  set (avg := get (_extract_ai_features _ _ _ _) "avg_hint_level" 2).
  assert (Havg : 1 <= avg <= 5)
    by (apply avg_hint_level_bounds; assumption).
  match goal with
  | |- context [suggest_level ?d ?s avg ?a ?t] =>
      pose proof (suggest_level_in_range d s avg a t Havg) as Hlev;
      destruct (suggest_level d s avg a t) as [[level indep] reasoning]
  end.
  cbn [fst] in Hlev. exists level. split; [|exact Hlev].
  reflexivity.
Qed.
End HintHistory.

Section HeuristicPath.
Import Py FeatureExtractor ModelInference.
Local Open Scope Q_scope.

Lemma difficulty_level_cases db oid cutoff_date twin :
  let d := get (_extract_performance_features db oid cutoff_date twin)
               "difficulty_level" 1 in
  d = 0 \/ d = 1 \/ d = 2.
Proof.
  cbv zeta. unfold _extract_performance_features.
  destruct (is_empty (student_submissions db oid cutoff_date));
    [right; left; reflexivity|].
  cbn. destruct (gtb _ 0); [now right; right|].
  destruct (gtb _ 0); [now right; left|now left].
Qed.

(** X26. With the heuristic binding, [get_optimal_path] never falls back
    to the default response for a well-formed student id: the difficulty
    level an extraction yields is 0, 1 or 2, so the recommended difficulty
    is always one of easy, medium and hard, and the response is tagged
    heuristic-v1. *)
Theorem heuristic_path_for_extracted
    (db : Database) (now : datetime) (lookback_days : Z) (st : State)
    (student_id oid : string) (target_competency : option string)
    (num_activities : Z) :
  ObjectId student_id = Ok oid ->
  default true (use_heuristics st !! "learning_path") = true ->
  let response :=
    get_optimal_path
      (fun s => extract_student_features db now s lookback_days)
      st student_id target_competency num_activities in
  (exists name,
      In name ["easy"; "medium"; "hard"]
      /\ response !! "recommended_difficulty" = Some (VStr name))
  /\ response !! "model_version" = Some (VStr "heuristic-v1")
  /\ response !! "estimated_time"
     = Some (VNum (inject_Z (num_activities * 30))).
Proof.
  intros Hid Hheur. cbv zeta.
  unfold get_optimal_path. rewrite (extract_ok _ _ _ _ _ Hid).
  cbn [mbind result_bind bind is_falsy FeatureExtractor.student_id].
  rewrite Hheur.
  cbn [negb]. unfold _get_path_with_heuristics. cbv zeta.
  cbn [performance group or_else].
  pose proof (difficulty_level_cases db oid (now - days lookback_days)%Z
                (or_else (find_one oid (student_twins db)) empty_twin))
    as Hd.
  cbv zeta in Hd.
  set (p := _extract_performance_features _ _ _ _) in *.
  destruct (geb (get p "success_rate" 50) 80);
    [|destruct (geb (get p "success_rate" 50) 50)];
    destruct Hd as [Hd | [Hd | Hd]]; rewrite Hd;
    cbn [mbind result_bind bind try_except];
    (split; [eexists; split; [|reflexivity]; cbn; tauto|]);
    split; reflexivity.
Qed.
End HeuristicPath.

Section LoadedVersion.
Import Py FeatureExtractor ModelInference.
Variable MINDSPORE_AVAILABLE : bool.
Variable StudentBehaviorModel_class :
  ModelRegistry.ModelClass StudentBehaviorModel.
Variable BehaviorVAE_class : ModelRegistry.ModelClass BehaviorVAE.
Variable AnomalyDetector_init : BehaviorVAE -> Q -> result AnomalyDetector.
Variable LearningPathAgent_init : dict value -> result LearningPathAgent.

(** X27. A loader leaves one of two bindings: the heuristic one, or a
    trained predictor tagged with the production version the registry
    holds for the capability's model type (which then exists, is not the
    empty string, and was loaded with the runtime available). *)
Theorem loaded_version_is_production c reg st :
  let st' := load MINDSPORE_AVAILABLE StudentBehaviorModel_class
                  BehaviorVAE_class AnomalyDetector_init
                  LearningPathAgent_init c reg st in
  binding st' (cap_name c) = heuristic_binding
  \/ exists p ver,
       binding st' (cap_name c) = (Some p, Some ver, Some false)
       /\ p <> PNone
       /\ ver <> ""
       /\ MINDSPORE_AVAILABLE = true
       /\ ModelRegistry.get_production_version reg (cap_model_type c)
          = Some ver.
Proof.
  cbv zeta. unfold load.
  destruct c; cbv beta iota;
    [unfold _load_behavior_model, try_load_behavior_model
    |unfold _load_anomaly_model, try_load_anomaly_model
    |unfold _load_learning_path_model, try_load_learning_path_model];
    cbv zeta; cbn [cap_name cap_model_type];
    unfold mbind, result_bind, bind, bind_heuristic.
  - destruct MINDSPORE_AVAILABLE;
      [|left; cbn [try_except]; apply binding_set_eq].
    destruct (ModelRegistry.get_production_version reg "behavior")
      as [ver|]; [|left; cbn [try_except]; apply binding_set_eq].
    destruct (String.eqb ver "") eqn:Ev;
      [left; cbn [try_except]; apply binding_set_eq|].
    apply String.eqb_neq in Ev.
    destruct (ModelRegistry.get_model _ _ _ _) as [[model|path]|e];
      try (left; cbn [try_except]; apply binding_set_eq).
    destruct (sbm_set_train model false) as [[]|e];
      [|left; cbn [try_except]; apply binding_set_eq].
    right. exists (PBehavior model), ver. cbn [try_except].
    rewrite binding_set_eq. repeat split; try assumption. discriminate.
  - destruct MINDSPORE_AVAILABLE;
      [|left; cbn [try_except]; apply binding_set_eq].
    destruct (ModelRegistry.get_production_version reg "anomaly")
      as [ver|]; [|left; cbn [try_except]; apply binding_set_eq].
    destruct (String.eqb ver "") eqn:Ev;
      [left; cbn [try_except]; apply binding_set_eq|].
    apply String.eqb_neq in Ev.
    destruct (ModelRegistry.get_model _ _ _ _) as [[model|path]|e];
      try (left; cbn [try_except]; apply binding_set_eq).
    destruct (AnomalyDetector_init model 0.7%Q) as [detector|e];
      [|left; cbn [try_except]; apply binding_set_eq].
    right. exists (PDetector detector), ver. cbn [try_except].
    rewrite binding_set_eq. repeat split; try assumption. discriminate.
  - destruct MINDSPORE_AVAILABLE;
      [|left; cbn [try_except]; apply binding_set_eq].
    destruct (ModelRegistry.get_production_version reg "learning_path")
      as [ver|]; [|left; cbn [try_except]; apply binding_set_eq].
    destruct (String.eqb ver "") eqn:Ev;
      [left; cbn [try_except]; apply binding_set_eq|].
    apply String.eqb_neq in Ev.
    destruct (ModelRegistry.get_version_info _ _ _) as [info|e];
      [|left; cbn [try_except]; apply binding_set_eq].
    destruct (LearningPathAgent_init _) as [agent|e];
      [|left; cbn [try_except]; apply binding_set_eq].
    destruct (ModelRegistry.get_model _ _ _ _) as [[model|path]|e];
      try (left; cbn [try_except]; apply binding_set_eq).
    destruct (agent_load agent (dirname path)) as [[]|e];
      [|left; cbn [try_except]; apply binding_set_eq].
    right. exists (PAgent agent), ver. cbn [try_except].
    rewrite binding_set_eq. repeat split; try assumption. discriminate.
Qed.
End LoadedVersion.

Section InputShapes.
Import Py FeatureExtractor ModelInference.
Local Open Scope Q_scope.

Lemma length_repeat_list {A} (x : A) (n : Z) :
  length (repeat_list x n) = Z.to_nat n.
Proof. unfold repeat_list. apply repeat_length. Qed.

Lemma length_slice_to {A} (l : list A) (n : Z) :
  (0 <= n)%Z -> length (slice_to l n) = Nat.min (Z.to_nat n) (length l).
Proof.
  intros Hn. unfold slice_to.
  destruct (n <? 0)%Z eqn:E; [apply Z.ltb_lt in E; lia|].
  apply length_firstn.
Qed.

(** X28. The inputs the router prepares for trained predictors: the
    detector's vector and the agent's state have exactly the predictor's
    width (zero-padded or truncated), while the ten rows of the behavior
    model's sequence are padded up to its width but never truncated, so a
    longer feature vector reaches the model at its own length. *)
Theorem model_input_lengths
    (features : Features) (model : StudentBehaviorModel)
    (detector : AnomalyDetector) (agent : LearningPathAgent) :
  (0 <= sbm_input_dim model)%Z ->
  (0 <= vae_input_dim (det_model detector))%Z ->
  (0 <= state_dim agent)%Z ->
  let n := length (or_else (feature_vector features) []) in
  length (detector_input features detector)
  = Z.to_nat (vae_input_dim (det_model detector))
  /\ length (agent_state features agent) = Z.to_nat (state_dim agent)
  /\ length (behavior_sequence features model) = 10%nat
  /\ Forall (fun row => length row
                        = Nat.max (Z.to_nat (sbm_input_dim model)) n)
            (behavior_sequence features model).
Proof.
  intros Hm Hd Ha n. subst n. split; [|split; [|split]].
  - unfold detector_input. cbv zeta.
    set (fv := or_else (feature_vector features) []) in *.
    destruct (Z.of_nat (length fv) <? vae_input_dim (det_model detector))%Z
      eqn:E.
    + apply Z.ltb_lt in E. rewrite length_slice_to by exact Hd.
      rewrite length_app, length_repeat_list. lia.
    + apply Z.ltb_ge in E. rewrite length_slice_to by exact Hd. lia.
  - unfold agent_state. cbv zeta.
    set (fv := or_else (feature_vector features) []) in *.
    pose proof (length_slice_to fv (state_dim agent) Ha) as Hs.
    destruct (Z.of_nat (length (slice_to fv (state_dim agent)))
              <? state_dim agent)%Z eqn:E.
    + rewrite length_app, length_repeat_list. lia.
    + apply Z.ltb_ge in E. lia.
  - unfold behavior_sequence. cbv zeta. apply length_repeat_list.
  - unfold behavior_sequence. cbv zeta.
    set (fv := or_else (feature_vector features) []) in *.
    unfold repeat_list at 1. apply List.Forall_forall. intros row Hrow.
    apply repeat_spec in Hrow. subst row.
    destruct (is_empty fv) eqn:Ee.
    + destruct fv; [|discriminate]. cbn [orb].
      rewrite length_app, !length_repeat_list. cbn [length]. lia.
    + cbn [orb].
      destruct (Z.of_nat (length fv) <? sbm_input_dim model)%Z eqn:E.
      * apply Z.ltb_lt in E.
        rewrite length_app, length_repeat_list, length_slice_to by exact Hm.
        lia.
      * apply Z.ltb_ge in E. lia.
Qed.
End InputShapes.

Section Confidence.
Import Py FeatureExtractor ModelInference.
Local Open Scope Q_scope.

Lemma length_keys {V} (d : list (string * V)) : length (keys d) = length d.
Proof. unfold keys. apply length_map. Qed.

Lemma confidence_of_extracted db now student_id lookback_days f :
  extract_student_features db now student_id lookback_days = Ok f ->
  _calculate_confidence f = Py.min (13 / 20) 1.0.
Proof.
  intros H.
  apply extraction_groups in H
    as (b & p & a & t & Hb & Hp & _ & _ & Kb & Kp & _).
  unfold _calculate_confidence. cbv zeta. rewrite Hb, Hp.
  cbn [group or_else]. unfold qlen.
  rewrite <- (length_keys b), <- (length_keys p), Kb, Kp.
  reflexivity.
Qed.

(** X29. The heuristic confidence does not depend on the data: every
    extraction returns the same seven behavioral and six performance
    features, so [_calculate_confidence] is 13/20 for every student, and
    the heuristic prediction reports confidence 0.65. *)
Theorem heuristic_confidence_is_constant
    (db : Database) (now : datetime) (lookback_days : Z) (st : State)
    (student_id : string) (activity_id : option string) (f : Features) :
  extract_student_features db now student_id lookback_days = Ok f ->
  default true (use_heuristics st !! "behavior_prediction") = true ->
  _calculate_confidence f == 0.65
  /\ exists q,
       predict_success
         (fun s => extract_student_features db now s lookback_days)
         st student_id activity_id !! "confidence" = Some (VNum q)
       /\ q == 0.65.
Proof.
  intros H Hheur. pose proof (confidence_of_extracted _ _ _ _ _ H) as Hc.
  split; [now rewrite Hc|].
  unfold predict_success. rewrite H. cbn [mbind result_bind bind].
  assert (Hf : is_falsy f = false).
  { unfold extract_student_features in H.
    destruct (ObjectId student_id); [|discriminate].
    cbn [mbind result_bind bind] in H. now injection H as <-. }
  rewrite Hf, Hheur. cbn [negb try_except].
  unfold _predict_with_heuristics. cbv zeta. rewrite Hc.
  eexists. split; [reflexivity|]. reflexivity.
Qed.
End Confidence.

Section RouterWitnesses.
Import Py FeatureExtractor ModelInference.
Local Open Scope Q_scope.

Lemma feedback_buffer_wraps_witness :
  length (feedback_log
            (fold_left (fun st fb => record_feedback st (fst fb) (snd fb))
                       Records.feedbacks Samples.empty_state)) = 3%nat
  /\ models (fold_left (fun st fb => record_feedback st (fst fb) (snd fb))
                       Records.feedbacks Samples.empty_state)
     = models Samples.empty_state.
Proof.
  destruct (feedback_buffer_wraps Samples.empty_state Records.feedbacks)
    as (Hlen & Hmodels & _); [cbn; lia|].
  split; [rewrite Hlen; reflexivity|exact Hmodels].
Defined.

Lemma heuristic_probability_monotone_witness :
  heuristic_probability Records.struggling_student
  <= heuristic_probability Samples.steady_student.
Proof.
  apply heuristic_probability_monotone; vm_compute; discriminate.
Defined.

Lemma hint_level_from_history_witness :
  exists level : Z,
    get_personalized_hint Records.busy_extractor Samples.empty_state
      Samples.new_student "a1" "print(1)" None 1 0 !! "suggested_level"
    = Some (VNum (inject_Z level))
    /\ (1 <= level <= 5)%Z.
Proof.
  apply (hint_level_from_history
           Records.busy_db Samples.now 90 Samples.empty_state
           Samples.new_student Samples.new_student "a1" "print(1)" None 1 0).
  - reflexivity.
  - discriminate.
  - repeat constructor; cbn; lra.
Defined.

Lemma heuristic_path_for_extracted_witness :
  (exists name,
      In name ["easy"; "medium"; "hard"]
      /\ get_optimal_path Records.busy_extractor Samples.empty_state
           Samples.new_student None 5 !! "recommended_difficulty"
         = Some (VStr name))
  /\ get_optimal_path Records.busy_extractor Samples.empty_state
       Samples.new_student None 5 !! "model_version"
     = Some (VStr "heuristic-v1")
  /\ get_optimal_path Records.busy_extractor Samples.empty_state
       Samples.new_student None 5 !! "estimated_time"
     = Some (VNum (inject_Z 150)).
Proof.
  apply (heuristic_path_for_extracted
           Records.busy_db Samples.now 90 Samples.empty_state
           Samples.new_student Samples.new_student None 5);
    reflexivity.
Defined.

Lemma model_input_lengths_witness :
  length (detector_input Records.busy_features Samples.broken_detector)
  = 15%nat
  /\ length (agent_state Records.busy_features Samples.broken_agent)
     = 53%nat
  /\ length (behavior_sequence Records.busy_features Samples.working_model)
     = 10%nat
  /\ Forall (fun row => length row = 22%nat)
            (behavior_sequence Records.busy_features Samples.working_model).
Proof.
  destruct (model_input_lengths Records.busy_features Samples.working_model
              Samples.broken_detector Samples.broken_agent)
    as (Hd & Ha & Hs & Hrows); [cbn; lia|cbn; lia|cbn; lia|].
  split; [exact Hd|]. split; [exact Ha|]. split; [exact Hs|].
  exact Hrows.
Defined.

Lemma heuristic_confidence_is_constant_witness :
  _calculate_confidence Records.busy_features == 0.65
  /\ exists q,
       predict_success Records.busy_extractor Samples.empty_state
                       Samples.new_student None !! "confidence"
       = Some (VNum q)
       /\ q == 0.65.
Proof.
  apply (heuristic_confidence_is_constant
           Records.busy_db Samples.now 90 Samples.empty_state
           Samples.new_student None Records.busy_features);
    reflexivity.
Defined.
End RouterWitnesses.
